(** * zerotier-qt: the controller layer of [main.py]

    A shallow embedding of the controller functions of the Qt front-end
    ([get_token], [get_status], [change_config], [is_on_network],
    [join_network], [get_interface_state], [leave_network],
    [toggle_interface], [setup_auth_token], [about_window] and
    [MainWindow.refresh_networks]) together with the Python built-ins
    they rely on, followed by the properties of the specification that
    are settled against them.

    Conventions.  Python [str] and [bytes] are both Rocq [string]s over
    7-bit characters; a dynamically typed Python value (what [json.loads]
    returns, or the untyped [value] argument of [change_config]) is a
    [value]; floats are not modelled.  Everything outside the program
    (files, external commands, the answers a user gives to a dialog) is
    an [env], a function of the history of effects so far, so that each
    call observes a possibly different outside world.  A controller
    function is a computation in [M]: it passes the process [state]
    (the cached token, the trace of effects, the two widgets of the main
    window) and returns a value or raises.  [json.loads] is a parameter
    of the development: every statement holds for any decoder. *)

From Stdlib Require Import ZArith Ascii String List Bool Lia.
From stdpp Require Import base tactics option list strings gmap pretty.

Local Open Scope string_scope.
Local Open Scope Z_scope.

(** ** Python built-ins *)

Module Py.

(** [str.isspace] on a single ASCII character: TAB, LF, VT, FF, CR,
    FS, GS, RS, US and SPACE. *)
Definition isspace (c : ascii) : bool :=
  let n := nat_of_ascii c in
  ((9 <=? n)%nat && (n <=? 13)%nat) || ((28 <=? n)%nat && (n <=? 32)%nat).

Fixpoint lstrip (s : string) : string :=
  match s with
  | String c s' => if isspace c then lstrip s' else s
  | EmptyString => EmptyString
  end.

(** Removes the trailing white space; [None] stands for a string that
    is white space only. *)
Fixpoint rstrip_aux (s : string) : option string :=
  match s with
  | EmptyString => None
  | String c s' =>
      match rstrip_aux s' with
      | Some t => Some (String c t)
      | None => if isspace c then None else Some (String c EmptyString)
      end
  end.

Definition rstrip (s : string) : string := default EmptyString (rstrip_aux s).

(** [s.strip()] *)
Definition strip (s : string) : string := rstrip (lstrip s).

(** [s.split()] with no separator: the maximal runs of characters that
    are not white space, in order.  [cur] is the run being read,
    most recent character first. *)
Fixpoint split_from (cur : list ascii) (s : string) : list string :=
  match s with
  | EmptyString =>
      match cur with
      | [] => []
      | _ => [string_of_list_ascii (rev cur)]
      end
  | String c s' =>
      if isspace c then
        match cur with
        | [] => split_from [] s'
        | _ => string_of_list_ascii (rev cur) :: split_from [] s'
        end
      else split_from (c :: cur) s'
  end.

Definition split (s : string) : list string := split_from [] s.

Definition lower_char (c : ascii) : ascii :=
  let n := nat_of_ascii c in
  if (65 <=? n)%nat && (n <=? 90)%nat then ascii_of_nat (n + 32) else c.

(** [s.lower()] *)
Fixpoint lower (s : string) : string :=
  match s with
  | EmptyString => EmptyString
  | String c s' => String (lower_char c) (lower s')
  end.

Definition startswith_slash (s : string) : bool :=
  match s with
  | String "/" _ => true
  | _ => false
  end.

Fixpoint endswith_slash (s : string) : bool :=
  match s with
  | EmptyString => false
  | String c EmptyString => Ascii.eqb c "/"
  | String _ s' => endswith_slash s'
  end.

(** [os.path.join(a, b)] (posixpath): an absolute [b] replaces [a]. *)
Definition path_join (a b : string) : string :=
  if startswith_slash b then b
  else if String.eqb a "" || endswith_slash a then a ++ b
  else a ++ "/" ++ b.

Definition digit_of (c : ascii) : option Z :=
  let n := nat_of_ascii c in
  if (48 <=? n)%nat && (n <=? 57)%nat then Some (Z.of_nat n - 48) else None.

(** The digits of an [int(...)] literal: decimal digits, where single
    underscores may stand between two digits.  [acc] is the number
    read so far, [after_digit] tells whether the previous character
    was a digit. *)
Fixpoint digits_from (after_digit : bool) (acc : Z) (s : string) : option Z :=
  match s with
  | EmptyString => if after_digit then Some acc else None
  | String c s' =>
      match digit_of c with
      | Some d => digits_from true (10 * acc + d) s'
      | None =>
          if Ascii.eqb c "_" && after_digit then digits_from false acc s'
          else None
      end
  end.

(** [int(s)] for a string, base 10; [None] is the [ValueError]. *)
Definition int_of_str (s : string) : option Z :=
  match strip s with
  | String "-" r => Z.opp <$> digits_from false 0 r
  | String "+" r => digits_from false 0 r
  | r => digits_from false 0 r
  end.

(** [str(n)] for an integer. *)
Definition str_of_int (n : Z) : string := pretty n.

(** [s.split(sep)] for a separator of one character: the pieces between
    the separators, empty ones included. *)
Fixpoint split_on (sep : ascii) (s : string) : list string :=
  match s with
  | EmptyString => [EmptyString]
  | String c s' =>
      if Ascii.eqb c sep then EmptyString :: split_on sep s'
      else
        match split_on sep s' with
        | piece :: pieces => String c piece :: pieces
        | [] => [String c EmptyString]
        end
  end.

(** The text before and after the first [sep] of [s], if there is one. *)
Fixpoint partition (sep : ascii) (s : string) : option (string * string) :=
  match s with
  | EmptyString => None
  | String c s' =>
      if Ascii.eqb c sep then Some (EmptyString, s')
      else
        match partition sep s' with
        | Some (before, behind) => Some (String c before, behind)
        | None => None
        end
  end.

(** [s.split(sep, 1)] for a separator of one character. *)
Definition split_once (sep : ascii) (s : string) : list string :=
  match partition sep s with
  | Some (before, behind) => [before; behind]
  | None => [s]
  end.

(** What text mode with universal newlines does to the line ends: CR LF
    and a lone CR both become LF. *)
Fixpoint translate_newlines (s : string) : string :=
  match s with
  | EmptyString => EmptyString
  | String c s' =>
      if Nat.eqb (nat_of_ascii c) 13 then
        match s' with
        | String c' s'' =>
            if Nat.eqb (nat_of_ascii c') 10 then String c' (translate_newlines s'')
            else String (ascii_of_nat 10) (translate_newlines s')
        | EmptyString => String (ascii_of_nat 10) EmptyString
        end
      else String c (translate_newlines s')
  end.

(** [s.replace(old, new)] for a non-empty [old]: the occurrences of [old]
    are replaced from left to right.  [skip] counts the characters of
    the occurrence being replaced that are still to be passed over. *)
Fixpoint replace_from (old new : string) (skip : nat) (s : string) : string :=
  match s with
  | EmptyString => EmptyString
  | String c s' =>
      match skip with
      | S skip' => replace_from old new skip' s'
      | O =>
          if String.prefix old s then new ++ replace_from old new (String.length old - 1) s'
          else String c (replace_from old new 0 s')
      end
  end.

Definition replace (old new s : string) : string := replace_from old new 0 s.

End Py.

(** ** Dynamically typed values

    What [json.loads] returns (and what the untyped parameters of the
    controller may hold): [None], booleans, integers, strings, lists and
    dictionaries with string keys, in insertion order. *)

#[warnings="-register-all"] Inductive value : Type :=
| VNone
| VBool (b : bool)
| VInt (n : Z)
| VStr (s : string)
| VList (items : list value)
| VDict (entries : list (string * value)).

(** Exceptions the controller can meet.  [OSError] stands for
    [FileNotFoundError] and its siblings, raised for a file that cannot
    be opened or an executable that cannot be started.  [OsExit] is not
    an exception: it is [os._exit(code)], which ends the process on the
    spot, so that no handler sees it. *)
Inductive exn : Type :=
| OSError (path : string)
| CalledProcessError (returncode : Z) (cmd : list string) (output : string)
| JSONDecodeError
| ValueError
| TypeError
| AttributeError
| KeyError (key : string)
| IndexError
| UnboundLocalError (name : string)
| UnicodeDecodeError
| OsExit (code : Z).

(** The result of a computation that may raise. *)
Inductive res (A : Type) : Type :=
| Ok (a : A)
| Raise (e : exn).
Arguments Ok {A} a.
Arguments Raise {A} e.

#[global] Instance res_ret : MRet res := fun A a => Ok a.
#[global] Instance res_bind : MBind res := fun A B f r =>
  match r with
  | Ok a => f a
  | Raise e => Raise e
  end.

Definition is_Ok {A} (r : res A) : bool :=
  match r with
  | Ok _ => true
  | Raise _ => false
  end.

Module Dyn.

Fixpoint assoc (k : string) (entries : list (string * value)) : option value :=
  match entries with
  | [] => None
  | (k', v) :: rest => if String.eqb k' k then Some v else assoc k rest
  end.

(** [v[key]] for a string key. *)
Definition getitem (v : value) (key : string) : res value :=
  match v with
  | VDict entries =>
      match assoc key entries with
      | Some x => Ok x
      | None => Raise (KeyError key)
      end
  | _ => Raise TypeError
  end.

Fixpoint chars (s : string) : list value :=
  match s with
  | EmptyString => []
  | String c s' => VStr (String c EmptyString) :: chars s'
  end.

(** [v[i]] for a position [i] taken from [range(len(v))]. *)
Definition getindex (v : value) (i : nat) : res value :=
  match v with
  | VList items =>
      match items !! i with
      | Some x => Ok x
      | None => Raise IndexError
      end
  | VStr s =>
      match chars s !! i with
      | Some x => Ok x
      | None => Raise IndexError
      end
  | VDict _ => Raise (KeyError (Py.str_of_int (Z.of_nat i)))
  | _ => Raise TypeError
  end.

(** [len(v)] *)
Definition len (v : value) : res nat :=
  match v with
  | VList items => Ok (length items)
  | VDict entries => Ok (length entries)
  | VStr s => Ok (String.length s)
  | _ => Raise TypeError
  end.

(** The elements a [for] loop over [v] visits. *)
Definition iter (v : value) : res (list value) :=
  match v with
  | VList items => Ok items
  | VDict entries => Ok (map (fun kv => VStr (fst kv)) entries)
  | VStr s => Ok (chars s)
  | _ => Raise TypeError
  end.

(** [a == b] *)
Fixpoint eq (a b : value) {struct a} : bool :=
  match a, b with
  | VNone, VNone => true
  | VBool x, VBool y => Bool.eqb x y
  | VBool x, VInt y => Z.b2z x =? y
  | VInt x, VBool y => x =? Z.b2z y
  | VInt x, VInt y => x =? y
  | VStr x, VStr y => String.eqb x y
  | VList xs, VList ys =>
      (fix go (xs ys : list value) : bool :=
         match xs, ys with
         | [], [] => true
         | x :: xs', y :: ys' => eq x y && go xs' ys'
         | _, _ => false
         end) xs ys
  | VDict xs, VDict ys =>
      (length xs =? length ys)%nat &&
      (fix go (xs : list (string * value)) : bool :=
         match xs with
         | [] => true
         | (k, x) :: xs' =>
             match assoc k ys with
             | Some y => eq x y
             | None => false
             end && go xs'
         end) xs
  | _, _ => false
  end.

(** Truth value of [v] in a condition. *)
Definition truthy (v : value) : bool :=
  match v with
  | VNone => false
  | VBool b => b
  | VInt n => negb (n =? 0)
  | VStr s => negb (String.eqb s "")
  | VList items => negb (Nat.eqb (length items) 0)
  | VDict entries => negb (Nat.eqb (length entries) 0)
  end.

(** [v.lower()]: only strings have the method. *)
Definition lower (v : value) : res string :=
  match v with
  | VStr s => Ok (Py.lower s)
  | _ => Raise AttributeError
  end.

(** [int(v)] *)
Definition int (v : value) : res Z :=
  match v with
  | VBool b => Ok (Z.b2z b)
  | VInt n => Ok n
  | VStr s =>
      match Py.int_of_str s with
      | Some n => Ok n
      | None => Raise ValueError
      end
  | _ => Raise TypeError
  end.

Definition hex_digit (n : nat) : ascii :=
  if (n <? 10)%nat then ascii_of_nat (48 + n) else ascii_of_nat (87 + n).

Definition contains (c : ascii) (s : string) : bool :=
  existsb (Ascii.eqb c) (list_ascii_of_string s).

Definition dquote : ascii := ascii_of_nat 34.

Definition repr_char (quote c : ascii) : string :=
  let n := nat_of_ascii c in
  if Ascii.eqb c quote || Ascii.eqb c "\" then String "\" (String c "")
  else if Nat.eqb n 9 then "\t"
  else if Nat.eqb n 10 then "\n"
  else if Nat.eqb n 13 then "\r"
  else if (n <? 32)%nat || Nat.eqb n 127 then
    String "\" (String "x" (String (hex_digit (n / 16)) (String (hex_digit (n mod 16)) "")))
  else String c "".

(** [repr(s)] for a string: single quotes, unless the string holds a
    single quote and no double quote. *)
Definition repr_str (s : string) : string :=
  let quote : ascii :=
    if contains "'" s && negb (contains dquote s) then dquote else "'"%char in
  String quote
    (fold_right (fun c acc => repr_char quote c ++ acc) (String quote "")
       (list_ascii_of_string s)).

Definition join_comma (parts : list string) : string :=
  match parts with
  | [] => ""
  | p :: ps => fold_left (fun acc q => acc ++ ", " ++ q) ps p
  end.

(** [repr(v)] *)
Fixpoint repr (v : value) : string :=
  match v with
  | VNone => "None"
  | VBool true => "True"
  | VBool false => "False"
  | VInt n => Py.str_of_int n
  | VStr s => repr_str s
  | VList items => "[" ++ join_comma (map repr items) ++ "]"
  | VDict entries =>
      "{" ++ join_comma (map (fun kv => repr_str (fst kv) ++ ": " ++ repr (snd kv)) entries)
          ++ "}"
  end.

(** [str(v)] *)
Definition str (v : value) : string :=
  match v with
  | VStr s => s
  | _ => repr v
  end.

(** [v[i]] for any integer [i]: a negative position counts from the
    end. *)
Definition getindex_int (v : value) (i : Z) : res value :=
  match v with
  | VList items =>
      let n := Z.of_nat (length items) in
      if (0 <=? i) && (i <? n) then getindex v (Z.to_nat i)
      else if (- n <=? i) && (i <? 0) then getindex v (Z.to_nat (n + i))
      else Raise IndexError
  | VStr s =>
      let n := Z.of_nat (String.length s) in
      if (0 <=? i) && (i <? n) then getindex v (Z.to_nat i)
      else if (- n <=? i) && (i <? 0) then getindex v (Z.to_nat (n + i))
      else Raise IndexError
  | VDict _ => Raise (KeyError (Py.str_of_int i))
  | _ => Raise TypeError
  end.

End Dyn.

(** ** The outside world and the process state *)

Inductive button : Type := Yes | No.

Inductive dialog : Type := Information | Warning | Critical | Question | About.

(** The effects of the controller, in the order they happen. *)
Inductive event : Type :=
| Isfile (path : string)
| Open (path : string)
| Makedirs (path : string)
| Exec (argv : list string)
| MessageBox (kind : dialog) (title text : string).

(** Everything the program reads from outside.  [files] maps the
    absolute path of each regular file the process can see to its text;
    [run] gives, for a command line, the exit status and the captured
    output ([None]: the executable does not exist); [answer] is the
    button the user presses in a question box.  All three depend on the
    effects that happened before, so the world may change between two
    calls. *)
Record env : Type := {
  getuid : Z;
  getgid : Z;
  getcwd : string;
  HomeLocation : string;
  GenericConfigLocation : string;
  files : list event -> gmap string string;
  run : list event -> list string -> option (Z * string);
  answer : list event -> string -> string -> button;
}.

Record row : Type := { cells : list string; gray : bool }.

(** The mutable state of the process: the module-level [authtoken], the
    effects so far, and the two widgets [refresh_networks] writes. *)
Record state : Type := {
  authtoken : option string;
  trace : list event;
  statusLabel : string;
  networksTable : list row;
}.

Definition initial : state :=
  {| authtoken := None; trace := []; statusLabel := ""; networksTable := [] |}.

(** Computations of the controller: state passing with exceptions. *)
Definition M (A : Type) : Type := state -> res A * state.

#[global] Instance M_ret : MRet M := fun A a st => (Ok a, st).
#[global] Instance M_bind : MBind M := fun A B f m st =>
  match m st with
  | (Ok a, st') => f a st'
  | (Raise e, st') => (Raise e, st')
  end.

Definition raise {A} (e : exn) : M A := fun st => (Raise e, st).

Definition lift {A} (r : res A) : M A := fun st => (r, st).

(** The state once [events] have happened. *)
Definition after (st : state) (events : list event) : state :=
  {| authtoken := authtoken st; trace := trace st ++ events;
     statusLabel := statusLabel st; networksTable := networksTable st |}.

(** The state once [events] have happened and the token [t] is cached. *)
Definition with_token (st : state) (t : string) (events : list event) : state :=
  {| authtoken := Some t; trace := trace st ++ events;
     statusLabel := statusLabel st; networksTable := networksTable st |}.

Definition emit (e : event) : M unit := fun st => (Ok tt, after st [e]).

(** The command lines among [events], in the order they were run. *)
Fixpoint commands_run (events : list event) : list (list string) :=
  match events with
  | [] => []
  | Exec argv :: rest => argv :: commands_run rest
  | _ :: rest => commands_run rest
  end.

(** [try: body  except CalledProcessError as error: handler] *)
Definition try_CalledProcessError {A} (body : M A)
    (handler : Z -> string -> M A) : M A := fun st =>
  match body st with
  | (Raise (CalledProcessError returncode _ output), st') => handler returncode output st'
  | r => r
  end.

(** [b.decode()]: the ASCII fragment of UTF-8.  The model raises on every
    byte from 0x80 on, the source only on a malformed sequence; the
    statements below are made about output that decodes. *)
Definition decode (b : string) : res string :=
  if forallb (fun c => (nat_of_ascii c <? 128)%nat) (list_ascii_of_string b)
  then Ok b else Raise UnicodeDecodeError.

Definition nl : string := String (ascii_of_nat 10) "".
Definition dq : string := String Dyn.dquote "".

(** [l[i]] on a Python list. *)
Definition index {A} (l : list A) (i : nat) : res A :=
  match l !! i with
  | Some x => Ok x
  | None => Raise IndexError
  end.

Definition APP_ID : string := "zerotier-qt".
Definition APP_NAME : string := "ZeroTier-Qt".
Definition APP_VERSION : string := "0.9".

Section Controller.

(** [json.loads]; [None] is a [JSONDecodeError]. *)
Variable json_loads : string -> option value.
Variable E : env.

Definition HOME_DIR : string := HomeLocation E.
Definition CONFIG_DIR : string := Py.path_join (GenericConfigLocation E) APP_ID.
Definition AUTH_FILE : string := Py.path_join CONFIG_DIR "authtoken.secret".

(** A relative path is taken from the working directory. *)
Definition abspath (path : string) : string := Py.path_join (getcwd E) path.

(** [os.path.isfile(path)] *)
Definition isfile (path : string) : M bool := fun st =>
  let (_, st') := emit (Isfile (abspath path)) st in
  match files E (trace st) !! abspath path with
  | Some _ => (Ok true, st')
  | None => (Ok false, st')
  end.

(** [open(path).read()] *)
Definition read (path : string) : M string := fun st =>
  let (_, st') := emit (Open (abspath path)) st in
  match files E (trace st) !! abspath path with
  | Some text => (Ok text, st')
  | None => (Raise (OSError path), st')
  end.

(** [check_output(argv)]: the captured output, or [CalledProcessError]
    on a non-zero exit status. *)
Definition check_output (argv : list string) : M string := fun st =>
  let (_, st') := emit (Exec argv) st in
  match run E (trace st) argv with
  | Some (returncode, output) =>
      if returncode =? 0 then (Ok output, st')
      else (Raise (CalledProcessError returncode argv output), st')
  | None => (Raise (OSError (default "" (head argv))), st')
  end.

(** [check_call(argv)] *)
Definition check_call (argv : list string) : M unit :=
  _ ← check_output argv; mret tt.

(** [QMessageBox.question(None, title, text)] *)
Definition question (title text : string) : M button := fun st =>
  let (_, st') := emit (MessageBox Question title text) st in
  (Ok (answer E (trace st) title text), st').

Definition message (kind : dialog) (title text : string) : M unit :=
  emit (MessageBox kind title text).

Definition os_exit {A} (code : Z) : M A := raise (OsExit code).

Definition set_authtoken (t : string) : M unit := fun st =>
  (Ok tt, {| authtoken := Some t; trace := trace st;
             statusLabel := statusLabel st; networksTable := networksTable st |}).

(** *** Credential resolver *)

Definition get_token : M string := fun st =>
  match authtoken st with
  | Some t => (Ok t, st)
  | None =>
      (if getuid E =? 0 then
         text ← read "/var/lib/zerotier-one/authtoken.secret";
         _ ← set_authtoken (Py.strip text);
         mret (Py.strip text)
       else
         present ← isfile ".zeroTierOneAuthToken";
         if (present : bool) then
           text ← read (Py.path_join HOME_DIR ".zeroTierOneAuthToken");
           _ ← set_authtoken (Py.strip text);
           mret (Py.strip text)
         else
           text ← read AUTH_FILE;
           _ ← set_authtoken (Py.strip text);
           mret (Py.strip text)) st
  end.

(** *** Daemon client *)

Definition zerotier_cli (args : list string) : M (list string) :=
  token ← get_token;
  mret ("zerotier-cli" :: ("-T" ++ token) :: args).

Definition get_status : M (list string) :=
  argv ← zerotier_cli ["status"];
  out ← check_output argv;
  status ← lift (decode out);
  mret (Py.split status).

(** The warning quotes [str(error)], written here as Python renders it
    for an exit status above zero. *)
Definition manage_service (action : string) : M unit :=
  try_CalledProcessError
    (_ ← check_output ["systemctl"; action; "zerotier-one"]; mret tt)
    (fun returncode output =>
       message Warning "Error"
         ("Something went wrong: " ++ dq ++
          "Command '['systemctl', " ++ Dyn.repr_str action ++
          ", 'zerotier-one']' returned non-zero exit status " ++
          Py.str_of_int returncode ++ "." ++ dq)).

Definition change_config (network_id config : string) (value : value) : M unit :=
  (* zerotier-cli only accepts int values *)
  value ← lift (Dyn.int value);
  try_CalledProcessError
    (argv ← zerotier_cli ["set"; network_id; config ++ "=" ++ Py.str_of_int value];
     _ ← check_output argv;
     mret tt)
    (fun _ output =>
       error ← lift (decode output);
       message Warning "Failed to change config"
         ("Error: " ++ dq ++ Py.strip error ++ dq)).

(* TODO: describe data structure *)
Definition get_networks_info : M value :=
  argv ← zerotier_cli ["-j"; "listnetworks"];
  out ← check_output argv;
  match json_loads out with
  | Some v => mret v
  | None => raise JSONDecodeError
  end.

Fixpoint is_on_network_loop (network_id : string) (networks : list value)
    (currently_joined : bool) : res bool :=
  match networks with
  | [] => Ok currently_joined
  | network :: rest =>
      if currently_joined then Ok currently_joined
      else
        nwid ← Dyn.getitem network "nwid";
        is_on_network_loop network_id rest (Dyn.eq nwid (VStr network_id))
  end.

Definition is_on_network (network_id : string) : M bool :=
  info ← get_networks_info;
  networks ← lift (Dyn.iter info);
  lift (is_on_network_loop network_id networks false).

Definition join_network (network_id : string) : M bool :=
  try_CalledProcessError
    (joined ← is_on_network network_id;
     if (joined : bool) then
       _ ← message Information APP_NAME "You are already a member of this network.";
       mret false
     else
       argv ← zerotier_cli ["join"; network_id];
       _ ← check_call argv;
       mret true)
    (fun _ _ =>
       _ ← message Warning APP_NAME "Invalid network ID";
       mret false).

(** *** Interface state *)

Fixpoint find_operstate (interface : value) (interfaceInfo : list value) : res value :=
  match interfaceInfo with
  | [] => Raise (UnboundLocalError "state")
  | info :: rest =>
      ifname ← Dyn.getitem info "ifname";
      if Dyn.eq ifname interface then Dyn.getitem info "operstate"
      else find_operstate interface rest
  end.

Definition get_interface_state (interface : value) : M value :=
  out ← check_output ["ip"; "--json"; "address"];
  text ← lift (decode out);
  match json_loads text with
  | Some interfaceInfo =>
      infos ← lift (Dyn.iter interfaceInfo);
      lift (find_operstate interface infos)
  | None => raise JSONDecodeError
  end.

Definition leave_text (networkId : string) (networkName : option string) : string :=
  "Are you sure you want to leave " ++ dq ++ default "None" networkName ++ dq ++ nl ++
  "(ID: " ++ networkId ++ ")?".

Definition leave_network (networkId : string) (networkName : option string) : M bool :=
  answer ← question "Leave Network" (leave_text networkId networkName);
  match answer with
  | Yes =>
      try_CalledProcessError
        (argv ← zerotier_cli ["leave"; networkId];
         _ ← check_call argv;
         mret true)
        (fun _ _ =>
           _ ← message Warning APP_NAME "Failed to leave network.";
           mret false)
  | No => mret false
  end.

Definition toggle_interface (interfaceName : string) : M bool :=
  state ← get_interface_state (VStr interfaceName);
  lowered ← lift (Dyn.lower state);
  if String.eqb lowered "down" then
    try_CalledProcessError
      (_ ← check_call ["pkexec"; "ip"; "link"; "set"; interfaceName; "up"];
       mret true)
      (fun _ _ => mret false)
  else
    try_CalledProcessError
      (_ ← check_call ["pkexec"; "ip"; "link"; "set"; interfaceName; "down"];
       mret true)
      (fun _ _ => mret false).

(** *** Start-up: making the token available *)

Definition copy_script : string :=
  nl ++ "          cp /var/lib/zerotier-one/authtoken.secret " ++ AUTH_FILE ++ " &&" ++ nl ++
  "          chown " ++ Py.str_of_int (getuid E) ++ ":" ++ Py.str_of_int (getgid E) ++
  " " ++ AUTH_FILE.

Definition no_authtoken_text : string :=
  "No authtoken.secret file has been found in" ++ nl ++
  dq ++ "/var/lib/zerotier-one" ++ dq ++ ". This usually means you" ++ nl ++
  "never started the zerotier-one service." ++ nl ++
  "Do you wish to start it now?" ++ nl.

Definition missing_local_text : string :=
  "This user doesn't have ZeroTier-One Authtoken file." ++ nl ++
  "Choosing «Yes» will ask you for password to" ++ nl ++
  "copy the authtoken.secret from" ++ nl ++
  "/var/lib/zerotier-one/" ++ nl ++
  "to" ++ nl ++
  CONFIG_DIR ++ nl ++
  nl ++
  "«No» will exit the program." ++ nl.

Definition setup_auth_token : M unit :=
  present ← isfile "/var/lib/zerotier-one/authtoken.secret";
  _ ← (if negb present then
         allowed_to_start_service ← question "No authtoken found" no_authtoken_text;
         match allowed_to_start_service with
         | Yes => manage_service "start"
         | No => os_exit 0
         end
       else mret tt);
  if getuid E =? 0 then mret tt
  else
    present ← isfile AUTH_FILE;
    if negb present then
      _ ← emit (Makedirs (abspath CONFIG_DIR));
      answer ← question "Missing Local Authtoken" missing_local_text;
      match answer with
      | Yes =>
          try_CalledProcessError
            (_ ← check_output ["pkexec"; "bash"; "-c"; copy_script]; mret tt)
            (fun returncode output =>
               if returncode =? 127 then os_exit 1
               else
                 error ← lift (decode output);
                 _ ← message Critical "Operation Failed"
                       ("Failed to copy authtoken.secret." ++ nl ++ nl ++
                        "Command Output:" ++ nl ++ " " ++ Py.strip error);
                 os_exit 1)
      | No => os_exit 1
      end
    else mret tt.

(** *** Dialogs and the main window *)

Definition about_text (zerotier_version : string) : string :=
  nl ++
  "      <b>ZeroTier Version " ++ zerotier_version ++ "<br>" ++ nl ++
  "      " ++ APP_NAME ++ " Version " ++ APP_VERSION ++ "</b><br>" ++ nl ++
  "      Qt front-end for ZeroTier One<br>" ++ nl ++
  "      Created by Vsevolod «Damglador» Stopchanskyi<br>" ++ nl ++
  "      Based on zerotier-gui by Tomás Ralph<br>" ++ nl ++
  "      Licensed under GPL-3.0<br>" ++ nl ++
  "      <a href=" ++ dq ++ "https://github.com/Damglador/zerotier-qt" ++ dq ++ ">" ++ nl ++
  "          https://github.com/Damglador/zerotier-qt" ++ nl ++
  "      </a>" ++ nl ++
  "      ".

Definition about_window : M unit :=
  status ← get_status;
  version ← lift (index status 3);
  message About "About" (about_text version).

Definition set_statusLabel (text : string) : M unit := fun st =>
  (Ok tt, {| authtoken := authtoken st; trace := trace st;
             statusLabel := text; networksTable := networksTable st |}).

Definition set_networksTable (rows : list row) : M unit := fun st =>
  (Ok tt, {| authtoken := authtoken st; trace := trace st;
             statusLabel := statusLabel st; networksTable := rows |}).

Definition get_networksTable : M (list row) := fun st => (Ok (networksTable st), st).

(** [networksTable.insertTopLevelItem(position, QTreeWidgetItem(texts))] *)
Definition insertTopLevelItem (position : nat) (texts : list string) : M unit :=
  rows ← get_networksTable;
  set_networksTable
    (take position rows ++ {| cells := texts; gray := false |} :: drop position rows).

(** [setForeground(column, QBrush(QColor("gray")))] on every column of
    the item at [position]. *)
Definition setForeground_gray (position : nat) : M unit :=
  rows ← get_networksTable;
  set_networksTable (alter (fun r => {| cells := cells r; gray := true |}) position rows).

(** [networkData[networkPosition][key]] *)
Definition field (networkData : value) (networkPosition : nat) (key : string) : res value :=
  network ← Dyn.getindex networkData networkPosition;
  Dyn.getitem network key.

(** The first loop of [refresh_networks]: one tuple per position. *)
Fixpoint collect_networks (networkData : value) (positions : list nat)
    (networks : list (list string * bool)) : M (list (list string * bool)) :=
  match positions with
  | [] => mret networks
  | networkPosition :: rest =>
      device ← lift (field networkData networkPosition "portDeviceName");
      interfaceState ← get_interface_state device;
      lowered ← lift (Dyn.lower interfaceState);
      let isDown := String.eqb lowered "down" in
      id ← lift (field networkData networkPosition "id");
      name ← lift (field networkData networkPosition "name");
      name ← (if Dyn.truthy name then lift (field networkData networkPosition "name")
              else mret (VStr "Unknown Name"));
      status ← lift (field networkData networkPosition "status");
      device ← lift (field networkData networkPosition "portDeviceName");
      collect_networks networkData rest
        (networks ++ [([Dyn.str id; Dyn.str name; Dyn.str status; Dyn.str device], isDown)])
  end.

(** The second loop: a custom [populate] that greys out the rows of
    interfaces that are down. *)
Fixpoint insert_networks (networks : list (list string * bool)) (position : nat) : M unit :=
  match networks with
  | [] => mret tt
  | network :: rest =>
      _ ← insertTopLevelItem position (fst network);
      _ ← (if snd network then setForeground_gray position else mret tt);
      insert_networks rest (S position)
  end.

Definition refresh_networks : M unit :=
  status ← get_status;
  node ← lift (index status 2);
  online ← lift (index status 4);
  _ ← set_statusLabel ("Your ID: " ++ node ++ " Status: " ++ online);
  _ ← set_networksTable [];
  (* outputs info of networks in json format *)
  networkData ← get_networks_info;
  count ← lift (Dyn.len networkData);
  (* gets networks information in a list of tuples *)
  networks ← collect_networks networkData (seq 0 count) [];
  insert_networks networks 0%nat.

(** *** The functions around the daemon client *)

Fixpoint find_network_name (network_id : string) (networks : list value) : res value :=
  match networks with
  | [] => Ok VNone
  | network :: rest =>
      nwid ← Dyn.getitem network "nwid";
      if Dyn.eq (VStr network_id) nwid then Dyn.getitem network "name"
      else find_network_name network_id rest
  end.

Definition get_network_name_by_id (network_id : string) : M value :=
  info ← get_networks_info;
  networks ← lift (Dyn.iter info);
  lift (find_network_name network_id networks).

Definition get_peers_info : M value :=
  argv ← zerotier_cli ["-j"; "peers"];
  out ← check_output argv;
  match json_loads out with
  | Some v => mret v
  | None => raise JSONDecodeError
  end.

(** *** Service controller *)

(** The loop of [get_service_status]: every entry with an equals sign
    sets its key, a later entry overriding an earlier one. *)
Definition format_data (data : list string) : gmap string string :=
  fold_left
    (fun formatted_data entry =>
       match Py.split_once "=" entry with
       | [key; value] => <[key := value]> formatted_data
       | _ => formatted_data
       end)
    data ∅.

(** [universal_newlines=True] makes [check_output] return text: the
    output is decoded, as far as [decode] goes, and every line end
    becomes a line feed. *)
Definition get_service_status : M (gmap string string) :=
  out ← check_output ["systemctl"; "show"; "zerotier-one";
                      "--property=ActiveState,UnitFileState"];
  text ← lift (decode out);
  mret (format_data (Py.split_on (ascii_of_nat 10) (Py.translate_newlines text))).

(** [status[key]] on the dictionary of [get_service_status]. *)
Definition status_item (status : gmap string string) (key : string) : res string :=
  match status !! key with
  | Some v => Ok v
  | None => Raise (KeyError key)
  end.

(** *** Tables of the dialogs *)

(** The loop of [Table.populate]: [insertTopLevelItem(row, ...)] for
    each row of the content, on the rows [shown] so far. *)
Fixpoint populate_from (content : list (list string)) (row : nat)
    (shown : list (list string)) : list (list string) :=
  match content with
  | [] => shown
  | texts :: rest => populate_from rest (S row) (take row shown ++ texts :: drop row shown)
  end.

(** [Table.populate(content)] on a table showing [shown]: the table is
    cleared first. *)
Definition populate (content shown : list (list string)) : list (list string) :=
  populate_from content 0%nat [].

(** The loop of [PeersList.refresh]. *)
Fixpoint collect_peers (peersData : value) (positions : list nat)
    (peers : list (list string)) : res (list (list string)) :=
  match positions with
  | [] => Ok peers
  | peerPosition :: rest =>
      address ← field peersData peerPosition "address";
      version ← field peersData peerPosition "version";
      role ← field peersData peerPosition "role";
      latency ← field peersData peerPosition "latency";
      collect_peers peersData rest
        (peers ++ [[Dyn.str address; Py.replace "-1.-1.-1" "-" (Dyn.str version);
                    Dyn.str role; Dyn.str latency]])
  end.

(** [PeersList.refresh] on a dialog whose table shows [table]: the rows
    the table shows afterwards.  An exception leaves the table as it
    was. *)
Definition PeersList_refresh (table : list (list string)) : M (list (list string)) :=
  (* outputs info of peers in json format *)
  peersData ← get_peers_info;
  count ← lift (Dyn.len peersData);
  (* get peers information in a list of tuples *)
  peers ← lift (collect_peers peersData (seq 0 count) []);
  mret (populate peers table).

(** The loop of [PeerPaths.refresh]. *)
Fixpoint collect_paths (pathsData : value) (positions : list nat)
    (paths : list (list string)) : res (list (list string)) :=
  match positions with
  | [] => Ok paths
  | pathPosition :: rest =>
      address ← field pathsData pathPosition "address";
      active ← field pathsData pathPosition "active";
      expired ← field pathsData pathPosition "expired";
      lastReceive ← field pathsData pathPosition "lastReceive";
      lastSend ← field pathsData pathPosition "lastSend";
      preferred ← field pathsData pathPosition "preferred";
      trustedPathId ← field pathsData pathPosition "trustedPathId";
      collect_paths pathsData rest
        (paths ++ [[Dyn.str address; Dyn.str active; Dyn.str expired; Dyn.str lastReceive;
                    Dyn.str lastSend; Dyn.str preferred; Dyn.str trustedPathId]])
  end.

(** *** The main window's slots on the network table *)

(** [item.text(column)]: empty for a column the item does not have. *)
Definition text (item : row) (column : nat) : string := default "" (cells item !! column).

(** [self.networksTable.currentItem()] is the argument [currentItem];
    [None] stands for no current item. *)
Definition call_toggle_interface (currentItem : option row) : M unit :=
  match currentItem with
  | None => raise AttributeError
  | Some item =>
      toggled ← toggle_interface (text item 3);
      if (toggled : bool) then refresh_networks else mret tt
  end.

Definition call_leave_network (currentItem : option row) : M unit :=
  match currentItem with
  | None => raise AttributeError
  | Some item =>
      left ← leave_network (text item 0) (Some (text item 1));
      if (left : bool) then refresh_networks else mret tt
  end.

End Controller.

(** ** Objects with slots

    A method of an object with fields [Self] is a computation on the
    fields and the process state; an exception keeps the fields as the
    method left them. *)
Definition method (Self A : Type) : Type := Self * state -> res A * (Self * state).

#[global] Instance method_ret {Self} : MRet (method Self) := fun A a s => (Ok a, s).
#[global] Instance method_bind {Self} : MBind (method Self) := fun A B f m s =>
  match m s with
  | (Ok a, s') => f a s'
  | (Raise e, s') => (Raise e, s')
  end.

(** A controller function called from a method. *)
Definition invoke {Self A} (m : M A) : method Self A := fun s =>
  let (r, st') := m (snd s) in (r, (fst s, st')).

Definition self {Self} : method Self Self := fun s => (Ok (fst s), s).

Definition assign {Self} (f : Self -> Self) : method Self unit := fun s =>
  (Ok tt, (f (fst s), snd s)).

(** What [QTimer.singleShot] can be asked to call. *)
Inductive slot : Type := Slot_refresh_networks.

(** The fields of the main window that its slots read and write, apart
    from the status label and the network table, which are part of
    [state]; [printed] holds the lines the slots print. *)
Record MainWindow : Type := {
  printed : list string;
  serviceCheckBox_checked : bool;
  serviceCheckBox_toolTip : string;
  serviceBtn_icon : string;
  serviceBtn_toolTip : string;
  joinTextBox : string;
  singleShot : list (Z * slot);
}.

(** The fields as [MainWindow.__init__] creates the widgets. *)
Definition new_MainWindow : MainWindow :=
  {| printed := []; serviceCheckBox_checked := false; serviceCheckBox_toolTip := "";
     serviceBtn_icon := ""; serviceBtn_toolTip := ""; joinTextBox := ""; singleShot := [] |}.

Definition print (line : string) : method MainWindow unit :=
  assign (fun w =>
    {| printed := printed w ++ [line];
       serviceCheckBox_checked := serviceCheckBox_checked w;
       serviceCheckBox_toolTip := serviceCheckBox_toolTip w;
       serviceBtn_icon := serviceBtn_icon w; serviceBtn_toolTip := serviceBtn_toolTip w;
       joinTextBox := joinTextBox w; singleShot := singleShot w |}).

(** [serviceCheckBox.setChecked(checked)] and [.setToolTip(toolTip)] *)
Definition set_serviceCheckBox (checked : bool) (toolTip : string) : method MainWindow unit :=
  assign (fun w =>
    {| printed := printed w;
       serviceCheckBox_checked := checked; serviceCheckBox_toolTip := toolTip;
       serviceBtn_icon := serviceBtn_icon w; serviceBtn_toolTip := serviceBtn_toolTip w;
       joinTextBox := joinTextBox w; singleShot := singleShot w |}).

(** [serviceBtn.setIcon(QIcon.fromTheme(icon))] and [.setToolTip(toolTip)] *)
Definition set_serviceBtn (icon toolTip : string) : method MainWindow unit :=
  assign (fun w =>
    {| printed := printed w;
       serviceCheckBox_checked := serviceCheckBox_checked w;
       serviceCheckBox_toolTip := serviceCheckBox_toolTip w;
       serviceBtn_icon := icon; serviceBtn_toolTip := toolTip;
       joinTextBox := joinTextBox w; singleShot := singleShot w |}).

(** [joinTextBox.clear()] *)
Definition clear_joinTextBox : method MainWindow unit :=
  assign (fun w =>
    {| printed := printed w;
       serviceCheckBox_checked := serviceCheckBox_checked w;
       serviceCheckBox_toolTip := serviceCheckBox_toolTip w;
       serviceBtn_icon := serviceBtn_icon w; serviceBtn_toolTip := serviceBtn_toolTip w;
       joinTextBox := ""; singleShot := singleShot w |}).

(** [QTimer.singleShot(msec, slot)]: the call is recorded, not run. *)
Definition QTimer_singleShot (msec : Z) (target : slot) : method MainWindow unit :=
  assign (fun w =>
    {| printed := printed w;
       serviceCheckBox_checked := serviceCheckBox_checked w;
       serviceCheckBox_toolTip := serviceCheckBox_toolTip w;
       serviceBtn_icon := serviceBtn_icon w; serviceBtn_toolTip := serviceBtn_toolTip w;
       joinTextBox := joinTextBox w; singleShot := singleShot w ++ [(msec, target)] |}).

(** The fields of the main window once [update_service_status] has
    shown a status with both properties. *)
Definition service_widgets (w : MainWindow) (unit_file_state active_state : string)
    : MainWindow :=
  {| printed := printed w;
     serviceCheckBox_checked := String.eqb unit_file_state "enabled";
     serviceCheckBox_toolTip :=
       if String.eqb unit_file_state "enabled" then "Disable ZeroTier Service"
       else "Enable ZeroTier Service";
     serviceBtn_icon :=
       if String.eqb active_state "active" then "media-playback-pause"
       else "media-playback-start";
     serviceBtn_toolTip :=
       if String.eqb active_state "active" then "Stop ZeroTier Service"
       else "Start ZeroTier Service";
     joinTextBox := joinTextBox w; singleShot := singleShot w |}.

(** The fields of a [PeerPaths] dialog. *)
Record PeerPaths : Type := {
  peerIndex : Z;
  paths_label : string;
  paths_windowTitle : string;
  paths_table : list (list string);
}.

Section Windows.

Variable json_loads : string -> option value.
Variable E : env.

(** [shutil.which] *)
Variable which : string -> option string.

Definition update_service_status : method MainWindow unit :=
  status ← invoke (get_service_status E);
  (* Set checkbox state *)
  unit_file_state ← invoke (lift (status_item status "UnitFileState"));
  _ ← (if String.eqb unit_file_state "enabled"
       then set_serviceCheckBox true "Disable ZeroTier Service"
       else set_serviceCheckBox false "Enable ZeroTier Service");
  (* Set button state *)
  active_state ← invoke (lift (status_item status "ActiveState"));
  if String.eqb active_state "active"
  then set_serviceBtn "media-playback-pause" "Stop ZeroTier Service"
  else set_serviceBtn "media-playback-start" "Start ZeroTier Service".

Definition start_stop_service : method MainWindow unit :=
  status ← invoke (get_service_status E);
  active_state ← invoke (lift (status_item status "ActiveState"));
  _ ← (if String.eqb active_state "active" then invoke (manage_service E "stop")
       else
         _ ← print "Starting service";
         invoke (manage_service E "start"));
  update_service_status.

Definition enable_disable_service : method MainWindow unit :=
  status ← invoke (get_service_status E);
  unit_file_state ← invoke (lift (status_item status "UnitFileState"));
  _ ← (if String.eqb unit_file_state "enabled" then
         _ ← print "Disabling service";
         invoke (manage_service E "disable")
       else
         _ ← print "Enabling service";
         invoke (manage_service E "enable"));
  update_service_status.

Definition call_join_network : method MainWindow unit :=
  (* Refresh networks only if join was successful *)
  w ← self;
  joined ← invoke (join_network json_loads E (joinTextBox w));
  if (joined : bool) then
    _ ← invoke (refresh_networks json_loads E);
    _ ← clear_joinTextBox;
    _ ← QTimer_singleShot 1000 Slot_refresh_networks;
    QTimer_singleShot 5000 Slot_refresh_networks
  else mret tt.

Definition PeerPaths_refresh : method PeerPaths unit :=
  (* outputs info of paths in json format *)
  dialog ← self;
  peers ← invoke (get_peers_info json_loads E);
  peer ← invoke (lift (Dyn.getindex_int peers (peerIndex dialog)));
  pathsData ← invoke (lift (Dyn.getitem peer "paths"));
  peers ← invoke (get_peers_info json_loads E);
  peer ← invoke (lift (Dyn.getindex_int peers (peerIndex dialog)));
  address ← invoke (lift (Dyn.getitem peer "address"));
  let label := "Paths for peer " ++ Dyn.str address in
  _ ← assign (fun d => {| peerIndex := peerIndex d; paths_label := label;
                          paths_windowTitle := label; paths_table := paths_table d |});
  (* get paths information in a list of tuples *)
  count ← invoke (lift (Dyn.len pathsData));
  paths ← invoke (lift (collect_paths pathsData (seq 0 count) []));
  assign (fun d => {| peerIndex := peerIndex d; paths_label := paths_label d;
                      paths_windowTitle := paths_windowTitle d;
                      paths_table := populate paths (paths_table d) |}).

(** *** Start of the program

    The main block up to the creation of the main window. *)
Definition startup : M unit :=
  (* Check if zerotier-one is installed *)
  _ ← (match which "zerotier-cli" with
       | None =>
           _ ← message Critical "No zerotier-cli"
                 ("zerotier-cli is not installed or is not in PATH." ++ nl ++
                  "Ensure that it's available before running " ++ APP_NAME ++ ".");
           os_exit 127
       | Some _ => mret tt
       end);
  (* Check if service is running *)
  status ← get_service_status E;
  active_state ← lift (status_item status "ActiveState");
  _ ← (if negb (String.eqb active_state "active") then
         answer ← question E "Start Service"
                    ("The 'zerotier-one' service isn't running." ++ nl ++ nl ++
                     "Do you wish to start it now?");
         match answer with
         | Yes => manage_service E "start"
         | No => os_exit 1
         end
       else mret tt);
  (* Ensure token is available *)
  _ ← setup_auth_token E;
  try_CalledProcessError
    (argv ← zerotier_cli E ["listnetworks"];
     _ ← check_output E argv;
     mret tt)
    (fun returncode output =>
       (* Can't connect to the service *)
       _ ← (if returncode =? 1 then
              error ← lift (decode output);
              message Critical "Error"
                ("The service is active, but zerotier-cli can't connect to it." ++ nl ++ nl ++
                 "Command Output:" ++ nl ++ " " ++ Py.strip error)
            else mret tt);
       error ← lift (decode output);
       _ ← message Critical "Error"
             ("zerotier-cli exited with an unknown error." ++ nl ++ nl ++
              "Command Output:" ++ nl ++ " " ++ Py.strip error);
       os_exit 1).

(** [MainWindow.__init__]: of the construction of the widgets, the two
    calls that read the outside world. *)
Definition MainWindow_init : method MainWindow unit :=
  _ ← update_service_status;
  invoke (refresh_networks json_loads E).

(** The main block, up to the event loop. *)
Definition main (st : state) : res unit * (MainWindow * state) :=
  (_ ← invoke startup; MainWindow_init) (new_MainWindow, st).

End Windows.

(** ** The calls a session is made of *)

Inductive call : Type :=
| Call_get_token
| Call_get_status
| Call_manage_service (action : string)
| Call_change_config (network_id config : string) (v : value)
| Call_get_networks_info
| Call_is_on_network (network_id : string)
| Call_join_network (network_id : string)
| Call_get_interface_state (interface : value)
| Call_leave_network (networkId : string) (networkName : option string)
| Call_toggle_interface (interfaceName : string)
| Call_setup_auth_token
| Call_about_window
| Call_refresh_networks.

Section Session.

Variable json_loads : string -> option value.
Variable E : env.

(** The state a call leaves behind, whatever it returns or raises. *)
Definition perform (c : call) (st : state) : state :=
  match c with
  | Call_get_token => snd (get_token E st)
  | Call_get_status => snd (get_status E st)
  | Call_manage_service action => snd (manage_service E action st)
  | Call_change_config network_id config v => snd (change_config E network_id config v st)
  | Call_get_networks_info => snd (get_networks_info json_loads E st)
  | Call_is_on_network network_id => snd (is_on_network json_loads E network_id st)
  | Call_join_network network_id => snd (join_network json_loads E network_id st)
  | Call_get_interface_state interface => snd (get_interface_state json_loads E interface st)
  | Call_leave_network networkId networkName => snd (leave_network E networkId networkName st)
  | Call_toggle_interface interfaceName => snd (toggle_interface json_loads E interfaceName st)
  | Call_setup_auth_token => snd (setup_auth_token E st)
  | Call_about_window => snd (about_window E st)
  | Call_refresh_networks => snd (refresh_networks json_loads E st)
  end.


End Session.

(** *** Reading one refresh against a fixed interface table

    The body of the first loop of [refresh_networks] for one position,
    where the interface table that [ip --json address] reports is
    [table]: the value [collect_networks] appends, or the exception it
    stops with. *)
Definition network_tuple (table : list value) (networkData : value) (networkPosition : nat)
    : res (list string * bool) :=
  device ← field networkData networkPosition "portDeviceName";
  interfaceState ← find_operstate device table;
  lowered ← Dyn.lower interfaceState;
  id ← field networkData networkPosition "id";
  name ← field networkData networkPosition "name";
  name ← (if Dyn.truthy name then field networkData networkPosition "name"
          else Ok (VStr "Unknown Name"));
  status ← field networkData networkPosition "status";
  device ← field networkData networkPosition "portDeviceName";
  Ok ([Dyn.str id; Dyn.str name; Dyn.str status; Dyn.str device], String.eqb lowered "down").

(** The tuples of the networks at [positions], up to the first
    exception. *)
Fixpoint network_tuples (table : list value) (networkData : value) (positions : list nat)
    : res (list (list string * bool)) :=
  match positions with
  | [] => Ok []
  | networkPosition :: rest =>
      tuple ← network_tuple table networkData networkPosition;
      tuples ← network_tuples table networkData rest;
      Ok (tuple :: tuples)
  end.

Definition row_of (tuple : list string * bool) : row :=
  {| cells := fst tuple; gray := snd tuple |}.

(** A network entry with the four displayed fields, whose device is in
    [table] with a string as its state. *)
Definition readable (table : list value) (network : value) : Prop :=
  exists device state,
    Dyn.getitem network "portDeviceName" = Ok device /\
    find_operstate device table = Ok (VStr state) /\
    is_Ok (Dyn.getitem network "id") = true /\
    is_Ok (Dyn.getitem network "name") = true /\
    is_Ok (Dyn.getitem network "status") = true.

(** The text [systemctl show] prints for [properties]: one line
    [key=value] for each. *)
Fixpoint show_output (properties : list (string * string)) : string :=
  match properties with
  | [] => ""
  | (key, value) :: rest => key ++ "=" ++ value ++ nl ++ show_output rest
  end.

(** A property that [systemctl show] can print on a line of its own. *)
Definition printable (property : string * string) : Prop :=
  Dyn.contains "=" (fst property) = false /\
  Dyn.contains (ascii_of_nat 10) (fst property) = false /\
  Dyn.contains (ascii_of_nat 13) (fst property) = false /\
  Dyn.contains (ascii_of_nat 10) (snd property) = false /\
  Dyn.contains (ascii_of_nat 13) (snd property) = false.

(** A peer entry with its four displayed fields, and the row
    [PeersList.refresh] makes of them. *)
Definition is_peer (peer : value) (fields : value * value * value * value) : Prop :=
  let '(address, version, role, latency) := fields in
  Dyn.getitem peer "address" = Ok address /\
  Dyn.getitem peer "version" = Ok version /\
  Dyn.getitem peer "role" = Ok role /\
  Dyn.getitem peer "latency" = Ok latency.

Definition peer_row (fields : value * value * value * value) : list string :=
  let '(address, version, role, latency) := fields in
  [Dyn.str address; Py.replace "-1.-1.-1" "-" (Dyn.str version); Dyn.str role;
   Dyn.str latency].

(** The keys [PeerPaths.refresh] reads in a path entry, in the order of
    the columns. *)
Definition path_keys : list string :=
  ["address"; "active"; "expired"; "lastReceive"; "lastSend"; "preferred"; "trustedPathId"].

(** A path entry with the values [fields] under [path_keys]. *)
Definition is_path (path : value) (fields : list value) : Prop :=
  Forall2 (fun key v => Dyn.getitem path key = Ok v) path_keys fields.

(** A network as the list of the daemon gives it, with the state of
    its device. *)
Record listed : Type := {
  listed_id : string;
  listed_name : string;
  listed_status : string;
  listed_device : string;
  listed_operstate : string;
}.

(** [network] is an entry for [info], and [table] holds the device of
    [info] first under its name, with the state of [info]. *)
Definition lists (table : list value) (network : value) (info : listed) : Prop :=
  Dyn.getitem network "id" = Ok (VStr (listed_id info)) /\
  Dyn.getitem network "name" = Ok (VStr (listed_name info)) /\
  Dyn.getitem network "status" = Ok (VStr (listed_status info)) /\
  Dyn.getitem network "portDeviceName" = Ok (VStr (listed_device info)) /\
  find_operstate (VStr (listed_device info)) table = Ok (VStr (listed_operstate info)).

(** The row of the network table for [info]. *)
Definition shown (info : listed) : row :=
  {| cells := [listed_id info;
               if String.eqb (listed_name info) "" then "Unknown Name" else listed_name info;
               listed_status info; listed_device info];
     gray := String.eqb (Py.lower (listed_operstate info)) "down" |}.

(** [stable P m]: running [m] keeps the property [P] of the state,
    whether [m] returns or raises. *)
Definition stable (P : state -> Prop) {A} (m : M A) : Prop :=
  forall st, P st -> P (snd (m st)).

(** ** Sample worlds *)

Module Sample.

Definition q (s : string) : string := dq ++ s ++ dq.

Fixpoint same_argv (a b : list string) : bool :=
  match a, b with
  | [], [] => true
  | x :: a', y :: b' => String.eqb x y && same_argv a' b'
  | _, _ => false
  end.

Definition token : string := "sr3tk0ab12cd34ef56gh78ij".

(** A user session started outside the home directory: the home
    directory holds the dotfile, the configuration directory a copy
    with another token. *)
Definition world_user_elsewhere : env :=
  {| getuid := 1000; getgid := 1000;
     getcwd := "/srv/work";
     HomeLocation := "/home/ana";
     GenericConfigLocation := "/home/ana/.config";
     files := fun _ =>
       {[ "/home/ana/.zeroTierOneAuthToken" := "hometoken0000000000000000" ++ nl;
          "/home/ana/.config/zerotier-qt/authtoken.secret" := "conftoken0000000000000000" ++ nl ]};
     run := fun _ _ => None;
     answer := fun _ _ _ => No |}.

(** A user session started in a directory that holds a file named like
    the dotfile, by a user without a dotfile at home. *)
Definition world_user_stray : env :=
  {| getuid := 1000; getgid := 1000;
     getcwd := "/srv/work";
     HomeLocation := "/home/ana";
     GenericConfigLocation := "/home/ana/.config";
     files := fun _ =>
       {[ "/srv/work/.zeroTierOneAuthToken" := "straytoken000000000000000" ++ nl;
          "/home/ana/.config/zerotier-qt/authtoken.secret" := "conftoken0000000000000000" ++ nl ]};
     run := fun _ _ => None;
     answer := fun _ _ _ => No |}.

Definition cli (args : list string) : list string :=
  "zerotier-cli" :: ("-T" ++ token) :: args.

Definition status_text : string := "200 info abcdef1234 1.10.1 ONLINE" ++ nl.

(** Two joined networks, on the devices [ztabc00001] and
    [ztabc00002]; the second one has no name. *)
Definition listnetworks_payload : string :=
  "[{" ++ q "id" ++ ": " ++ q "8056c2e21c000001" ++ ", " ++
          q "nwid" ++ ": " ++ q "8056c2e21c000001" ++ ", " ++
          q "name" ++ ": " ++ q "office" ++ ", " ++
          q "status" ++ ": " ++ q "OK" ++ ", " ++
          q "mtu" ++ ": 2800, " ++
          q "portDeviceName" ++ ": " ++ q "ztabc00001" ++ "}, " ++
   "{" ++ q "id" ++ ": " ++ q "a09acf0233e4b070" ++ ", " ++
          q "nwid" ++ ": " ++ q "a09acf0233e4b070" ++ ", " ++
          q "name" ++ ": " ++ q "" ++ ", " ++
          q "status" ++ ": " ++ q "REQUESTING_CONFIGURATION" ++ ", " ++
          q "mtu" ++ ": 2800, " ++
          q "portDeviceName" ++ ": " ++ q "ztabc00002" ++ "}]".

Definition listnetworks_value : value :=
  VList
    [VDict [("id", VStr "8056c2e21c000001"); ("nwid", VStr "8056c2e21c000001");
            ("name", VStr "office"); ("status", VStr "OK"); ("mtu", VInt 2800);
            ("portDeviceName", VStr "ztabc00001")];
     VDict [("id", VStr "a09acf0233e4b070"); ("nwid", VStr "a09acf0233e4b070");
            ("name", VStr ""); ("status", VStr "REQUESTING_CONFIGURATION");
            ("mtu", VInt 2800); ("portDeviceName", VStr "ztabc00002")]].

(** The interface table with both devices, the second one down. *)
Definition address_payload : string :=
  "[{" ++ q "ifname" ++ ": " ++ q "lo" ++ ", " ++ q "operstate" ++ ": " ++ q "UNKNOWN" ++ "}, " ++
   "{" ++ q "ifname" ++ ": " ++ q "ztabc00001" ++ ", " ++ q "operstate" ++ ": " ++ q "UP" ++ "}, " ++
   "{" ++ q "ifname" ++ ": " ++ q "ztabc00002" ++ ", " ++ q "operstate" ++ ": " ++ q "DOWN" ++ "}]".

Definition address_value : list value :=
  [VDict [("ifname", VStr "lo"); ("operstate", VStr "UNKNOWN")];
   VDict [("ifname", VStr "ztabc00001"); ("operstate", VStr "UP")];
   VDict [("ifname", VStr "ztabc00002"); ("operstate", VStr "DOWN")]].

(** The interface table while the second device is unbound. *)
Definition address_payload_unbound : string :=
  "[{" ++ q "ifname" ++ ": " ++ q "lo" ++ ", " ++ q "operstate" ++ ": " ++ q "UNKNOWN" ++ "}, " ++
   "{" ++ q "ifname" ++ ": " ++ q "ztabc00001" ++ ", " ++ q "operstate" ++ ": " ++ q "UP" ++ "}]".

Definition address_value_unbound : list value :=
  [VDict [("ifname", VStr "lo"); ("operstate", VStr "UNKNOWN")];
   VDict [("ifname", VStr "ztabc00001"); ("operstate", VStr "UP")]].

(** [json.loads] on the three payloads above. *)
Definition loads (s : string) : option value :=
  if String.eqb s listnetworks_payload then Some listnetworks_value
  else if String.eqb s address_payload then Some (VList address_value)
  else if String.eqb s address_payload_unbound then Some (VList address_value_unbound)
  else None.

(** The commands of a session: the daemon knows the two networks,
    accepts the [allow...] settings and refuses any other; the
    escalation helper ends with [pkexec_status]. *)
Definition commands (pkexec_status : Z) (address : string) (argv : list string)
    : option (Z * string) :=
  if same_argv argv (cli ["status"]) then Some (0, status_text)
  else if same_argv argv (cli ["-j"; "listnetworks"]) then Some (0, listnetworks_payload)
  else if same_argv argv ["ip"; "--json"; "address"] then Some (0, address)
  else
    match argv with
    | "pkexec" :: _ =>
        if pkexec_status =? 126 then
          Some (126, "Error executing command as another user: Request dismissed" ++ nl)
        else if pkexec_status =? 127 then
          Some (127, "Error executing command as another user: Not authorized" ++ nl)
        else if pkexec_status =? 0 then Some (0, "")
        else Some (pkexec_status, "cp: cannot stat '/var/lib/zerotier-one/authtoken.secret'" ++ nl)
    | ["zerotier-cli"; _; "join"; network_id] =>
        if (String.length network_id =? 16)%nat then Some (0, "200 join OK" ++ nl)
        else Some (1, "invalid network id" ++ nl)
    | ["zerotier-cli"; _; "leave"; network_id] =>
        if same_argv [network_id] ["8056c2e21c000001"] then Some (0, "200 leave OK" ++ nl)
        else Some (1, "404 leave" ++ nl)
    | ["zerotier-cli"; _; "set"; _; setting] =>
        if String.prefix "allow" setting then Some (0, setting ++ nl)
        else Some (1, "400 set " ++ setting ++ nl)
    | _ => None
    end.

(** A user session started in the home directory, with the token
    copied to the configuration directory. *)
Definition world (pkexec_status : Z) (address : string) (pressed : button) : env :=
  {| getuid := 1000; getgid := 1000;
     getcwd := "/home/ana";
     HomeLocation := "/home/ana";
     GenericConfigLocation := "/home/ana/.config";
     files := fun _ =>
       {[ "/var/lib/zerotier-one/authtoken.secret" := token ++ nl;
          "/home/ana/.config/zerotier-qt/authtoken.secret" := token ++ nl ]};
     run := fun _ => commands pkexec_status address;
     answer := fun _ _ _ => pressed |}.

(** The same session before the token was copied. *)
Definition world_no_copy (pkexec_status : Z) (pressed : button) : env :=
  {| getuid := 1000; getgid := 1000;
     getcwd := "/home/ana";
     HomeLocation := "/home/ana";
     GenericConfigLocation := "/home/ana/.config";
     files := fun _ => {[ "/var/lib/zerotier-one/authtoken.secret" := token ++ nl ]};
     run := fun _ => commands pkexec_status address_payload;
     answer := fun _ _ _ => pressed |}.


(** The state once the start-up code has resolved the token. *)
Definition started : state :=
  {| authtoken := Some token; trace := []; statusLabel := ""; networksTable := [] |}.

End Sample.

(** ** Sample worlds with a service manager *)

Module Desk.



(** Whether the service runs after [events], when it did or did not
    before: the last [start] or [stop] decides. *)
Definition active_after (before : bool) (events : list event) : bool :=
  fold_left
    (fun active e =>
       match e with
       | Exec ["systemctl"; "start"; "zerotier-one"] => true
       | Exec ["systemctl"; "stop"; "zerotier-one"] => false
       | _ => active
       end)
    events before.

Definition enabled_after (before : bool) (events : list event) : bool :=
  fold_left
    (fun enabled e =>
       match e with
       | Exec ["systemctl"; "enable"; "zerotier-one"] => true
       | Exec ["systemctl"; "disable"; "zerotier-one"] => false
       | _ => enabled
       end)
    events before.

Definition show_argv : list string :=
  ["systemctl"; "show"; "zerotier-one"; "--property=ActiveState,UnitFileState"].

Definition properties (active enabled : bool) : list (string * string) :=
  [("ActiveState", if active then "active" else "inactive");
   ("UnitFileState", if enabled then "enabled" else "disabled")].

(** Two peers, the second one of unknown version and without paths. *)
Definition peers_payload : string :=
  "[{" ++ Sample.q "address" ++ ": " ++ Sample.q "778cde7190" ++ ", " ++
          Sample.q "version" ++ ": " ++ Sample.q "1.10.1" ++ ", " ++
          Sample.q "role" ++ ": " ++ Sample.q "PLANET" ++ ", " ++
          Sample.q "latency" ++ ": 42, " ++
          Sample.q "paths" ++ ": [{" ++
            Sample.q "address" ++ ": " ++ Sample.q "103.195.103.66/9993" ++ ", " ++
            Sample.q "active" ++ ": true, " ++
            Sample.q "expired" ++ ": false, " ++
            Sample.q "lastReceive" ++ ": 1730628000123, " ++
            Sample.q "lastSend" ++ ": 1730628000456, " ++
            Sample.q "preferred" ++ ": true, " ++
            Sample.q "trustedPathId" ++ ": 0}]}, " ++
   "{" ++ Sample.q "address" ++ ": " ++ Sample.q "3a46f1bf30" ++ ", " ++
          Sample.q "version" ++ ": " ++ Sample.q "-1.-1.-1" ++ ", " ++
          Sample.q "role" ++ ": " ++ Sample.q "LEAF" ++ ", " ++
          Sample.q "latency" ++ ": -1, " ++
          Sample.q "paths" ++ ": []}]".

Definition path_value : value :=
  VDict [("address", VStr "103.195.103.66/9993"); ("active", VBool true);
         ("expired", VBool false); ("lastReceive", VInt 1730628000123);
         ("lastSend", VInt 1730628000456); ("preferred", VBool true);
         ("trustedPathId", VInt 0)].

Definition planet_value : value :=
  VDict [("address", VStr "778cde7190"); ("version", VStr "1.10.1");
         ("role", VStr "PLANET"); ("latency", VInt 42); ("paths", VList [path_value])].

Definition leaf_value : value :=
  VDict [("address", VStr "3a46f1bf30"); ("version", VStr "-1.-1.-1");
         ("role", VStr "LEAF"); ("latency", VInt (-1)); ("paths", VList [])].

(** [json.loads] on the payloads of the samples. *)
Definition loads (s : string) : option value :=
  if String.eqb s peers_payload then Some (VList [planet_value; leaf_value])
  else Sample.loads s.

(** The commands of a session with a service manager: the service runs
    and is enabled as the last action left it, [systemctl] refuses the
    action [enable] and accepts the others, and the daemon answers the
    plain [listnetworks] with the exit status [daemon_status]. *)
Definition commands (active enabled : bool) (daemon_status : Z) (events : list event)
    (argv : list string) : option (Z * string) :=
  if Sample.same_argv argv show_argv then
    Some (0, show_output (properties (active_after active events)
                            (enabled_after enabled events)))
  else if Sample.same_argv argv (Sample.cli ["-j"; "peers"]) then Some (0, peers_payload)
  else if Sample.same_argv argv (Sample.cli ["listnetworks"]) then
    if daemon_status =? 0 then Some (0, "200 listnetworks <nwid> <name> <mac> <status>" ++ nl)
    else Some (daemon_status, "zerotier-cli: missing port and zerotier-one.port not found" ++ nl)
  else
    match argv with
    | ["systemctl"; "enable"; "zerotier-one"] =>
        Some (1, "Failed to enable unit: Access denied" ++ nl)
    | ["systemctl"; _; "zerotier-one"] => Some (0, "")
    | _ =>
        if daemon_status =? 0 then Sample.commands 0 Sample.address_payload argv
        else
          match argv with
          | "zerotier-cli" :: _ =>
              Some (daemon_status,
                    "zerotier-cli: missing port and zerotier-one.port not found" ++ nl)
          | _ => Sample.commands 0 Sample.address_payload argv
          end
    end.

Definition world (active enabled : bool) (daemon_status : Z) (pressed : button) : env :=
  {| getuid := 1000; getgid := 1000;
     getcwd := "/home/ana";
     HomeLocation := "/home/ana";
     GenericConfigLocation := "/home/ana/.config";
     files := fun _ =>
       {[ "/var/lib/zerotier-one/authtoken.secret" := Sample.token ++ nl;
          "/home/ana/.config/zerotier-qt/authtoken.secret" := Sample.token ++ nl ]};
     run := commands active enabled daemon_status;
     answer := fun _ _ _ => pressed |}.

(** A session in which [systemctl show] prints [text], whatever the
    service does. *)
Definition world_showing (text : string) : env :=
  {| getuid := 1000; getgid := 1000;
     getcwd := "/home/ana";
     HomeLocation := "/home/ana";
     GenericConfigLocation := "/home/ana/.config";
     files := fun _ =>
       {[ "/home/ana/.config/zerotier-qt/authtoken.secret" := Sample.token ++ nl ]};
     run := fun _ argv => if Sample.same_argv argv show_argv then Some (0, text) else None;
     answer := fun _ _ _ => No |}.

(** [shutil.which] on a system with the client installed, and on one
    without. *)
Definition which_installed (name : string) : option string :=
  if String.eqb name "zerotier-cli" then Some "/usr/bin/zerotier-cli" else None.

Definition which_nothing (name : string) : option string := None.

End Desk.

(** ** Reasoning about [M] computations *)

Section Monad_facts.

Context {A B : Type}.

Lemma bind_Ok (m : M A) (f : A -> M B) st a st' :
  m st = (Ok a, st') -> (m ≫= f) st = f a st'.
Proof. intros H. unfold mbind, M_bind. by rewrite H. Qed.

Lemma bind_Raise (m : M A) (f : A -> M B) st e st' :
  m st = (Raise e, st') -> (m ≫= f) st = (Raise e, st').
Proof. intros H. unfold mbind, M_bind. by rewrite H. Qed.

Lemma lift_bind (r : res A) (f : A -> M B) st :
  (lift r ≫= f) st = match r with Ok a => f a st | Raise e => (Raise e, st) end.
Proof. unfold mbind, M_bind, lift. by destruct r. Qed.

Lemma ret_bind (a : A) (f : A -> M B) st : (mret a ≫= f) st = f a st.
Proof. reflexivity. Qed.

Lemma emit_bind e (f : unit -> M B) st : (emit e ≫= f) st = f tt (after st [e]).
Proof. reflexivity. Qed.

Lemma question_bind E title text (f : button -> M B) st :
  (question E title text ≫= f) st
  = f (answer E (trace st) title text) (after st [MessageBox Question title text]).
Proof. reflexivity. Qed.

End Monad_facts.

Lemma after_nil st : after st [] = st.
Proof. destruct st. unfold after. simpl. by rewrite app_nil_r. Qed.

Lemma after_after st xs ys : after (after st xs) ys = after st (xs ++ ys).
Proof. unfold after. simpl. by rewrite app_assoc. Qed.

Lemma eq_VStr v s : Dyn.eq v (VStr s) = true <-> v = VStr s.
Proof.
  destruct v; simpl; try (split; [discriminate | congruence]).
  rewrite String.eqb_eq. split; congruence.
Qed.

(** ** Properties of the state that every call keeps *)

Create HintDb stable.

Section Stability.

Variable json_loads : string -> option value.
Variable E : env.
Variable P : state -> Prop.

Hypothesis P_after : forall st events, P st -> P (after st events).
Hypothesis P_table : forall st rows,
  P st -> P {| authtoken := authtoken st; trace := trace st;
               statusLabel := statusLabel st; networksTable := rows |}.
Hypothesis P_label : forall st text,
  P st -> P {| authtoken := authtoken st; trace := trace st;
               statusLabel := text; networksTable := networksTable st |}.
Hypothesis P_fresh_token : forall st t,
  P st -> authtoken st = None ->
  P {| authtoken := Some t; trace := trace st;
       statusLabel := statusLabel st; networksTable := networksTable st |}.

Lemma stable_bind {A B} (m : M A) (f : A -> M B) :
  stable P m -> (forall a, stable P (f a)) -> stable P (m ≫= f).
Proof.
  intros Hm Hf st HP. unfold mbind, M_bind.
  specialize (Hm st HP). destruct (m st) as [[a|e] st']; simpl in *; [|done].
  by apply Hf.
Qed.

Lemma stable_ret {A} (a : A) : stable P (mret a).
Proof. by intros st HP. Qed.

Lemma stable_lift {A} (r : res A) : stable P (lift r).
Proof. by intros st HP. Qed.

Lemma stable_raise {A} e : stable P (@raise A e).
Proof. by intros st HP. Qed.

Lemma stable_os_exit {A} code : stable P (@os_exit A code).
Proof. apply stable_raise. Qed.

Lemma stable_emit e : stable P (emit e).
Proof. intros st HP. by apply P_after. Qed.

Lemma stable_message kind title text : stable P (message kind title text).
Proof. apply stable_emit. Qed.

Lemma stable_isfile path : stable P (isfile E path).
Proof.
  intros st HP. unfold isfile. simpl.
  destruct (files E (trace st) !! abspath E path); simpl; by apply P_after.
Qed.

Lemma stable_read path : stable P (read E path).
Proof.
  intros st HP. unfold read. simpl.
  destruct (files E (trace st) !! abspath E path); simpl; by apply P_after.
Qed.

Lemma stable_check_output argv : stable P (check_output E argv).
Proof.
  intros st HP. unfold check_output. simpl.
  destruct (run E (trace st) argv) as [[rc out]|]; [destruct (rc =? 0)|];
    simpl; by apply P_after.
Qed.

Lemma stable_question title text : stable P (question E title text).
Proof. intros st HP. unfold question. simpl. by apply P_after. Qed.

Lemma stable_try {A} (body : M A) handler :
  stable P body -> (forall rc out, stable P (handler rc out)) ->
  stable P (try_CalledProcessError body handler).
Proof.
  intros Hb Hh st HP. unfold try_CalledProcessError.
  specialize (Hb st HP). destruct (body st) as [[a|e] st']; simpl in *; [done|].
  destruct e; simpl; try done. by apply Hh.
Qed.

Lemma stable_set_networksTable rows : stable P (set_networksTable rows).
Proof. intros st HP. by apply P_table. Qed.

Lemma stable_get_networksTable : stable P get_networksTable.
Proof. by intros st HP. Qed.

Lemma stable_get_token : stable P (get_token E).
Proof.
  intros st HP. unfold get_token.
  destruct (authtoken st) eqn:Htok; [done|].
  assert (Hread : forall path,
    P (snd ((text ← read E path; _ ← set_authtoken (Py.strip text);
             mret (Py.strip text)) st))).
  { intros path. unfold mbind, M_bind, read. simpl.
    destruct (files E (trace st) !! abspath E path); simpl.
    - apply (P_fresh_token (after st _)); [by apply P_after | done].
    - by apply P_after. }
  destruct (getuid E =? 0); [apply Hread|].
  unfold mbind at 1. unfold M_bind at 1. unfold isfile. simpl.
  destruct (files E (trace st) !! abspath E ".zeroTierOneAuthToken"); simpl.
  - unfold mbind, M_bind, read. simpl.
    destruct (files E (trace st ++ _) !! _); simpl.
    + apply (P_fresh_token (after (after st _) _)); [by do 2 apply P_after | done].
    + apply (P_after (after st _)). by apply P_after.
  - unfold mbind, M_bind, read. simpl.
    destruct (files E (trace st ++ _) !! _); simpl.
    + apply (P_fresh_token (after (after st _) _)); [by do 2 apply P_after | done].
    + apply (P_after (after st _)). by apply P_after.
Qed.

Hint Resolve stable_ret stable_lift stable_raise stable_os_exit stable_emit
  stable_message stable_isfile stable_read stable_check_output stable_question
  stable_set_networksTable stable_get_networksTable stable_get_token : stable.

(** Splits a computation along its binds, handlers and case
    distinctions, closing the leaves with the lemmas above. *)
Ltac stable_steps :=
  repeat first
    [ progress auto with stable
    | apply stable_bind
    | apply stable_try
    | match goal with
      | |- forall _, _ => intro
      | |- stable _ (if ?b then _ else _) => destruct b
      | |- stable _ (match ?x with _ => _ end) => destruct x
      end ].

Lemma stable_zerotier_cli args : stable P (zerotier_cli E args).
Proof. unfold zerotier_cli. stable_steps. Qed.
Hint Resolve stable_zerotier_cli : stable.

Lemma stable_check_call argv : stable P (check_call E argv).
Proof. unfold check_call. stable_steps. Qed.
Hint Resolve stable_check_call : stable.

Lemma stable_get_status : stable P (get_status E).
Proof. unfold get_status. stable_steps. Qed.

Lemma stable_manage_service action : stable P (manage_service E action).
Proof. unfold manage_service. stable_steps. Qed.

Lemma stable_change_config network_id config v :
  stable P (change_config E network_id config v).
Proof. unfold change_config. stable_steps. Qed.

Lemma stable_get_networks_info : stable P (get_networks_info json_loads E).
Proof. unfold get_networks_info. stable_steps. Qed.
Hint Resolve stable_get_status stable_manage_service stable_get_networks_info : stable.

Lemma stable_is_on_network network_id : stable P (is_on_network json_loads E network_id).
Proof. unfold is_on_network. stable_steps. Qed.
Hint Resolve stable_is_on_network : stable.

Lemma stable_join_network network_id : stable P (join_network json_loads E network_id).
Proof. unfold join_network. stable_steps. Qed.

Lemma stable_get_interface_state interface :
  stable P (get_interface_state json_loads E interface).
Proof. unfold get_interface_state. stable_steps. Qed.
Hint Resolve stable_get_interface_state : stable.

Lemma stable_leave_network networkId networkName :
  stable P (leave_network E networkId networkName).
Proof. unfold leave_network. stable_steps. Qed.

Lemma stable_toggle_interface interfaceName :
  stable P (toggle_interface json_loads E interfaceName).
Proof. unfold toggle_interface. stable_steps. Qed.

Lemma stable_setup_auth_token : stable P (setup_auth_token E).
Proof. unfold setup_auth_token. stable_steps. Qed.

Lemma stable_about_window : stable P (about_window E).
Proof. unfold about_window. stable_steps. Qed.

Lemma stable_collect_networks networkData positions :
  forall networks, stable P (collect_networks json_loads E networkData positions networks).
Proof.
  induction positions as [|networkPosition rest IH]; intros networks; simpl.
  - stable_steps.
  - stable_steps.
Qed.

Lemma stable_insert_networks networks :
  forall position, stable P (insert_networks networks position).
Proof.
  induction networks as [|network rest IH]; intros position; simpl.
  - stable_steps.
  - unfold insertTopLevelItem, setForeground_gray. stable_steps.
Qed.

(** The part of [refresh_networks] that follows the status line. *)
Lemma stable_refresh_table :
  stable P (_ ← set_networksTable [];
            networkData ← get_networks_info json_loads E;
            count ← lift (Dyn.len networkData);
            networks ← collect_networks json_loads E networkData (seq 0 count) [];
            insert_networks networks 0%nat).
Proof.
  pose proof stable_collect_networks. pose proof stable_insert_networks.
  stable_steps.
Qed.

Lemma stable_refresh_networks : stable P (refresh_networks json_loads E).
Proof.
  unfold refresh_networks.
  do 3 (apply stable_bind; [auto with stable | intros ?]).
  apply stable_bind; [|intros ?; apply stable_refresh_table].
  intros st HP. by apply P_label.
Qed.



End Stability.

(** ** Credential resolver *)

Section Credential.

Variable E : env.

Lemma get_token_cached st t : authtoken st = Some t -> get_token E st = (Ok t, st).
Proof. intros H. unfold get_token. by rewrite H. Qed.

Lemma get_token_caches st t st1 : get_token E st = (Ok t, st1) -> authtoken st1 = Some t.
Proof.
  unfold get_token. destruct (authtoken st) eqn:Htok.
  - intros [= <- <-]. done.
  - unfold mbind, M_bind, isfile, read, set_authtoken, mret, M_ret. simpl.
    destruct (getuid E =? 0).
    + destruct (files E (trace st) !! _); simpl; intros [= <- <-]; done.
    + destruct (files E (trace st) !! abspath E ".zeroTierOneAuthToken"); simpl;
        destruct (files E (trace st ++ _) !! _); simpl; intros [= <- <-]; done.
Qed.

(** An elevated process reads the system-wide secret file, and nothing
    else. *)
Lemma get_token_elevated st :
  authtoken st = None -> getuid E = 0 ->
  get_token E st =
    match files E (trace st) !! "/var/lib/zerotier-one/authtoken.secret" with
    | Some text =>
        (Ok (Py.strip text),
         with_token st (Py.strip text) [Open "/var/lib/zerotier-one/authtoken.secret"])
    | None =>
        (Raise (OSError "/var/lib/zerotier-one/authtoken.secret"),
         after st [Open "/var/lib/zerotier-one/authtoken.secret"])
    end.
Proof.
  intros Htok Huid. unfold get_token. rewrite Htok, Huid. simpl.
  unfold mbind, M_bind, read, abspath, Py.path_join. simpl.
  by destruct (files E (trace st) !! _).
Qed.

(** A user process without a dotfile in its working directory reads
    the copy in the configuration directory. *)
Lemma get_token_config_copy st :
  authtoken st = None -> getuid E <> 0 ->
  files E (trace st) !! abspath E ".zeroTierOneAuthToken" = None ->
  get_token E st =
    let probe := Isfile (abspath E ".zeroTierOneAuthToken") in
    match files E (trace st ++ [probe]) !! abspath E (AUTH_FILE E) with
    | Some text =>
        (Ok (Py.strip text),
         with_token st (Py.strip text) [probe; Open (abspath E (AUTH_FILE E))])
    | None =>
        (Raise (OSError (AUTH_FILE E)), after st [probe; Open (abspath E (AUTH_FILE E))])
    end.
Proof.
  intros Htok Huid Hdot. unfold get_token. rewrite Htok.
  apply Z.eqb_neq in Huid. rewrite Huid.
  unfold mbind, M_bind, isfile, read. simpl. rewrite Hdot. simpl.
  destruct (files E (trace st ++ _) !! _); simpl;
    unfold with_token, after; simpl; by rewrite <- app_assoc.
Qed.

(** A user process with a dotfile in its working directory reads the
    dotfile of the home directory. *)
Lemma get_token_dotfile st :
  authtoken st = None -> getuid E <> 0 ->
  is_Some (files E (trace st) !! abspath E ".zeroTierOneAuthToken") ->
  get_token E st =
    let probe := Isfile (abspath E ".zeroTierOneAuthToken") in
    let home := Py.path_join (HOME_DIR E) ".zeroTierOneAuthToken" in
    match files E (trace st ++ [probe]) !! abspath E home with
    | Some text =>
        (Ok (Py.strip text), with_token st (Py.strip text) [probe; Open (abspath E home)])
    | None => (Raise (OSError home), after st [probe; Open (abspath E home)])
    end.
Proof.
  intros Htok Huid [text Hdot]. unfold get_token. rewrite Htok.
  apply Z.eqb_neq in Huid. rewrite Huid.
  unfold mbind, M_bind, isfile, read. simpl. rewrite Hdot. simpl.
  destruct (files E (trace st ++ _) !! _); simpl;
    unfold with_token, after; simpl; by rewrite <- app_assoc.
Qed.

End Credential.

(** C1.  The fallback of the specification reads the dotfile of the
    user's home directory whenever that file is present, and the copy
    of the configuration directory otherwise.  [get_token] tests for
    [.zeroTierOneAuthToken] in the working directory and reads it from
    the home directory.  Started outside the home directory by a user
    whose home holds the dotfile, it never looks at it and returns the
    token of the configuration directory; started in a directory that
    holds a file of that name, by a user who has the copy only, it
    raises. *)
Theorem get_token_probes_working_directory :
  files Sample.world_user_elsewhere [] !! "/home/ana/.zeroTierOneAuthToken"
    = Some ("hometoken0000000000000000" ++ nl) /\
  get_token Sample.world_user_elsewhere initial =
    (Ok "conftoken0000000000000000",
     with_token initial "conftoken0000000000000000"
       [Isfile "/srv/work/.zeroTierOneAuthToken";
        Open "/home/ana/.config/zerotier-qt/authtoken.secret"]) /\
  files Sample.world_user_stray [] !! "/home/ana/.zeroTierOneAuthToken" = None /\
  files Sample.world_user_stray [] !! "/home/ana/.config/zerotier-qt/authtoken.secret"
    = Some ("conftoken0000000000000000" ++ nl) /\
  get_token Sample.world_user_stray initial =
    (Raise (OSError "/home/ana/.zeroTierOneAuthToken"),
     after initial [Isfile "/srv/work/.zeroTierOneAuthToken";
                    Open "/home/ana/.zeroTierOneAuthToken"]).
Proof. repeat split; vm_compute; reflexivity. Qed.


(** ** Daemon client *)

Section Daemon_client.

Variable json_loads : string -> option value.
Variable E : env.

Lemma zerotier_cli_Ok st tok st1 args :
  get_token E st = (Ok tok, st1) ->
  zerotier_cli E args st = (Ok ("zerotier-cli" :: ("-T" ++ tok) :: args), st1).
Proof. intros H. unfold zerotier_cli. by rewrite (bind_Ok _ _ _ _ _ H). Qed.

Lemma check_output_Ok st argv out :
  run E (trace st) argv = Some (0, out) ->
  check_output E argv st = (Ok out, after st [Exec argv]).
Proof. intros H. unfold check_output. simpl. by rewrite H. Qed.

Lemma check_output_fails st argv rc out :
  run E (trace st) argv = Some (rc, out) -> rc <> 0 ->
  check_output E argv st = (Raise (CalledProcessError rc argv out), after st [Exec argv]).
Proof.
  intros H Hrc. unfold check_output. simpl. rewrite H.
  apply Z.eqb_neq in Hrc. by rewrite Hrc.
Qed.

Lemma check_call_Ok st argv out :
  run E (trace st) argv = Some (0, out) ->
  check_call E argv st = (Ok tt, after st [Exec argv]).
Proof. intros H. unfold check_call. by rewrite (bind_Ok _ _ _ _ _ (check_output_Ok _ _ _ H)). Qed.

Lemma check_call_fails st argv rc out :
  run E (trace st) argv = Some (rc, out) -> rc <> 0 ->
  check_call E argv st = (Raise (CalledProcessError rc argv out), after st [Exec argv]).
Proof.
  intros H Hrc. unfold check_call.
  by rewrite (bind_Raise _ _ _ _ _ (check_output_fails _ _ _ _ H Hrc)).
Qed.


Lemma is_on_network_loop_joined network_id networks :
  is_on_network_loop network_id networks true = Ok true.
Proof. by destruct networks. Qed.

Lemma is_on_network_loop_found network_id networks :
  Forall (fun network => is_Ok (Dyn.getitem network "nwid") = true) networks ->
  Exists (fun network => Dyn.getitem network "nwid" = Ok (VStr network_id)) networks ->
  is_on_network_loop network_id networks false = Ok true.
Proof.
  induction 1 as [|network rest Hkey _ IH]; intros Hex; [by inversion Hex|].
  simpl. destruct (Dyn.getitem network "nwid") as [nwid|] eqn:Hget; [|done].
  simpl. destruct (Dyn.eq nwid (VStr network_id)) eqn:Heq.
  - apply is_on_network_loop_joined.
  - apply IH. inversion Hex as [? ? Hhere | ? ? Hrest]; subst; [|done].
    assert (Hsame : nwid = VStr network_id) by congruence.
    apply eq_VStr in Hsame. congruence.
Qed.

Lemma is_on_network_loop_absent network_id networks :
  Forall (fun network => is_Ok (Dyn.getitem network "nwid") = true) networks ->
  ¬ Exists (fun network => Dyn.getitem network "nwid" = Ok (VStr network_id)) networks ->
  is_on_network_loop network_id networks false = Ok false.
Proof.
  induction 1 as [|network rest Hkey _ IH]; intros Hno; [done|].
  simpl. destruct (Dyn.getitem network "nwid") as [nwid|] eqn:Hget; [|done].
  simpl. destruct (Dyn.eq nwid (VStr network_id)) eqn:Heq.
  - apply eq_VStr in Heq as ->. destruct Hno. by left.
  - apply IH. intros Hex. apply Hno. by right.
Qed.

Lemma get_token_commands_run st r st1 :
  get_token E st = (r, st1) -> commands_run (trace st1) = commands_run (trace st).
Proof.
  assert (Hskip : forall events e,
    match e with Exec _ => False | _ => True end ->
    commands_run (events ++ [e]) = commands_run events).
  { induction events as [|e' events IH]; intros e He; simpl.
    - by destruct e.
    - rewrite (IH e He). done. }
  unfold get_token. destruct (authtoken st); [by intros [= <- <-]|].
  unfold mbind, M_bind, isfile, read. simpl.
  destruct (getuid E =? 0).
  - destruct (files E (trace st) !! _); simpl; intros [= <- <-]; simpl;
      by rewrite Hskip.
  - destruct (files E (trace st) !! abspath E ".zeroTierOneAuthToken"); simpl;
      destruct (files E (trace st ++ _) !! _); simpl; intros [= <- <-]; simpl;
      by rewrite !Hskip.
Qed.

Lemma get_networks_info_Ok st tok st1 out v :
  get_token E st = (Ok tok, st1) ->
  run E (trace st1) ["zerotier-cli"; "-T" ++ tok; "-j"; "listnetworks"] = Some (0, out) ->
  json_loads out = Some v ->
  get_networks_info json_loads E st =
    (Ok v, after st1 [Exec ["zerotier-cli"; "-T" ++ tok; "-j"; "listnetworks"]]).
Proof.
  intros Htok Hrun Hjson. unfold get_networks_info.
  rewrite (bind_Ok _ _ _ _ _ (zerotier_cli_Ok _ _ _ _ Htok)).
  rewrite (bind_Ok _ _ _ _ _ (check_output_Ok _ _ _ Hrun)).
  by rewrite Hjson.
Qed.

(** C4.  [join_network] first looks the network up in the output of
    [listnetworks].  With an id that is the [nwid] of some entry, the
    only command run is [listnetworks]: the user is told that the
    network is already joined and the result is [False].  With any
    other id the [join] command is run next, and the result is [True]
    when it exits with 0 and otherwise [False], after the warning
    about an invalid network id. *)
Theorem join_network_checks_membership network_id st tok st1 out networks :
  get_token E st = (Ok tok, st1) ->
  let list_argv := ["zerotier-cli"; "-T" ++ tok; "-j"; "listnetworks"] in
  let join_argv := ["zerotier-cli"; "-T" ++ tok; "join"; network_id] in
  run E (trace st1) list_argv = Some (0, out) ->
  json_loads out = Some (VList networks) ->
  Forall (fun network => is_Ok (Dyn.getitem network "nwid") = true) networks ->
  let st2 := after st1 [Exec list_argv] in
  (Exists (fun network => Dyn.getitem network "nwid" = Ok (VStr network_id)) networks ->
     let st3 := after st2 [MessageBox Information APP_NAME
                             "You are already a member of this network."] in
     join_network json_loads E network_id st = (Ok false, st3) /\
     commands_run (trace st3) = (commands_run (trace st) ++ [list_argv])%list) /\
  (¬ Exists (fun network => Dyn.getitem network "nwid" = Ok (VStr network_id)) networks ->
     forall rc o, run E (trace st2) join_argv = Some (rc, o) ->
     join_network json_loads E network_id st =
       if rc =? 0 then (Ok true, after st2 [Exec join_argv])
       else (Ok false, after st2 [Exec join_argv;
                                  MessageBox Warning APP_NAME "Invalid network ID"])).
Proof.
  intros Htok list_argv join_argv Hrun Hjson Hkeys st2.
  pose proof (get_networks_info_Ok _ _ _ _ _ Htok Hrun Hjson) as Hinfo.
  fold list_argv in Hinfo. fold st2 in Hinfo.
  assert (Hon : forall joined,
    is_on_network_loop network_id networks false = Ok joined ->
    is_on_network json_loads E network_id st = (Ok joined, st2)).
  { intros joined Hloop. unfold is_on_network.
    rewrite (bind_Ok _ _ _ _ _ Hinfo). rewrite lift_bind. simpl.
    unfold lift. by rewrite Hloop. }
  split.
  - intros Hex st3. split.
    + unfold join_network, try_CalledProcessError.
      rewrite (bind_Ok _ _ _ _ _ (Hon true (is_on_network_loop_found _ _ Hkeys Hex))).
      reflexivity.
    + unfold st3, st2. simpl. rewrite <- !app_assoc. simpl.
      rewrite <- (get_token_commands_run _ _ _ Htok).
      generalize (trace st1). induction l as [|e l IH]; simpl; [done|].
      destruct e; simpl; by rewrite IH.
  - intros Hno rc o Hjoin. unfold join_network, try_CalledProcessError.
    rewrite (bind_Ok _ _ _ _ _ (Hon false (is_on_network_loop_absent _ _ Hkeys Hno))).
    assert (Hcached : get_token E st2 = (Ok tok, st2)).
    { apply get_token_cached. simpl. by apply (get_token_caches E st). }
    rewrite (bind_Ok _ _ _ _ _ (zerotier_cli_Ok _ _ _ _ Hcached)). fold join_argv.
    destruct (Z.eqb_spec rc 0) as [->|Hrc].
    + by rewrite (bind_Ok _ _ _ _ _ (check_call_Ok _ _ _ Hjoin)).
    + rewrite (bind_Raise _ _ _ _ _ (check_call_fails _ _ _ _ Hjoin Hrc)).
      unfold message, emit, mbind, M_bind. simpl. by rewrite after_after.
Qed.

(** C8.  [leave_network] asks for a confirmation first.  When the user
    declines, the question box is the only effect, no command is run
    and the result is [False].  When the user accepts, the [leave]
    command is run after the question: the result is [True] when it
    exits with 0, and otherwise [False] after the warning that leaving
    failed. *)
Theorem leave_network_asks_first networkId networkName st :
  let text := leave_text networkId networkName in
  let st1 := after st [MessageBox Question "Leave Network" text] in
  (answer E (trace st) "Leave Network" text = No ->
     leave_network E networkId networkName st = (Ok false, st1) /\
     commands_run (trace st1) = commands_run (trace st)) /\
  (answer E (trace st) "Leave Network" text = Yes ->
     forall tok st2 rc out,
       get_token E st1 = (Ok tok, st2) ->
       let argv := ["zerotier-cli"; "-T" ++ tok; "leave"; networkId] in
       run E (trace st2) argv = Some (rc, out) ->
       leave_network E networkId networkName st =
         if rc =? 0 then (Ok true, after st2 [Exec argv])
         else (Ok false, after st2 [Exec argv;
                                    MessageBox Warning APP_NAME "Failed to leave network."])).
Proof.
  intros text st1.
  assert (Hask : question E "Leave Network" text st
                 = (Ok (answer E (trace st) "Leave Network" text), st1)) by done.
  split.
  - intros Hno. split.
    + unfold leave_network. fold text. rewrite (bind_Ok _ _ _ _ _ Hask). by rewrite Hno.
    + unfold st1. simpl. generalize (trace st).
      induction l as [|e l IH]; simpl; [done|]. destruct e; simpl; by rewrite IH.
  - intros Hyes tok st2 rc out Htok argv Hrun.
    unfold leave_network. fold text. rewrite (bind_Ok _ _ _ _ _ Hask). rewrite Hyes.
    unfold try_CalledProcessError.
    rewrite (bind_Ok _ _ _ _ _ (zerotier_cli_Ok _ _ _ _ Htok)). fold argv.
    destruct (Z.eqb_spec rc 0) as [->|Hrc].
    + by rewrite (bind_Ok _ _ _ _ _ (check_call_Ok _ _ _ Hrun)).
    + rewrite (bind_Raise _ _ _ _ _ (check_call_fails _ _ _ _ Hrun Hrc)).
      unfold message, emit, mbind, M_bind. simpl. by rewrite after_after.
Qed.

End Daemon_client.

(** ** Status line *)

Section Status.

Variable json_loads : string -> option value.
Variable E : env.

Lemma get_status_Ok st tok st1 out text :
  get_token E st = (Ok tok, st1) ->
  run E (trace st1) ["zerotier-cli"; "-T" ++ tok; "status"] = Some (0, out) ->
  decode out = Ok text ->
  get_status E st =
    (Ok (Py.split text), after st1 [Exec ["zerotier-cli"; "-T" ++ tok; "status"]]).
Proof.
  intros Htok Hrun Hdec. unfold get_status.
  rewrite (bind_Ok _ _ _ _ _ (zerotier_cli_Ok E _ _ _ _ Htok)).
  rewrite (bind_Ok _ _ _ _ _ (check_output_Ok E _ _ _ Hrun)).
  by rewrite lift_bind, Hdec.
Qed.






End Status.

(** ** Interface state *)

Section Interface.

Variable json_loads : string -> option value.
Variable E : env.

Lemma get_interface_state_table st out text table interface :
  run E (trace st) ["ip"; "--json"; "address"] = Some (0, out) ->
  decode out = Ok text ->
  json_loads text = Some (VList table) ->
  get_interface_state json_loads E interface st =
    (find_operstate interface table, after st [Exec ["ip"; "--json"; "address"]]).
Proof.
  intros Hrun Hdec Hjson. unfold get_interface_state.
  rewrite (bind_Ok _ _ _ _ _ (check_output_Ok _ _ _ _ Hrun)).
  rewrite lift_bind, Hdec, Hjson. rewrite lift_bind. simpl. reflexivity.
Qed.

Lemma toggle_interface_run interfaceName st state st1 rc out :
  get_interface_state json_loads E (VStr interfaceName) st = (Ok (VStr state), st1) ->
  let target := if String.eqb (Py.lower state) "down" then "up" else "down" in
  let argv := ["pkexec"; "ip"; "link"; "set"; interfaceName; target] in
  run E (trace st1) argv = Some (rc, out) ->
  toggle_interface json_loads E interfaceName st = (Ok (rc =? 0), after st1 [Exec argv]).
Proof.
  intros Hstate target argv Hrun.
  unfold toggle_interface. rewrite (bind_Ok _ _ _ _ _ Hstate).
  rewrite lift_bind. simpl. unfold argv, target in *.
  destruct (String.eqb (Py.lower state) "down"); unfold try_CalledProcessError;
    (destruct (Z.eqb_spec rc 0) as [->|Hrc];
     [ by rewrite (bind_Ok _ _ _ _ _ (check_call_Ok _ _ _ _ Hrun))
     | by rewrite (bind_Raise _ _ _ _ _ (check_call_fails _ _ _ _ _ Hrun Hrc)) ]).
Qed.

(** C9.  [toggle_interface] takes the name of the interface and
    nothing else.  It reads the state of the interface and asks the
    escalation helper for the opposite: [up] exactly when the state,
    in lower case, is [down], and [down] in every other case.  The
    result tells whether the helper exited with 0. *)
Theorem toggle_interface_flips interfaceName st state st1 rc out :
  get_interface_state json_loads E (VStr interfaceName) st = (Ok (VStr state), st1) ->
  let target := if String.eqb (Py.lower state) "down" then "up" else "down" in
  let argv := ["pkexec"; "ip"; "link"; "set"; interfaceName; target] in
  run E (trace st1) argv = Some (rc, out) ->
  toggle_interface json_loads E interfaceName st = (Ok (rc =? 0), after st1 [Exec argv]) /\
  (target = "up" <-> Py.lower state = "down").
Proof.
  intros Hstate target argv Hrun. split.
  - by apply (toggle_interface_run _ _ _ _ _ out).
  - unfold target. destruct (String.eqb_spec (Py.lower state) "down"); split; congruence.
Qed.

Lemma isfile_present path st text :
  files E (trace st) !! abspath E path = Some text ->
  isfile E path st = (Ok true, after st [Isfile (abspath E path)]).
Proof. intros H. unfold isfile. simpl. by rewrite H. Qed.

Lemma isfile_absent path st :
  files E (trace st) !! abspath E path = None ->
  isfile E path st = (Ok false, after st [Isfile (abspath E path)]).
Proof. intros H. unfold isfile. simpl. by rewrite H. Qed.


End Interface.

(** ** State reconciler *)

Section Reconciler.

Variable json_loads : string -> option value.
Variable E : env.

(** During the refresh the interface listing keeps answering with the
    same table. *)
Variables (ip_out ip_text : string) (table : list value).
Variables (tok status_out status_text networks_out : string) (networks : list value).
Hypothesis ip_run : forall events, run E events ["ip"; "--json"; "address"] = Some (0, ip_out).
Hypothesis ip_decodes : decode ip_out = Ok ip_text.
Hypothesis ip_loads : json_loads ip_text = Some (VList table).

Lemma collect_networks_fst networkData positions :
  forall collected st,
    fst (collect_networks json_loads E networkData positions collected st)
    = (tuples ← network_tuples table networkData positions; Ok (collected ++ tuples)%list).
Proof.
  induction positions as [|networkPosition rest IH]; intros collected st; simpl.
  - unfold mbind, res_bind. simpl. by rewrite app_nil_r.
  - pose proof (fun device =>
      get_interface_state_table json_loads E st _ _ _ device
        (ip_run _) ip_decodes ip_loads) as Hstate.
    unfold network_tuple, mbind, M_bind, res_bind, lift, mret, M_ret. simpl.
    destruct (field networkData networkPosition "portDeviceName") as [device|]; [|done].
    rewrite Hstate.
    destruct (find_operstate device table) as [interfaceState|]; [|done].
    destruct (Dyn.lower interfaceState) as [lowered|]; [|done].
    destruct (field networkData networkPosition "id") as [id|]; [|done].
    destruct (field networkData networkPosition "name") as [name|]; [|done].
    destruct (Dyn.truthy name);
      (destruct (field networkData networkPosition "status") as [status|]; [|done];
       rewrite IH; unfold mbind, res_bind;
       destruct (network_tuples table networkData rest) as [tuples|]; [|done];
       by rewrite <- app_assoc).
Qed.

(** So do the daemon's [status] and [listnetworks]. *)
Hypothesis status_run :
  forall events, run E events ["zerotier-cli"; "-T" ++ tok; "status"] = Some (0, status_out).
Hypothesis status_decodes : decode status_out = Ok status_text.
Hypothesis networks_run :
  forall events,
    run E events ["zerotier-cli"; "-T" ++ tok; "-j"; "listnetworks"] = Some (0, networks_out).
Hypothesis networks_loads : json_loads networks_out = Some (VList networks).

Lemma network_tuple_readable j network :
  networks !! j = Some network -> readable table network ->
  exists device state cells,
    Dyn.getitem network "portDeviceName" = Ok device /\
    find_operstate device table = Ok (VStr state) /\
    network_tuple table (VList networks) j
      = Ok (cells, String.eqb (Py.lower state) "down").
Proof.
  intros Hj (device & state & Hdev & Hstate & Hid & Hname & Hstatus).
  exists device, state. unfold network_tuple, field. simpl. rewrite Hj.
  unfold mbind, res_bind. simpl. rewrite Hdev, Hstate. simpl.
  destruct (Dyn.getitem network "id"); [|done].
  destruct (Dyn.getitem network "name") as [name|]; [|done].
  destruct (Dyn.getitem network "status"); [|done].
  destruct (Dyn.truthy name); eauto.
Qed.



Lemma network_tuples_all networkData positions :
  Forall (fun j => is_Ok (network_tuple table networkData j) = true) positions ->
  exists tuples,
    network_tuples table networkData positions = Ok tuples /\
    Forall2 (fun j tuple => network_tuple table networkData j = Ok tuple) positions tuples.
Proof.
  induction 1 as [|j positions Hj _ (tuples & Htuples & Hall)]; simpl.
  - by exists [].
  - destruct (network_tuple table networkData j) as [tuple|] eqn:Htuple; [|done].
    exists (tuple :: tuples). rewrite Htuples. split; [done|]. by constructor.
Qed.


(** The state in which the first loop of [refresh_networks] starts. *)
Lemma refresh_networks_until_loop st node online :
  authtoken st = Some tok ->
  index (Py.split status_text) 2 = Ok node ->
  index (Py.split status_text) 4 = Ok online ->
  exists st1,
    networksTable st1 = [] /\
    statusLabel st1 = "Your ID: " ++ node ++ " Status: " ++ online /\
    refresh_networks json_loads E st =
      (networks0 ← collect_networks json_loads E (VList networks)
                     (seq 0 (length networks)) [];
       insert_networks networks0 0%nat) st1.
Proof.
  intros Htok Hnode Honline. eexists. split; [|split]; cycle 2.
  - unfold refresh_networks.
    rewrite (bind_Ok _ _ _ _ _
               (get_status_Ok E _ _ _ _ _ (get_token_cached E _ _ Htok)
                  (status_run _) status_decodes)).
    rewrite lift_bind, Hnode, lift_bind, Honline.
    unfold mbind at 1. unfold M_bind at 1. simpl.
    unfold mbind at 1. unfold M_bind at 1. simpl.
    erewrite (bind_Ok _ _ _ _ _
                (get_networks_info_Ok json_loads E _ _ _ _ _
                   (get_token_cached E _ tok _) (networks_run _) networks_loads)).
    rewrite lift_bind. simpl. reflexivity.
  - done.
  - done.
  Unshelve. done.
Qed.


Lemma insert_networks_appends tuples :
  forall st,
    insert_networks tuples (length (networksTable st)) st =
      (Ok tt, {| authtoken := authtoken st; trace := trace st;
                 statusLabel := statusLabel st;
                 networksTable := networksTable st ++ map row_of tuples |}).
Proof.
  induction tuples as [|[texts isDown] rest IH]; intros st; simpl.
  - destruct st. unfold mret, M_ret. simpl. by rewrite app_nil_r.
  - unfold insertTopLevelItem, setForeground_gray, get_networksTable, set_networksTable.
    unfold mbind, M_bind, mret, M_ret. simpl.
    rewrite firstn_all, skipn_all.
    set (shown := {| cells := texts; gray := isDown |}).
    assert (Hnext : forall st',
      networksTable st' = (networksTable st ++ [shown])%list ->
      insert_networks rest (S (length (networksTable st))) st' =
        (Ok tt, {| authtoken := authtoken st'; trace := trace st';
                   statusLabel := statusLabel st';
                   networksTable := networksTable st ++ shown :: map row_of rest |})).
    { intros st' Hst'.
      replace (S (length (networksTable st))) with (length (networksTable st'))
        by (rewrite Hst', length_app; simpl; lia).
      rewrite IH, Hst'. by rewrite <- app_assoc. }
    destruct isDown; simpl.
    + rewrite Hnext; [done|]. simpl.
      rewrite alter_app_r_alt by done. by rewrite Nat.sub_diag.
    + by rewrite Hnext.
Qed.

(** When every read succeeds, the refresh succeeds and shows one row
    per network, in order, greyed out exactly when the state of its
    interface is [down] in lower case. *)
Lemma refresh_networks_all_read st node online :
  authtoken st = Some tok ->
  index (Py.split status_text) 2 = Ok node ->
  index (Py.split status_text) 4 = Ok online ->
  Forall (readable table) networks ->
  exists tuples,
    fst (refresh_networks json_loads E st) = Ok tt /\
    networksTable (snd (refresh_networks json_loads E st)) = map row_of tuples /\
    length tuples = length networks /\
    forall j network,
      networks !! j = Some network ->
      exists device state cells,
        Dyn.getitem network "portDeviceName" = Ok device /\
        find_operstate device table = Ok (VStr state) /\
        tuples !! j = Some (cells, String.eqb (Py.lower state) "down").
Proof.
  intros Htok Hnode Honline Hall.
  destruct (refresh_networks_until_loop st node online Htok Hnode Honline)
    as (st1 & Htable & _ & ->).
  destruct (network_tuples_all (VList networks) (seq 0 (length networks)))
    as (tuples & Htuples & Heach).
  { apply Forall_forall. intros j Hj. apply elem_of_seq in Hj.
    destruct (lookup_lt_is_Some_2 networks j) as [network Hnetwork]; [lia|].
    destruct (network_tuple_readable j network Hnetwork) as (? & ? & ? & _ & _ & ->);
      [by eapply Forall_lookup_1 | done]. }
  exists tuples.
  pose proof (collect_networks_fst (VList networks) (seq 0 (length networks)) [] st1)
    as Hfst.
  rewrite Htuples in Hfst. unfold mbind, res_bind in Hfst. simpl in Hfst.
  pose proof (stable_collect_networks json_loads E (fun s => networksTable s = [])
                (fun _ _ H => H) (VList networks) (seq 0 (length networks)) [] st1 Htable)
    as Hkept.
  unfold mbind, M_bind.
  destruct (collect_networks json_loads E (VList networks) (seq 0 (length networks)) [] st1)
    as [[networks0|e'] st2]; simpl in *; [|done].
  injection Hfst as ->.
  pose proof (insert_networks_appends tuples st2) as Hinsert.
  rewrite Hkept in Hinsert. simpl in Hinsert. rewrite Hinsert. simpl.
  split; [done|]. split; [done|]. split.
  - apply Forall2_length in Heach. by rewrite length_seq in Heach.
  - intros j network Hnetwork.
    destruct (network_tuple_readable j network Hnetwork)
      as (device & state & cells & Hdev & Hstate & Htuple); [by eapply Forall_lookup_1|].
    exists device, state, cells. split; [done|]. split; [done|].
    assert (Hj : seq 0 (length networks) !! j = Some j).
    { apply lookup_seq. split; [done|]. by eapply lookup_lt_Some. }
    destruct (Forall2_lookup_l _ _ _ _ _ Heach Hj) as (tuple & Hlook & Hok).
    rewrite Hlook. congruence.
Qed.

End Reconciler.

(** ** The statements at work on the sample worlds *)



(** Joining a network of the list, and joining a new one. *)
Lemma join_network_checks_membership_witness :
  let E := Sample.world 0 Sample.address_payload Yes in
  let listed := Exec (Sample.cli ["-j"; "listnetworks"]) in
  join_network Sample.loads E "a09acf0233e4b070" Sample.started
    = (Ok false, after Sample.started
                   [listed; MessageBox Information APP_NAME
                              "You are already a member of this network."]) /\
  join_network Sample.loads E "17d709436c2c5367" Sample.started
    = (Ok true, after Sample.started
                  [listed; Exec (Sample.cli ["join"; "17d709436c2c5367"])]) /\
  join_network Sample.loads E "nonsense" Sample.started
    = (Ok false, after Sample.started
                   [listed; Exec (Sample.cli ["join"; "nonsense"]);
                    MessageBox Warning APP_NAME "Invalid network ID"]).
Proof.
  intros E listed.
  assert (Hkeys : Forall (fun network => is_Ok (Dyn.getitem network "nwid") = true)
                    [VDict [("id", VStr "8056c2e21c000001"); ("nwid", VStr "8056c2e21c000001");
                            ("name", VStr "office"); ("status", VStr "OK"); ("mtu", VInt 2800);
                            ("portDeviceName", VStr "ztabc00001")];
                     VDict [("id", VStr "a09acf0233e4b070"); ("nwid", VStr "a09acf0233e4b070");
                            ("name", VStr ""); ("status", VStr "REQUESTING_CONFIGURATION");
                            ("mtu", VInt 2800); ("portDeviceName", VStr "ztabc00002")]])
    by (repeat constructor).
  assert (Habsent : forall network_id,
    String.eqb "8056c2e21c000001" network_id = false ->
    String.eqb "a09acf0233e4b070" network_id = false ->
    ¬ Exists (fun network => Dyn.getitem network "nwid" = Ok (VStr network_id))
        [VDict [("id", VStr "8056c2e21c000001"); ("nwid", VStr "8056c2e21c000001");
                ("name", VStr "office"); ("status", VStr "OK"); ("mtu", VInt 2800);
                ("portDeviceName", VStr "ztabc00001")];
         VDict [("id", VStr "a09acf0233e4b070"); ("nwid", VStr "a09acf0233e4b070");
                ("name", VStr ""); ("status", VStr "REQUESTING_CONFIGURATION");
                ("mtu", VInt 2800); ("portDeviceName", VStr "ztabc00002")]]).
  { intros network_id H1 H2 Hex.
    apply Exists_cons in Hex as [Hex|Hex];
      [|apply Exists_cons in Hex as [Hex|Hex]; [|by apply Exists_nil in Hex]];
      vm_compute in Hex; injection Hex as <-; vm_compute in H1, H2; discriminate. }
  split; [|split].
  - destruct (join_network_checks_membership Sample.loads E "a09acf0233e4b070"
                Sample.started Sample.token Sample.started Sample.listnetworks_payload _
                eq_refl eq_refl eq_refl Hkeys) as [Hmember _].
    apply Hmember. apply Exists_cons. right. apply Exists_cons. left. reflexivity.
  - destruct (join_network_checks_membership Sample.loads E "17d709436c2c5367"
                Sample.started Sample.token Sample.started Sample.listnetworks_payload _
                eq_refl eq_refl eq_refl Hkeys) as [_ Hnew].
    apply (Hnew (Habsent "17d709436c2c5367" eq_refl eq_refl) 0 ("200 join OK" ++ nl)).
    reflexivity.
  - destruct (join_network_checks_membership Sample.loads E "nonsense"
                Sample.started Sample.token Sample.started Sample.listnetworks_payload _
                eq_refl eq_refl eq_refl Hkeys) as [_ Hnew].
    apply (Hnew (Habsent "nonsense" eq_refl eq_refl) 1 ("invalid network id" ++ nl)).
    reflexivity.
Defined.

(** Leaving a network: declined, accepted, and accepted for a network
    the daemon does not let go. *)
Lemma leave_network_asks_first_witness :
  let declined := Sample.world 0 Sample.address_payload No in
  let accepted := Sample.world 0 Sample.address_payload Yes in
  let asked networkId networkName :=
    MessageBox Question "Leave Network" (leave_text networkId networkName) in
  leave_network declined "8056c2e21c000001" (Some "office") Sample.started
    = (Ok false, after Sample.started [asked "8056c2e21c000001" (Some "office")]) /\
  leave_network accepted "8056c2e21c000001" (Some "office") Sample.started
    = (Ok true, after Sample.started
                  [asked "8056c2e21c000001" (Some "office");
                   Exec (Sample.cli ["leave"; "8056c2e21c000001"])]) /\
  leave_network accepted "a09acf0233e4b070" None Sample.started
    = (Ok false, after Sample.started
                   [asked "a09acf0233e4b070" None;
                    Exec (Sample.cli ["leave"; "a09acf0233e4b070"]);
                    MessageBox Warning APP_NAME "Failed to leave network."]).
Proof.
  intros declined accepted asked. split; [|split].
  - destruct (leave_network_asks_first declined "8056c2e21c000001" (Some "office")
                Sample.started) as [Hno _].
    destruct (Hno eq_refl) as [Hresult _]. exact Hresult.
  - destruct (leave_network_asks_first accepted "8056c2e21c000001" (Some "office")
                Sample.started) as [_ Hyes].
    exact (Hyes eq_refl Sample.token _ 0 ("200 leave OK" ++ nl) eq_refl eq_refl).
  - destruct (leave_network_asks_first accepted "a09acf0233e4b070" None
                Sample.started) as [_ Hyes].
    exact (Hyes eq_refl Sample.token _ 1 ("404 leave" ++ nl) eq_refl eq_refl).
Defined.



(** An interface that is up is asked down, one that is down is asked
    up. *)
Lemma toggle_interface_flips_witness :
  let E := Sample.world 0 Sample.address_payload Yes in
  let listed := Exec ["ip"; "--json"; "address"] in
  toggle_interface Sample.loads E "ztabc00001" Sample.started
    = (Ok true, after Sample.started
                  [listed; Exec ["pkexec"; "ip"; "link"; "set"; "ztabc00001"; "down"]]) /\
  toggle_interface Sample.loads E "ztabc00002" Sample.started
    = (Ok true, after Sample.started
                  [listed; Exec ["pkexec"; "ip"; "link"; "set"; "ztabc00002"; "up"]]).
Proof.
  intros E listed. split.
  - destruct (toggle_interface_flips Sample.loads E "ztabc00001" Sample.started "UP"
                (after Sample.started [listed]) 0 "" eq_refl eq_refl) as [Hrun _].
    exact Hrun.
  - destruct (toggle_interface_flips Sample.loads E "ztabc00002" Sample.started "DOWN"
                (after Sample.started [listed]) 0 "" eq_refl eq_refl) as [Hrun _].
    exact Hrun.
Defined.





(** * Further properties of the controller *)

(** ** Credential resolver *)

Lemma rstrip_aux_fixed s t : Py.rstrip_aux s = Some t -> Py.rstrip_aux t = Some t.
Proof.
  revert t. induction s as [|c s IH]; intros t; simpl; [done|].
  destruct (Py.rstrip_aux s) as [t0|] eqn:Hs.
  - intros [= <-]. simpl. by rewrite (IH t0).
  - destruct (Py.isspace c) eqn:Hc; [done|]. intros [= <-]. simpl. by rewrite Hc.
Qed.

Lemma rstrip_aux_head c s :
  Py.isspace c = false -> exists t, Py.rstrip_aux (String c s) = Some (String c t).
Proof.
  intros Hc. simpl. destruct (Py.rstrip_aux s) as [t0|]; [by exists t0|].
  rewrite Hc. by exists "".
Qed.

Lemma strip_fixed s : Py.strip (Py.strip s) = Py.strip s.
Proof.
  unfold Py.strip.
  assert (Hl : Py.lstrip s = "" \/
               exists c r, Py.lstrip s = String c r /\ Py.isspace c = false).
  { induction s as [|c s IH]; simpl; [by left|].
    destruct (Py.isspace c) eqn:Hc; [done|]. right. by exists c, s. }
  destruct Hl as [->|(c & r & -> & Hc)]; [done|].
  destruct (rstrip_aux_head c r Hc) as [t Ht].
  unfold Py.rstrip at 2. rewrite Ht. simpl. rewrite Hc.
  unfold Py.rstrip. by rewrite Ht, (rstrip_aux_fixed _ _ Ht).
Qed.

Section More_credential.

Variable E : env.

(** What a call of [get_token] without a cached token returns and
    leaves, by the outcome of its reads. *)
Lemma get_token_fresh st :
  authtoken st = None ->
  exists path events,
    commands_run (trace st ++ events) = commands_run (trace st) /\
    (get_token E st = (Raise (OSError path), after st events) \/
     exists text, get_token E st = (Ok (Py.strip text), with_token st (Py.strip text) events)).
Proof.
  intros Htok.
  assert (Hskip : forall events e,
    match e with Exec _ => False | _ => True end ->
    commands_run (events ++ [e]) = commands_run events).
  { induction events as [|e' events IH]; intros e He; simpl.
    - by destruct e.
    - by rewrite (IH e He). }
  destruct (Z.eq_dec (getuid E) 0) as [Huid|Huid].
  - rewrite (get_token_elevated E st Htok Huid).
    exists "/var/lib/zerotier-one/authtoken.secret",
           [Open "/var/lib/zerotier-one/authtoken.secret"].
    split; [by apply Hskip|].
    destruct (files E (trace st) !! _) as [text|]; [right; by exists text | by left].
  - destruct (files E (trace st) !! abspath E ".zeroTierOneAuthToken") as [dot|] eqn:Hdot.
    + rewrite (get_token_dotfile E st Htok Huid (mk_is_Some _ _ Hdot)). simpl.
      exists (Py.path_join (HOME_DIR E) ".zeroTierOneAuthToken"),
             [Isfile (abspath E ".zeroTierOneAuthToken");
              Open (abspath E (Py.path_join (HOME_DIR E) ".zeroTierOneAuthToken"))].
      split.
      { change [?a; ?b] with ([a] ++ [b])%list. by rewrite app_assoc, !Hskip. }
      destruct (files E (trace st ++ _) !! _) as [text|]; [right; by exists text | by left].
    + rewrite (get_token_config_copy E st Htok Huid Hdot). simpl.
      exists (AUTH_FILE E),
             [Isfile (abspath E ".zeroTierOneAuthToken"); Open (abspath E (AUTH_FILE E))].
      split.
      { change [?a; ?b] with ([a] ++ [b])%list. by rewrite app_assoc, !Hskip. }
      destruct (files E (trace st ++ _) !! _) as [text|]; [right; by exists text | by left].
Qed.



(** X3.  A token read from a file carries no white space at either end:
    stripping it again changes nothing. *)
Theorem get_token_is_stripped st t st1 :
  authtoken st = None ->
  get_token E st = (Ok t, st1) ->
  Py.strip t = t.
Proof.
  intros Htok Hok.
  destruct (get_token_fresh st Htok) as (path & events & _ & [Hraise | [text Htext]]).
  - rewrite Hraise in Hok. done.
  - rewrite Htext in Hok. injection Hok as <- _. apply strip_fixed.
Qed.


End More_credential.

(** ** Daemon client *)

Section More_daemon.

Variable json_loads : string -> option value.
Variable E : env.



Lemma is_on_network_loop_first network_id before entry behind :
  Forall (fun network => exists nwid,
            Dyn.getitem network "nwid" = Ok nwid /\ nwid <> VStr network_id) before ->
  is_on_network_loop network_id (before ++ entry :: behind) false =
    match Dyn.getitem entry "nwid" with
    | Ok nwid =>
        if Dyn.eq nwid (VStr network_id) then Ok true
        else is_on_network_loop network_id behind false
    | Raise e => Raise e
    end.
Proof.
  induction 1 as [|network before (nwid & Hget & Hne) _ IH]; simpl.
  - destruct (Dyn.getitem entry "nwid") as [nwid|]; [|done]. simpl.
    destruct (Dyn.eq nwid (VStr network_id)); [|done].
    apply is_on_network_loop_joined.
  - rewrite Hget. simpl.
    destruct (Dyn.eq nwid (VStr network_id)) eqn:Heq; [|done].
    by apply eq_VStr in Heq.
Qed.

(** X5.  [is_on_network] reads the entries of the list up to the first
    one whose [nwid] is the id and no further: what follows that entry
    is never looked at, while an entry before it that has no [nwid]
    makes the call raise. *)
Theorem is_on_network_stops_at_first_match network_id st st1 before entry behind :
  get_networks_info json_loads E st = (Ok (VList (before ++ entry :: behind)), st1) ->
  Forall (fun network => exists nwid,
            Dyn.getitem network "nwid" = Ok nwid /\ nwid <> VStr network_id) before ->
  (Dyn.getitem entry "nwid" = Ok (VStr network_id) ->
     is_on_network json_loads E network_id st = (Ok true, st1)) /\
  (forall e, Dyn.getitem entry "nwid" = Raise e ->
     is_on_network json_loads E network_id st = (Raise e, st1)).
Proof.
  intros Hinfo Hbefore.
  assert (Hon : is_on_network json_loads E network_id st
                = (is_on_network_loop network_id (before ++ entry :: behind) false, st1)).
  { unfold is_on_network. rewrite (bind_Ok _ _ _ _ _ Hinfo). by rewrite lift_bind. }
  rewrite Hon, (is_on_network_loop_first _ _ _ _ Hbefore). split.
  - intros ->. assert (Dyn.eq (VStr network_id) (VStr network_id) = true) as ->
      by by apply eq_VStr. done.
  - by intros e ->.
Qed.

(** X6.  When the [listnetworks] command itself fails, [join_network]
    reports an invalid network id and returns [False]; the [join]
    command is not run. *)
Theorem join_network_when_listing_fails network_id st tok st1 rc out :
  get_token E st = (Ok tok, st1) ->
  let list_argv := ["zerotier-cli"; "-T" ++ tok; "-j"; "listnetworks"] in
  run E (trace st1) list_argv = Some (rc, out) ->
  rc <> 0 ->
  join_network json_loads E network_id st =
    (Ok false, after st1 [Exec list_argv; MessageBox Warning APP_NAME "Invalid network ID"]).
Proof.
  intros Htok list_argv Hrun Hrc.
  assert (Hinfo : get_networks_info json_loads E st
                  = (Raise (CalledProcessError rc list_argv out), after st1 [Exec list_argv])).
  { unfold get_networks_info.
    rewrite (bind_Ok _ _ _ _ _ (zerotier_cli_Ok E _ _ _ _ Htok)).
    by rewrite (bind_Raise _ _ _ _ _ (check_output_fails E _ _ _ _ Hrun Hrc)). }
  unfold join_network, try_CalledProcessError, is_on_network.
  rewrite (bind_Raise _ _ _ _ _ (bind_Raise _ _ _ _ _ Hinfo)).
  unfold message, emit, mbind, M_bind. simpl. by rewrite after_after.
Qed.


Lemma find_operstate_first interface before info behind :
  Forall (fun other => exists ifname,
            Dyn.getitem other "ifname" = Ok ifname /\ Dyn.eq ifname interface = false) before ->
  find_operstate interface (before ++ info :: behind) =
    match Dyn.getitem info "ifname" with
    | Ok ifname =>
        if Dyn.eq ifname interface then Dyn.getitem info "operstate"
        else find_operstate interface behind
    | Raise e => Raise e
    end.
Proof.
  induction 1 as [|other before (ifname & Hget & Hne) _ IH]; simpl.
  - by destruct (Dyn.getitem info "ifname").
  - rewrite Hget. simpl. by rewrite Hne.
Qed.

Lemma find_operstate_none interface table :
  Forall (fun other => exists ifname,
            Dyn.getitem other "ifname" = Ok ifname /\ Dyn.eq ifname interface = false) table ->
  find_operstate interface table = Raise (UnboundLocalError "state").
Proof.
  induction 1 as [|other table (ifname & Hget & Hne) _ IH]; simpl; [done|].
  rewrite Hget. simpl. by rewrite Hne.
Qed.

(** X8.  [get_interface_state] runs the interface listing once and
    answers with the state of the first entry that carries the name;
    entries after it are not read.  When no entry carries the name it
    raises [UnboundLocalError]. *)
Theorem get_interface_state_reads_first_entry interface st out text table :
  run E (trace st) ["ip"; "--json"; "address"] = Some (0, out) ->
  decode out = Ok text ->
  json_loads text = Some (VList table) ->
  let st1 := after st [Exec ["ip"; "--json"; "address"]] in
  (forall before info behind ifname,
     table = (before ++ info :: behind)%list ->
     Forall (fun other => exists ifname,
               Dyn.getitem other "ifname" = Ok ifname /\ Dyn.eq ifname interface = false)
       before ->
     Dyn.getitem info "ifname" = Ok ifname -> Dyn.eq ifname interface = true ->
     get_interface_state json_loads E interface st = (Dyn.getitem info "operstate", st1)) /\
  (Forall (fun other => exists ifname,
             Dyn.getitem other "ifname" = Ok ifname /\ Dyn.eq ifname interface = false)
     table ->
   get_interface_state json_loads E interface st = (Raise (UnboundLocalError "state"), st1)).
Proof.
  intros Hrun Hdec Hjson st1.
  rewrite (get_interface_state_table json_loads E st out text table interface Hrun Hdec Hjson).
  split.
  - intros before info behind ifname -> Hbefore Hname Heq.
    by rewrite (find_operstate_first _ _ _ _ Hbefore), Hname, Heq.
  - intros Hnone. by rewrite (find_operstate_none _ _ Hnone).
Qed.

(** X9.  [toggle_interface] asks for no privilege unless it has read a
    state that is a string: an exception of the read is passed on, a
    state of another type raises [AttributeError], and in both cases
    the state is the one the read left, with no [pkexec] run. *)
Theorem toggle_interface_needs_a_state interfaceName st r st1 :
  get_interface_state json_loads E (VStr interfaceName) st = (r, st1) ->
  (forall e, r = Raise e ->
     toggle_interface json_loads E interfaceName st = (Raise e, st1)) /\
  (forall v, r = Ok v -> (forall state, v <> VStr state) ->
     toggle_interface json_loads E interfaceName st = (Raise AttributeError, st1)).
Proof.
  intros Hstate. unfold toggle_interface. split.
  - intros e ->. by rewrite (bind_Raise _ _ _ _ _ Hstate).
  - intros v -> Hother. rewrite (bind_Ok _ _ _ _ _ Hstate).
    destruct v; try by rewrite lift_bind. by destruct (Hother s).
Qed.

End More_daemon.

(** ** State reconciler *)

Section More_reconciler.

Variable json_loads : string -> option value.
Variable E : env.

Variables (ip_out ip_text : string) (table : list value).
Variables (tok status_out status_text networks_out : string) (networks : list value).

Hypothesis ip_run : forall events, run E events ["ip"; "--json"; "address"] = Some (0, ip_out).
Hypothesis ip_decodes : decode ip_out = Ok ip_text.
Hypothesis ip_loads : json_loads ip_text = Some (VList table).
Hypothesis status_run :
  forall events, run E events ["zerotier-cli"; "-T" ++ tok; "status"] = Some (0, status_out).
Hypothesis status_decodes : decode status_out = Ok status_text.
Hypothesis networks_run :
  forall events,
    run E events ["zerotier-cli"; "-T" ++ tok; "-j"; "listnetworks"] = Some (0, networks_out).
Hypothesis networks_loads : json_loads networks_out = Some (VList networks).

Lemma collect_networks_Ok networkData positions :
  forall collected st tuples,
    network_tuples table networkData positions = Ok tuples ->
    collect_networks json_loads E networkData positions collected st
    = (Ok (collected ++ tuples)%list,
       after st (replicate (length positions) (Exec ["ip"; "--json"; "address"]))).
Proof.
  induction positions as [|networkPosition rest IH]; intros collected st tuples; simpl.
  - intros [= <-]. by rewrite app_nil_r, after_nil.
  - pose proof (fun device =>
      get_interface_state_table json_loads E st _ _ _ device
        (ip_run _) ip_decodes ip_loads) as Hstate.
    unfold network_tuple, mbind, M_bind, res_bind, lift, mret, M_ret. simpl.
    destruct (field networkData networkPosition "portDeviceName") as [device|]; [|done].
    rewrite Hstate.
    destruct (find_operstate device table) as [interfaceState|]; [|done].
    destruct (Dyn.lower interfaceState) as [lowered|]; [|done].
    destruct (field networkData networkPosition "id") as [id|]; [|done].
    destruct (field networkData networkPosition "name") as [name|]; [|done].
    destruct (Dyn.truthy name);
      (destruct (field networkData networkPosition "status") as [status|]; [|done];
       destruct (network_tuples table networkData rest) as [tuples0|] eqn:Hrest; [|done];
       intros [= <-]; rewrite (IH _ _ tuples0 eq_refl), after_after;
       by rewrite <- app_assoc).
Qed.

Lemma network_tuple_listed j network info :
  networks !! j = Some network ->
  lists table network info ->
  network_tuple table (VList networks) j = Ok (cells (shown info), gray (shown info)).
Proof.
  intros Hj (Hid & Hname & Hstatus & Hdevice & Hstate).
  unfold network_tuple, field. simpl. rewrite Hj.
  unfold mbind, res_bind. simpl. rewrite Hdevice, Hstate, Hid, Hname, Hstatus. simpl.
  unfold shown. simpl. by destruct (String.eqb (listed_name info) "").
Qed.

Lemma network_tuples_listed infos :
  Forall2 (lists table) networks infos ->
  network_tuples table (VList networks) (seq 0 (length networks))
  = Ok (map (fun info => (cells (shown info), gray (shown info))) infos).
Proof.
  intros Hall.
  assert (Hfrom : forall positions infos0,
    Forall2 (fun j info => exists network,
               networks !! j = Some network /\ lists table network info) positions infos0 ->
    network_tuples table (VList networks) positions
    = Ok (map (fun info => (cells (shown info), gray (shown info))) infos0)).
  { induction 1 as [|j info positions infos0 (network & Hj & Hinfo) _ IH]; simpl; [done|].
    by rewrite (network_tuple_listed j network info Hj Hinfo), IH. }
  apply Hfrom. apply Forall2_same_length_lookup. split.
  - rewrite length_seq. by eapply Forall2_length.
  - intros i j info Hseq Hinfo. apply lookup_seq in Hseq as [-> Hlt]. simpl.
    destruct (Forall2_lookup_r _ _ _ _ _ Hall Hinfo) as (network & Hnetwork & Hlists).
    by exists network.
Qed.

(** X10.  A refresh in which every network has its four fields as
    strings and its device in the interface table succeeds.  It runs
    [status] once, [listnetworks] once and the interface listing once
    per network, and it leaves one row per network, in the order of the
    list: id, name (or [Unknown Name] for an empty name), status and
    device, greyed out exactly when the state of the device is [down]
    in lower case. *)
Theorem refresh_networks_shows_every_network st node online infos :
  authtoken st = Some tok ->
  index (Py.split status_text) 2 = Ok node ->
  index (Py.split status_text) 4 = Ok online ->
  Forall2 (lists table) networks infos ->
  refresh_networks json_loads E st =
    (Ok tt,
     {| authtoken := Some tok;
        trace := trace st ++
                 [Exec ["zerotier-cli"; "-T" ++ tok; "status"];
                  Exec ["zerotier-cli"; "-T" ++ tok; "-j"; "listnetworks"]] ++
                 replicate (length networks) (Exec ["ip"; "--json"; "address"]);
        statusLabel := "Your ID: " ++ node ++ " Status: " ++ online;
        networksTable := map shown infos |}).
Proof.
  intros Htok Hnode Honline Hall. unfold refresh_networks.
  rewrite (bind_Ok _ _ _ _ _
             (get_status_Ok E _ _ _ _ _ (get_token_cached E _ _ Htok)
                (status_run _) status_decodes)).
  rewrite lift_bind, Hnode, lift_bind, Honline.
  unfold mbind at 1. unfold M_bind at 1. simpl.
  unfold mbind at 1. unfold M_bind at 1. simpl.
  erewrite (bind_Ok _ _ _ _ _
              (get_networks_info_Ok json_loads E _ _ _ _ _
                 (get_token_cached E _ tok _) (networks_run _) networks_loads)).
  rewrite lift_bind. simpl.
  erewrite (bind_Ok _ _ _ _ _
              (collect_networks_Ok _ _ [] _ _ (network_tuples_listed infos Hall))).
  simpl.
  match goal with
  | |- insert_networks ?tuples 0%nat ?s = _ =>
      pose proof (insert_networks_appends tuples s) as Hinsert
  end.
  simpl in Hinsert. rewrite Hinsert. rewrite Htok, length_seq, map_map.
  f_equal. f_equal. by rewrite <- !app_assoc.
  Unshelve. done.
Qed.

End More_reconciler.

Section More_reconciler_failures.

Variable json_loads : string -> option value.
Variable E : env.

(** X14.  A refresh asks the daemon before it touches the table.  When
    the [status] command fails, the exception reaches the caller with
    label and table as they were; when [status] succeeds and
    [listnetworks] fails, the label is the new one and the table is
    empty. *)
Theorem refresh_networks_when_daemon_fails st tok rc out status_out status_text :
  authtoken st = Some tok ->
  rc <> 0 ->
  decode status_out = Ok status_text ->
  let status_argv := ["zerotier-cli"; "-T" ++ tok; "status"] in
  let list_argv := ["zerotier-cli"; "-T" ++ tok; "-j"; "listnetworks"] in
  (run E (trace st) status_argv = Some (rc, out) ->
     refresh_networks json_loads E st =
       (Raise (CalledProcessError rc status_argv out), after st [Exec status_argv])) /\
  (forall node online,
     run E (trace st) status_argv = Some (0, status_out) ->
     index (Py.split status_text) 2 = Ok node ->
     index (Py.split status_text) 4 = Ok online ->
     run E (trace st ++ [Exec status_argv]) list_argv = Some (rc, out) ->
     refresh_networks json_loads E st =
       (Raise (CalledProcessError rc list_argv out),
        {| authtoken := Some tok;
           trace := trace st ++ [Exec status_argv; Exec list_argv];
           statusLabel := "Your ID: " ++ node ++ " Status: " ++ online;
           networksTable := [] |})).
Proof.
  intros Htok Hrc status_decodes status_argv list_argv. split.
  - intros Hrun.
    assert (Hstatus : get_status E st
                      = (Raise (CalledProcessError rc status_argv out),
                         after st [Exec status_argv])).
    { unfold get_status.
      rewrite (bind_Ok _ _ _ _ _ (zerotier_cli_Ok E _ _ _ _ (get_token_cached E _ _ Htok))).
      by rewrite (bind_Raise _ _ _ _ _ (check_output_fails E _ _ _ _ Hrun Hrc)). }
    unfold refresh_networks. by rewrite (bind_Raise _ _ _ _ _ Hstatus).
  - intros node online Hstatus Hnode Honline Hlist. unfold refresh_networks.
    rewrite (bind_Ok _ _ _ _ _
               (get_status_Ok E _ _ _ _ _ (get_token_cached E _ _ Htok)
                  Hstatus status_decodes)).
    rewrite lift_bind, Hnode, lift_bind, Honline.
    unfold mbind at 1. unfold M_bind at 1. simpl.
    unfold mbind at 1. unfold M_bind at 1. simpl.
    match goal with
    | |- (get_networks_info _ _ ≫= _) ?s = _ => set (cleared := s)
    end.
    assert (Hcached : authtoken cleared = Some tok) by done.
    assert (Hinfo : get_networks_info json_loads E cleared
                    = (Raise (CalledProcessError rc list_argv out),
                       after cleared [Exec list_argv])).
    { unfold get_networks_info.
      rewrite (bind_Ok _ _ _ _ _
                 (zerotier_cli_Ok E _ _ _ _ (get_token_cached E _ tok Hcached))).
      by rewrite (bind_Raise _ _ _ _ _ (check_output_fails E cleared _ _ _ Hlist Hrc)). }
    rewrite (bind_Raise _ _ _ _ _ Hinfo).
    unfold cleared, after. simpl. rewrite Htok. by rewrite <- app_assoc.
Qed.

End More_reconciler_failures.

(** ** What the controller leaves alone *)

(** X11.  Of the calls of a session, [refresh_networks] is the only one
    that writes the status label or the network table: every other
    call leaves both as they were, whatever it returns or raises. *)
Theorem only_refresh_writes_the_view json_loads (E : env) c st :
  c <> Call_refresh_networks ->
  statusLabel (perform json_loads E c st) = statusLabel st /\
  networksTable (perform json_loads E c st) = networksTable st.
Proof.
  intros Hother.
  set (P := fun s : state =>
              statusLabel s = statusLabel st /\ networksTable s = networksTable st).
  assert (HA : forall s events, P s -> P (after s events)) by done.
  assert (HT : forall s t, P s -> authtoken s = None ->
                 P {| authtoken := Some t; trace := trace s;
                      statusLabel := statusLabel s; networksTable := networksTable s |})
    by done.
  assert (HP : P st) by done.
  change (P (perform json_loads E c st)).
  destruct c; simpl; try done.
  - by apply (stable_get_token E P).
  - by apply (stable_get_status E P).
  - by apply (stable_manage_service E P).
  - by apply (stable_change_config E P).
  - by apply (stable_get_networks_info json_loads E P).
  - by apply (stable_is_on_network json_loads E P).
  - by apply (stable_join_network json_loads E P).
  - by apply (stable_get_interface_state json_loads E P).
  - by apply (stable_leave_network E P).
  - by apply (stable_toggle_interface json_loads E P).
  - by apply (stable_setup_auth_token E P).
  - by apply (stable_about_window E P).
Qed.

Lemma commands_run_app events events' :
  commands_run (events ++ events') = (commands_run events ++ commands_run events')%list.
Proof.
  induction events as [|e events IH]; simpl; [done|]. destruct e; simpl; by rewrite IH.
Qed.

(** ** Service controller and start-up *)

Section More_service.

Variable E : env.

(** X13.  [manage_service] never raises because of the result of
    [systemctl]: with exit status 0 the command is its only effect,
    with any other status a warning follows that names the status, and
    the call returns normally in both cases. *)
Theorem manage_service_reports_failures action st rc out :
  run E (trace st) ["systemctl"; action; "zerotier-one"] = Some (rc, out) ->
  exists shown,
    manage_service E action st
      = (Ok tt, after st (Exec ["systemctl"; action; "zerotier-one"] :: shown)) /\
    (rc = 0 -> shown = []) /\
    (rc <> 0 ->
     exists message, shown = [MessageBox Warning "Error" message] /\
       String.prefix "Something went wrong: " message = true).
Proof.
  intros Hrun. unfold manage_service, try_CalledProcessError.
  destruct (Z.eqb_spec rc 0) as [->|Hrc].
  - exists []. rewrite (bind_Ok _ _ _ _ _ (check_output_Ok E _ _ _ Hrun)).
    split; [done|]. split; [done|]. by intros [].
  - eexists [_]. rewrite (bind_Raise _ _ _ _ _ (check_output_fails E _ _ _ _ Hrun Hrc)).
    unfold message, emit. rewrite after_after. split; [done|]. split; [done|].
    intros _. eexists. split; [done|]. done.
Qed.

(** X12.  Without the user's consent [setup_auth_token] runs no
    command.  When every question is answered with No, it ends the
    process with status 0 if the system-wide secret file is missing,
    returns if the process has user id 0 or the copy of the user
    exists, and ends the process with status 1 otherwise. *)
Theorem setup_auth_token_needs_consent st fs :
  (forall events title text, answer E events title text = No) ->
  (forall events, files E events = fs) ->
  commands_run (trace (snd (setup_auth_token E st))) = commands_run (trace st) /\
  fst (setup_auth_token E st) =
    match fs !! "/var/lib/zerotier-one/authtoken.secret" with
    | None => Raise (OsExit 0)
    | Some _ =>
        if getuid E =? 0 then Ok tt
        else
          match fs !! abspath E (AUTH_FILE E) with
          | Some _ => Ok tt
          | None => Raise (OsExit 1)
          end
    end.
Proof.
  intros Hno Hfs.
  set (system_file := "/var/lib/zerotier-one/authtoken.secret").
  assert (Hsystem : abspath E system_file = system_file) by done.
  destruct (fs !! system_file) as [secret|] eqn:Hsys.
  - assert (Hprobe : isfile E system_file st = (Ok true, after st [Isfile system_file])).
    { rewrite <- Hsystem at 2. apply (isfile_present E _ _ secret).
      by rewrite Hfs, Hsystem. }
    destruct (getuid E =? 0) eqn:Huid.
    { assert (Hrun : setup_auth_token E st = (Ok tt, after st [Isfile system_file])).
      { unfold setup_auth_token. rewrite (bind_Ok _ _ _ _ _ Hprobe). simpl.
        by rewrite ret_bind, Huid. }
      rewrite Hrun. simpl. by rewrite commands_run_app, app_nil_r. }
    destruct (fs !! abspath E (AUTH_FILE E)) as [copy|] eqn:Hcopy.
    + assert (Hrun : setup_auth_token E st
                     = (Ok tt, after st [Isfile system_file;
                                         Isfile (abspath E (AUTH_FILE E))])).
      { unfold setup_auth_token. rewrite (bind_Ok _ _ _ _ _ Hprobe). simpl.
        rewrite ret_bind, Huid.
        rewrite (bind_Ok _ _ _ _ _
                   (isfile_present E (AUTH_FILE E) (after st [Isfile system_file]) copy
                      ltac:(by rewrite Hfs))).
        simpl. by rewrite after_after. }
      rewrite Hrun. simpl. by rewrite commands_run_app, app_nil_r.
    + assert (Hrun : setup_auth_token E st
                     = (Raise (OsExit 1),
                        after st [Isfile system_file; Isfile (abspath E (AUTH_FILE E));
                                  Makedirs (abspath E (CONFIG_DIR E));
                                  MessageBox Question "Missing Local Authtoken"
                                    (missing_local_text E)])).
      { unfold setup_auth_token. rewrite (bind_Ok _ _ _ _ _ Hprobe). simpl.
        rewrite ret_bind, Huid.
        rewrite (bind_Ok _ _ _ _ _
                   (isfile_absent E (AUTH_FILE E) (after st [Isfile system_file])
                      ltac:(by rewrite Hfs))).
        simpl. rewrite emit_bind, question_bind, Hno. unfold os_exit, raise.
        by rewrite !after_after. }
      rewrite Hrun. simpl. by rewrite commands_run_app, app_nil_r.
  - assert (Hprobe : isfile E system_file st = (Ok false, after st [Isfile system_file])).
    { rewrite <- Hsystem at 2. apply (isfile_absent E).
      by rewrite Hfs, Hsystem. }
    assert (Hrun : setup_auth_token E st
                   = (Raise (OsExit 0),
                      after st [Isfile system_file;
                                MessageBox Question "No authtoken found" no_authtoken_text])).
    { unfold setup_auth_token. rewrite (bind_Ok _ _ _ _ _ Hprobe). simpl.
      assert (Hasked :
        (allowed_to_start_service ← question E "No authtoken found" no_authtoken_text;
         match allowed_to_start_service with
         | Yes => manage_service E "start"
         | No => os_exit 0
         end) (after st [Isfile system_file])
        = (Raise (OsExit 0),
           after st [Isfile system_file;
                     MessageBox Question "No authtoken found" no_authtoken_text])).
      { rewrite question_bind, Hno. unfold os_exit, raise. by rewrite after_after. }
      by rewrite (bind_Raise _ _ _ _ _ Hasked). }
    rewrite Hrun. simpl. by rewrite commands_run_app, app_nil_r.
Qed.

End More_service.

(** ** Parsing the status of the service *)

Lemma string_app_assoc (s t u : string) : (s ++ t) ++ u = s ++ t ++ u.
Proof.
  induction s as [|c s IH]; [done|].
  change (String c ((s ++ t) ++ u) = String c (s ++ t ++ u)). by f_equal.
Qed.

Lemma contains_cons c x s :
  Dyn.contains c (String x s) = Ascii.eqb c x || Dyn.contains c s.
Proof. reflexivity. Qed.

Lemma contains_app c s t :
  Dyn.contains c (s ++ t) = Dyn.contains c s || Dyn.contains c t.
Proof.
  induction s as [|x s IH]; [done|].
  change (String x s ++ t) with (String x (s ++ t)).
  by rewrite !contains_cons, IH, orb_assoc.
Qed.

Lemma partition_first sep before behind :
  Dyn.contains sep before = false ->
  Py.partition sep (before ++ String sep behind) = Some (before, behind).
Proof.
  induction before as [|c before IH]; simpl.
  - by rewrite Ascii.eqb_refl.
  - rewrite contains_cons. intros [Hc Hrest]%orb_false_elim.
    rewrite Ascii.eqb_sym, Hc. by rewrite (IH Hrest).
Qed.

Lemma partition_none sep s : Dyn.contains sep s = false -> Py.partition sep s = None.
Proof.
  induction s as [|c s IH]; [done|]. rewrite contains_cons. simpl.
  intros [Hc Hrest]%orb_false_elim. rewrite Ascii.eqb_sym, Hc. by rewrite (IH Hrest).
Qed.

Lemma split_on_line sep line rest :
  Dyn.contains sep line = false ->
  Py.split_on sep (line ++ String sep rest) = line :: Py.split_on sep rest.
Proof.
  induction line as [|c line IH]; simpl.
  - by rewrite Ascii.eqb_refl.
  - rewrite contains_cons. intros [Hc Hrest]%orb_false_elim.
    rewrite Ascii.eqb_sym, Hc. by rewrite (IH Hrest).
Qed.

Lemma translate_newlines_same s :
  Dyn.contains (ascii_of_nat 13) s = false -> Py.translate_newlines s = s.
Proof.
  induction s as [|c s IH]; [done|]. rewrite contains_cons.
  intros [Hc Hrest]%orb_false_elim. simpl.
  destruct (Nat.eqb (nat_of_ascii c) 13) eqn:Hcr.
  - apply Nat.eqb_eq in Hcr. rewrite <- (ascii_nat_embedding c), Hcr in Hc. done.
  - by rewrite (IH Hrest).
Qed.

Lemma show_output_no_return properties :
  Forall printable properties ->
  Dyn.contains (ascii_of_nat 13) (show_output properties) = false.
Proof.
  induction 1 as [|[key value] rest (_ & _ & Hk & _ & Hv) _ IH]; [done|].
  simpl in *. rewrite !contains_app, Hk, Hv, IH. done.
Qed.

Lemma format_data_show_output properties :
  Forall printable properties ->
  forall formatted_data : gmap string string,
    fold_left
      (fun (formatted_data : gmap string string) entry =>
         match Py.split_once "=" entry with
         | [key; value] => <[key := value]> formatted_data
         | _ => formatted_data
         end)
      (Py.split_on (ascii_of_nat 10) (show_output properties)) formatted_data
    = fold_left (fun (formatted_data : gmap string string) property =>
                   <[fst property := snd property]> formatted_data)
        properties formatted_data.
Proof.
  induction 1 as [|[key value] rest (He & Hkn & _ & Hvn & _) _ IH];
    intros formatted_data; [done|].
  simpl in *.
  replace (key ++ "=" ++ value ++ nl ++ show_output rest)
    with ((key ++ "=" ++ value) ++ String (ascii_of_nat 10) (show_output rest)).
  2: { by rewrite !string_app_assoc. }
  rewrite split_on_line.
  2: { rewrite !contains_app, Hkn, Hvn. done. }
  simpl. unfold Py.split_once.
  change (key ++ "=" ++ value) with (key ++ String "=" value).
  rewrite (partition_first _ _ _ He). apply IH.
Qed.

Section Service_status.

Variable E : env.

(** X15.  [get_service_status] reads back what [systemctl show] prints:
    for properties printed one per line as [key=value], where no key
    holds an equals sign, the dictionary maps every key to its value,
    and the value of a key printed twice is the later one.  A value may
    hold equals signs. *)
Theorem get_service_status_reads_properties st out properties :
  run E (trace st) ["systemctl"; "show"; "zerotier-one";
                    "--property=ActiveState,UnitFileState"] = Some (0, out) ->
  decode out = Ok (show_output properties) ->
  Forall printable properties ->
  get_service_status E st =
    (Ok (list_to_map (rev properties)),
     after st [Exec ["systemctl"; "show"; "zerotier-one";
                     "--property=ActiveState,UnitFileState"]]).
Proof.
  intros Hrun Hdec Hprintable. unfold get_service_status.
  rewrite (bind_Ok _ _ _ _ _ (check_output_Ok E _ _ _ Hrun)).
  rewrite lift_bind, Hdec. unfold mret, M_ret. f_equal. f_equal.
  rewrite (translate_newlines_same _ (show_output_no_return _ Hprintable)).
  unfold format_data. rewrite (format_data_show_output _ Hprintable).
  unfold list_to_map. by rewrite fold_left_rev_right.
Qed.

(** X16.  A line without an equals sign changes nothing in the
    dictionary of [get_service_status], wherever it stands. *)
Theorem format_data_skips_other_lines before line behind :
  Dyn.contains "=" line = false ->
  format_data (before ++ line :: behind) = format_data (before ++ behind).
Proof.
  intros Hline. unfold format_data. rewrite !fold_left_app. simpl.
  unfold Py.split_once at 2. by rewrite (partition_none _ _ Hline).
Qed.

End Service_status.

(** ** Reasoning about methods *)

Section Method_facts.

Context {Self A B : Type}.

Lemma method_bind_Ok (m : method Self A) (f : A -> method Self B) s a s' :
  m s = (Ok a, s') -> (m ≫= f) s = f a s'.
Proof. intros H. unfold mbind, method_bind. by rewrite H. Qed.

Lemma method_bind_Raise (m : method Self A) (f : A -> method Self B) s e s' :
  m s = (Raise e, s') -> (m ≫= f) s = (Raise e, s').
Proof. intros H. unfold mbind, method_bind. by rewrite H. Qed.

Lemma invoke_run (m : M A) (w : Self) st r st' :
  m st = (r, st') -> invoke m (w, st) = (r, (w, st')).
Proof. intros H. unfold invoke. simpl. by rewrite H. Qed.

Lemma invoke_bind_Ok (m : M A) (f : A -> method Self B) (w : Self) st a st' :
  m st = (Ok a, st') -> (invoke m ≫= f) (w, st) = f a (w, st').
Proof. intros H. by rewrite (method_bind_Ok _ _ _ _ _ (invoke_run _ _ _ _ _ H)). Qed.

Lemma invoke_bind_Raise (m : M A) (f : A -> method Self B) (w : Self) st e st' :
  m st = (Raise e, st') -> (invoke m ≫= f) (w, st) = (Raise e, (w, st')).
Proof. intros H. by rewrite (method_bind_Raise _ _ _ _ _ (invoke_run _ _ _ _ _ H)). Qed.

Lemma invoke_lift_bind (r : res A) (f : A -> method Self B) (w : Self) st :
  (invoke (lift r) ≫= f) (w, st)
  = match r with Ok a => f a (w, st) | Raise e => (Raise e, (w, st)) end.
Proof. unfold mbind, method_bind, invoke, lift. simpl. by destruct r. Qed.

Lemma assign_bind (g : Self -> Self) (f : unit -> method Self B) (w : Self) st :
  (assign g ≫= f) (w, st) = f tt (g w, st).
Proof. reflexivity. Qed.

Lemma method_ret_bind (a : A) (f : A -> method Self B) s : (mret a ≫= f) s = f a s.
Proof. reflexivity. Qed.

Lemma self_bind (f : Self -> method Self B) (w : Self) st :
  (self ≫= f) (w, st) = f w (w, st).
Proof. reflexivity. Qed.

Lemma method_bind_assoc {C} (m : method Self A) (f : A -> method Self B)
    (g : B -> method Self C) s :
  ((m ≫= f) ≫= g) s = (m ≫= fun a => f a ≫= g) s.
Proof. unfold mbind, method_bind. by destruct (m s) as [[a|e] s']. Qed.

Lemma method_bind_inv (m : method Self A) (f : A -> method Self B) s b s' :
  (m ≫= f) s = (Ok b, s') -> exists a s1, m s = (Ok a, s1) /\ f a s1 = (Ok b, s').
Proof.
  unfold mbind, method_bind. destruct (m s) as [[a|e] s1]; [|done]. by exists a, s1.
Qed.

End Method_facts.

Lemma bind_inv {A B} (m : M A) (f : A -> M B) st b st' :
  (m ≫= f) st = (Ok b, st') -> exists a st1, m st = (Ok a, st1) /\ f a st1 = (Ok b, st').
Proof.
  unfold mbind, M_bind. destruct (m st) as [[a|e] st1]; [|done]. by exists a, st1.
Qed.

(** ** The slots of the main window *)

Section Slots.

Variable json_loads : string -> option value.
Variable E : env.

Lemma status_item_Some status key v :
  status !! key = Some v -> status_item status key = Ok v.
Proof. intros H. unfold status_item. by rewrite H. Qed.

Lemma status_item_None status key :
  status !! key = None -> status_item status key = Raise (KeyError key).
Proof. intros H. unfold status_item. by rewrite H. Qed.

Lemma update_service_status_Ok w st status st1 unit_file_state active_state :
  get_service_status E st = (Ok status, st1) ->
  status !! "UnitFileState" = Some unit_file_state ->
  status !! "ActiveState" = Some active_state ->
  update_service_status E (w, st)
    = (Ok tt, (service_widgets w unit_file_state active_state, st1)).
Proof.
  intros Hstatus Hunit Hactive. unfold update_service_status.
  rewrite (invoke_bind_Ok _ _ _ _ _ _ Hstatus).
  rewrite invoke_lift_bind, (status_item_Some _ _ _ Hunit).
  unfold service_widgets, set_serviceCheckBox, set_serviceBtn.
  destruct (String.eqb unit_file_state "enabled");
    rewrite assign_bind, invoke_lift_bind, (status_item_Some _ _ _ Hactive);
    by destruct (String.eqb active_state "active").
Qed.

(** X17.  [start_stop_service] stops a service whose [ActiveState] is
    [active] and starts it in every other state, [enable_disable_service]
    disables a unit whose [UnitFileState] is [enabled] and enables it in
    every other state; both then show the status they read after the
    action, not the one they decided on. *)
Theorem service_slots_act_then_show w st status st1 st2 status' st3
    unit_file_state active_state unit_file_state' active_state' :
  get_service_status E st = (Ok status, st1) ->
  status !! "UnitFileState" = Some unit_file_state ->
  status !! "ActiveState" = Some active_state ->
  get_service_status E st2 = (Ok status', st3) ->
  status' !! "UnitFileState" = Some unit_file_state' ->
  status' !! "ActiveState" = Some active_state' ->
  let says line :=
    {| printed := printed w ++ [line];
       serviceCheckBox_checked := serviceCheckBox_checked w;
       serviceCheckBox_toolTip := serviceCheckBox_toolTip w;
       serviceBtn_icon := serviceBtn_icon w; serviceBtn_toolTip := serviceBtn_toolTip w;
       joinTextBox := joinTextBox w; singleShot := singleShot w |} in
  (manage_service E (if String.eqb active_state "active" then "stop" else "start") st1
     = (Ok tt, st2) ->
   start_stop_service E (w, st) =
     (Ok tt,
      (service_widgets (if String.eqb active_state "active" then w
                        else says "Starting service")
         unit_file_state' active_state', st3))) /\
  (manage_service E (if String.eqb unit_file_state "enabled" then "disable" else "enable") st1
     = (Ok tt, st2) ->
   enable_disable_service E (w, st) =
     (Ok tt,
      (service_widgets (if String.eqb unit_file_state "enabled"
                        then says "Disabling service" else says "Enabling service")
         unit_file_state' active_state', st3))).
Proof.
  intros Hstatus Hunit Hactive Hstatus' Hunit' Hactive' says. split.
  - intros Hmanage. unfold start_stop_service.
    rewrite (invoke_bind_Ok _ _ _ _ _ _ Hstatus).
    rewrite invoke_lift_bind, (status_item_Some _ _ _ Hactive).
    destruct (String.eqb active_state "active").
    + rewrite (invoke_bind_Ok _ _ _ _ _ _ Hmanage).
      by apply (update_service_status_Ok _ _ status').
    + rewrite method_bind_assoc. unfold print. rewrite assign_bind.
      rewrite (invoke_bind_Ok _ _ _ _ _ _ Hmanage).
      by apply (update_service_status_Ok _ _ status').
  - intros Hmanage. unfold enable_disable_service.
    rewrite (invoke_bind_Ok _ _ _ _ _ _ Hstatus).
    rewrite invoke_lift_bind, (status_item_Some _ _ _ Hunit).
    destruct (String.eqb unit_file_state "enabled");
      rewrite method_bind_assoc; unfold print; rewrite assign_bind;
      rewrite (invoke_bind_Ok _ _ _ _ _ _ Hmanage);
      by apply (update_service_status_Ok _ _ status').
Qed.

(** X18.  A status without [ActiveState] makes [start_stop_service]
    raise [KeyError] before any action, and a status without
    [UnitFileState] does the same to [enable_disable_service] and to
    [update_service_status]; the widgets are untouched.  When only
    [ActiveState] is missing, [update_service_status] has set the check
    box by the time it raises. *)
Theorem service_slots_need_both_properties w st status st1 :
  get_service_status E st = (Ok status, st1) ->
  (status !! "ActiveState" = None ->
     start_stop_service E (w, st) = (Raise (KeyError "ActiveState"), (w, st1))) /\
  (status !! "UnitFileState" = None ->
     enable_disable_service E (w, st) = (Raise (KeyError "UnitFileState"), (w, st1)) /\
     update_service_status E (w, st) = (Raise (KeyError "UnitFileState"), (w, st1))) /\
  (forall unit_file_state,
     status !! "UnitFileState" = Some unit_file_state ->
     status !! "ActiveState" = None ->
     exists w',
       update_service_status E (w, st) = (Raise (KeyError "ActiveState"), (w', st1)) /\
       serviceCheckBox_checked w' = String.eqb unit_file_state "enabled" /\
       serviceBtn_icon w' = serviceBtn_icon w).
Proof.
  intros Hstatus. split; [|split].
  - intros Hnone. unfold start_stop_service.
    rewrite (invoke_bind_Ok _ _ _ _ _ _ Hstatus).
    by rewrite invoke_lift_bind, (status_item_None _ _ Hnone).
  - intros Hnone. split.
    + unfold enable_disable_service.
      rewrite (invoke_bind_Ok _ _ _ _ _ _ Hstatus).
      by rewrite invoke_lift_bind, (status_item_None _ _ Hnone).
    + unfold update_service_status.
      rewrite (invoke_bind_Ok _ _ _ _ _ _ Hstatus).
      by rewrite invoke_lift_bind, (status_item_None _ _ Hnone).
  - intros unit_file_state Hunit Hnone. unfold update_service_status.
    rewrite (invoke_bind_Ok _ _ _ _ _ _ Hstatus).
    rewrite invoke_lift_bind, (status_item_Some _ _ _ Hunit).
    unfold set_serviceCheckBox.
    destruct (String.eqb unit_file_state "enabled");
      rewrite assign_bind, invoke_lift_bind, (status_item_None _ _ Hnone);
      eexists; (split; [done|]); done.
Qed.

End Slots.

(** ** Networks by name, peers and paths *)

Lemma VStr_eq s v : Dyn.eq (VStr s) v = true <-> v = VStr s.
Proof.
  destruct v; simpl; try (split; [discriminate | congruence]).
  rewrite String.eqb_eq. split; congruence.
Qed.

Lemma populate_from_appends content :
  forall shown, populate_from content (length shown) shown = (shown ++ content)%list.
Proof.
  induction content as [|texts rest IH]; intros shown; simpl.
  - by rewrite app_nil_r.
  - rewrite firstn_all, skipn_all.
    replace (S (length shown)) with (length (shown ++ [texts]))
      by (rewrite length_app; simpl; lia).
    rewrite IH. by rewrite <- app_assoc.
Qed.

Lemma replace_from_absent old_head old_tail new s :
  Dyn.contains old_head s = false ->
  Py.replace_from (String old_head old_tail) new 0 s = s.
Proof.
  induction s as [|c s IH]; [done|]. rewrite contains_cons.
  intros [Hc Hrest]%orb_false_elim. simpl.
  destruct (Ascii.ascii_dec old_head c) as [->|Hne].
  - by rewrite Ascii.eqb_refl in Hc.
  - by rewrite (IH Hrest).
Qed.

Section Lists_of_the_daemon.

Variable json_loads : string -> option value.
Variable E : env.

Lemma find_network_name_first network_id before entry behind :
  Forall (fun network => exists nwid,
            Dyn.getitem network "nwid" = Ok nwid /\ nwid <> VStr network_id) before ->
  Dyn.getitem entry "nwid" = Ok (VStr network_id) ->
  find_network_name network_id (before ++ entry :: behind) = Dyn.getitem entry "name".
Proof.
  intros Hbefore Hentry.
  induction Hbefore as [|network before (nwid & Hget & Hne) _ IH]; simpl.
  - rewrite Hentry. simpl. by rewrite String.eqb_refl.
  - rewrite Hget. simpl. destruct nwid; try done.
    destruct (String.eqb_spec network_id s) as [->|]; [by destruct Hne | done].
Qed.

Lemma find_network_name_none network_id networks :
  Forall (fun network => exists nwid,
            Dyn.getitem network "nwid" = Ok nwid /\ nwid <> VStr network_id) networks ->
  find_network_name network_id networks = Ok VNone /\
  is_on_network_loop network_id networks false = Ok false.
Proof.
  induction 1 as [|network rest (nwid & Hget & Hne) _ [IHname IHon]]; simpl; [done|].
  rewrite Hget. simpl. split.
  - destruct nwid; try done.
    destruct (String.eqb_spec network_id s) as [->|]; [by destruct Hne | done].
  - destruct nwid; try done. simpl.
    destruct (String.eqb_spec s network_id) as [->|]; [by destruct Hne | done].
Qed.

(** X19.  [get_network_name_by_id] answers with the name of the first
    entry whose [nwid] is the id, and with [None] when the list has no
    such entry, which is when [is_on_network] answers [False]. *)
Theorem get_network_name_by_id_finds_first network_id st networks st1 :
  get_networks_info json_loads E st = (Ok (VList networks), st1) ->
  (forall before entry behind,
     networks = (before ++ entry :: behind)%list ->
     Forall (fun network => exists nwid,
               Dyn.getitem network "nwid" = Ok nwid /\ nwid <> VStr network_id) before ->
     Dyn.getitem entry "nwid" = Ok (VStr network_id) ->
     get_network_name_by_id json_loads E network_id st = (Dyn.getitem entry "name", st1) /\
     is_on_network json_loads E network_id st = (Ok true, st1)) /\
  (Forall (fun network => exists nwid,
             Dyn.getitem network "nwid" = Ok nwid /\ nwid <> VStr network_id) networks ->
   get_network_name_by_id json_loads E network_id st = (Ok VNone, st1) /\
   is_on_network json_loads E network_id st = (Ok false, st1)).
Proof.
  intros Hinfo.
  assert (Hname : get_network_name_by_id json_loads E network_id st
                  = (find_network_name network_id networks, st1)).
  { unfold get_network_name_by_id. rewrite (bind_Ok _ _ _ _ _ Hinfo). by rewrite lift_bind. }
  assert (Hon : is_on_network json_loads E network_id st
                = (is_on_network_loop network_id networks false, st1)).
  { unfold is_on_network. rewrite (bind_Ok _ _ _ _ _ Hinfo). by rewrite lift_bind. }
  rewrite Hname, Hon. split.
  - intros before entry behind -> Hbefore Hentry. split.
    + by rewrite (find_network_name_first _ _ _ _ Hbefore Hentry).
    + rewrite (is_on_network_loop_first _ _ _ _ Hbefore), Hentry.
      assert (Dyn.eq (VStr network_id) (VStr network_id) = true) as ->
        by by apply eq_VStr.
      done.
  - intros Hnone. destruct (find_network_name_none _ _ Hnone) as [-> ->]. done.
Qed.

Lemma collect_peers_rows peers :
  forall positions fieldss collected,
    Forall2 (fun j fields => exists peer, peers !! j = Some peer /\ is_peer peer fields)
      positions fieldss ->
    collect_peers (VList peers) positions collected
    = Ok (collected ++ map peer_row fieldss)%list.
Proof.
  intros positions fieldss collected Hall. revert collected.
  induction Hall as [|j [[[address version] role] latency] positions fieldss
                       (peer & Hj & Ha & Hv & Hr & Hl) _ IH]; intros collected; simpl.
  - by rewrite app_nil_r.
  - unfold field. simpl. rewrite Hj. unfold mbind, res_bind. simpl.
    rewrite Ha, Hv, Hr, Hl. rewrite IH. by rewrite <- app_assoc.
Qed.

(** X20.  [PeersList.refresh] replaces what its table showed by one row
    per peer, in the order of the list: address, version, role and
    latency as [str] prints them, where the version [-1.-1.-1] is shown
    as a dash and a version without a minus sign is shown as it is. *)
Theorem PeersList_refresh_shows_every_peer table st peers st1 fieldss :
  get_peers_info json_loads E st = (Ok (VList peers), st1) ->
  Forall2 is_peer peers fieldss ->
  PeersList_refresh json_loads E table st = (Ok (map peer_row fieldss), st1) /\
  Py.replace "-1.-1.-1" "-" "-1.-1.-1" = "-" /\
  (forall version, Dyn.contains "-" version = false ->
     Py.replace "-1.-1.-1" "-" version = version).
Proof.
  intros Hinfo Hall. split; [|split; [done|]].
  - unfold PeersList_refresh. rewrite (bind_Ok _ _ _ _ _ Hinfo).
    rewrite lift_bind. simpl. rewrite lift_bind.
    rewrite (collect_peers_rows peers _ fieldss []).
    + unfold mret, M_ret, populate. simpl.
      by rewrite (populate_from_appends _ []).
    + apply Forall2_same_length_lookup. split.
      * rewrite length_seq. by eapply Forall2_length.
      * intros i j fields Hseq Hfields. apply lookup_seq in Hseq as [-> Hlt]. simpl.
        destruct (Forall2_lookup_r _ _ _ _ _ Hall Hfields) as (peer & Hpeer & His).
        by exists peer.
  - intros version Habsent. by apply replace_from_absent.
Qed.

End Lists_of_the_daemon.

Lemma collect_paths_rows paths :
  forall positions fieldss collected,
    Forall2 (fun j fields => exists path, paths !! j = Some path /\ is_path path fields)
      positions fieldss ->
    collect_paths (VList paths) positions collected
    = Ok (collected ++ map (map Dyn.str) fieldss)%list.
Proof.
  intros positions fieldss collected Hall. revert collected.
  induction Hall as [|j fields positions fieldss (path & Hj & Hpath) _ IH];
    intros collected; simpl.
  - by rewrite app_nil_r.
  - unfold is_path, path_keys in Hpath.
    repeat match goal with
           | H : Forall2 _ (_ :: _) _ |- _ =>
               apply Forall2_cons_inv_l in H as (? & ? & ? & H & ->)
           | H : Forall2 _ [] _ |- _ => apply Forall2_nil_inv_l in H as ->
           end.
    unfold field. simpl. rewrite Hj. unfold mbind, res_bind. simpl.
    repeat match goal with H : Dyn.getitem path _ = Ok _ |- _ => rewrite H; clear H end.
    rewrite IH. by rewrite <- app_assoc.
Qed.

Lemma getindex_int_last peers last :
  Dyn.getindex_int (VList (peers ++ [last])) (-1) = Ok last.
Proof.
  unfold Dyn.getindex_int. rewrite length_app. simpl.
  replace (0 <=? -1) with false by done. simpl.
  replace (- Z.of_nat (length peers + 1) <=? -1) with true
    by (symmetry; apply Z.leb_le; lia).
  simpl. replace (Z.to_nat (Z.of_nat (length peers + 1) + -1)) with (length peers) by lia.
  by rewrite list_lookup_middle.
Qed.

Section Dialog_of_paths.

Variable json_loads : string -> option value.
Variable E : env.

(** X21.  [PeerPaths.refresh] asks the daemon for the peers twice, once
    for the paths and once for the address, and takes the peer at the
    index of the dialog both times, an index of -1 standing for the last
    peer.  When the answer stays the same, label and window title name
    the address of that peer and the table shows one row per path, the
    seven fields in the order of the columns, as [str] prints them. *)
Theorem PeerPaths_refresh_shows_every_path dialog st tok out peers peer address paths fieldss :
  authtoken st = Some tok ->
  (forall events,
     run E events ["zerotier-cli"; "-T" ++ tok; "-j"; "peers"] = Some (0, out)) ->
  json_loads out = Some peers ->
  Dyn.getindex_int peers (peerIndex dialog) = Ok peer ->
  Dyn.getitem peer "paths" = Ok (VList paths) ->
  Dyn.getitem peer "address" = Ok address ->
  Forall2 is_path paths fieldss ->
  PeerPaths_refresh json_loads E (dialog, st) =
    (Ok tt,
     ({| peerIndex := peerIndex dialog;
         paths_label := "Paths for peer " ++ Dyn.str address;
         paths_windowTitle := "Paths for peer " ++ Dyn.str address;
         paths_table := map (map Dyn.str) fieldss |},
      after st [Exec ["zerotier-cli"; "-T" ++ tok; "-j"; "peers"];
                Exec ["zerotier-cli"; "-T" ++ tok; "-j"; "peers"]])) /\
  (forall others last, Dyn.getindex_int (VList (others ++ [last])) (-1) = Ok last).
Proof.
  intros Htok Hrun Hjson Hpeer Hpaths Haddress Hall. split; [|apply getindex_int_last].
  assert (Hinfo : forall s, authtoken s = Some tok ->
            get_peers_info json_loads E s
            = (Ok peers, after s [Exec ["zerotier-cli"; "-T" ++ tok; "-j"; "peers"]])).
  { intros s Hs. unfold get_peers_info.
    rewrite (bind_Ok _ _ _ _ _ (zerotier_cli_Ok E _ _ _ _ (get_token_cached E _ _ Hs))).
    rewrite (bind_Ok _ _ _ _ _ (check_output_Ok E _ _ _ (Hrun _))).
    by rewrite Hjson. }
  unfold PeerPaths_refresh. rewrite self_bind.
  rewrite (invoke_bind_Ok _ _ _ _ _ _ (Hinfo st Htok)).
  rewrite invoke_lift_bind, Hpeer, invoke_lift_bind, Hpaths.
  rewrite (invoke_bind_Ok _ _ _ _ _ _
             (Hinfo (after st [Exec ["zerotier-cli"; "-T" ++ tok; "-j"; "peers"]]) Htok)).
  rewrite invoke_lift_bind, Hpeer, invoke_lift_bind, Haddress.
  rewrite assign_bind, invoke_lift_bind. simpl.
  rewrite invoke_lift_bind.
  rewrite (collect_paths_rows paths _ fieldss []).
  - unfold assign, populate. simpl.
    by rewrite (populate_from_appends _ []), after_after.
  - apply Forall2_same_length_lookup. split.
    + rewrite length_seq. by eapply Forall2_length.
    + intros i j fields Hseq Hfields. apply lookup_seq in Hseq as [-> Hlt]. simpl.
      destruct (Forall2_lookup_r _ _ _ _ _ Hall Hfields) as (path & Hpath & His).
      by exists path.
Qed.

End Dialog_of_paths.

Section Slots_of_the_table.

Variable json_loads : string -> option value.
Variable E : env.

(** X22.  [call_join_network] refreshes only after a successful join.
    When [join_network] answers [False], nothing is refreshed, the text
    box keeps its text and no timer is started.  When it answers [True]
    and the refresh succeeds, the text box is cleared and two further
    refreshes are scheduled, after one and after five seconds; when the
    refresh raises, neither happens. *)
Theorem call_join_network_refreshes_after_join w st st1 :
  (join_network json_loads E (joinTextBox w) st = (Ok false, st1) ->
     call_join_network json_loads E (w, st) = (Ok tt, (w, st1))) /\
  (join_network json_loads E (joinTextBox w) st = (Ok true, st1) ->
     forall r st2,
       refresh_networks json_loads E st1 = (r, st2) ->
       call_join_network json_loads E (w, st) =
         match r with
         | Ok _ =>
             (Ok tt,
              ({| printed := printed w;
                  serviceCheckBox_checked := serviceCheckBox_checked w;
                  serviceCheckBox_toolTip := serviceCheckBox_toolTip w;
                  serviceBtn_icon := serviceBtn_icon w;
                  serviceBtn_toolTip := serviceBtn_toolTip w;
                  joinTextBox := "";
                  singleShot := singleShot w ++ [(1000, Slot_refresh_networks);
                                                 (5000, Slot_refresh_networks)] |}, st2))
         | Raise e => (Raise e, (w, st2))
         end).
Proof.
  split.
  - intros Hjoin. unfold call_join_network. rewrite self_bind.
    by rewrite (invoke_bind_Ok _ _ _ _ _ _ Hjoin).
  - intros Hjoin r st2 Hrefresh. unfold call_join_network.
    rewrite self_bind.
    rewrite (invoke_bind_Ok _ _ _ _ _ _ Hjoin).
    destruct r as [[]|e].
    + rewrite (invoke_bind_Ok _ _ _ _ _ _ Hrefresh).
      unfold clear_joinTextBox, QTimer_singleShot. rewrite !assign_bind.
      unfold assign. simpl. by rewrite <- app_assoc.
    + by rewrite (invoke_bind_Raise _ _ _ _ _ _ Hrefresh).
Qed.

(** X23.  [call_toggle_interface] and [call_leave_network] raise
    [AttributeError] at once when the table has no current item.  With
    a current item they pass its fourth text to [toggle_interface], or
    its first two to [leave_network], and refresh the table only when
    the answer is [True]: a refused prompt or a declined question leaves
    label and table as they were. *)
Theorem table_slots_refresh_on_success st item st1 :
  call_toggle_interface json_loads E None st = (Raise AttributeError, st) /\
  call_leave_network json_loads E None st = (Raise AttributeError, st) /\
  (toggle_interface json_loads E (text item 3) st = (Ok false, st1) ->
     call_toggle_interface json_loads E (Some item) st = (Ok tt, st1) /\
     statusLabel st1 = statusLabel st /\ networksTable st1 = networksTable st) /\
  (toggle_interface json_loads E (text item 3) st = (Ok true, st1) ->
     call_toggle_interface json_loads E (Some item) st = refresh_networks json_loads E st1) /\
  (leave_network E (text item 0) (Some (text item 1)) st = (Ok false, st1) ->
     call_leave_network json_loads E (Some item) st = (Ok tt, st1) /\
     statusLabel st1 = statusLabel st /\ networksTable st1 = networksTable st) /\
  (leave_network E (text item 0) (Some (text item 1)) st = (Ok true, st1) ->
     call_leave_network json_loads E (Some item) st = refresh_networks json_loads E st1).
Proof.
  set (P := fun s : state =>
              statusLabel s = statusLabel st /\ networksTable s = networksTable st).
  assert (HA : forall s events, P s -> P (after s events)) by done.
  assert (HP : P st) by done.
  split; [done|]. split; [done|]. split; [|split; [|split]].
  - intros Htoggle. split.
    + unfold call_toggle_interface. by rewrite (bind_Ok _ _ _ _ _ Htoggle).
    + pose proof (stable_toggle_interface json_loads E P HA (text item 3) st HP) as Hkept.
      by rewrite Htoggle in Hkept.
  - intros Htoggle. unfold call_toggle_interface. by rewrite (bind_Ok _ _ _ _ _ Htoggle).
  - intros Hleave. split.
    + unfold call_leave_network. by rewrite (bind_Ok _ _ _ _ _ Hleave).
    + assert (HT : forall s t, P s -> authtoken s = None ->
                     P {| authtoken := Some t; trace := trace s;
                          statusLabel := statusLabel s; networksTable := networksTable s |})
        by done.
      pose proof (stable_leave_network E P HA HT (text item 0) (Some (text item 1)) st HP)
        as Hkept.
      by rewrite Hleave in Hkept.
  - intros Hleave. unfold call_leave_network. by rewrite (bind_Ok _ _ _ _ _ Hleave).
Qed.

End Slots_of_the_table.

(** ** Start of the program *)

Section Start.

Variable json_loads : string -> option value.
Variable E : env.
Variable which : string -> option string.

Lemma get_service_status_keeps (P : state -> Prop) st :
  (forall s events, P s -> P (after s events)) ->
  P st -> P (snd (get_service_status E st)).
Proof.
  intros HA HP. unfold get_service_status, mbind, M_bind, check_output, lift. simpl.
  destruct (run E (trace st) _) as [[rc out]|]; [|by apply HA].
  destruct (rc =? 0); [|by apply HA].
  destruct (decode out); simpl; by apply HA.
Qed.

Lemma update_service_status_keeps (P : state -> Prop) w st :
  (forall s events, P s -> P (after s events)) ->
  P st -> P (snd (snd (update_service_status E (w, st)))).
Proof.
  intros HA HP. pose proof (get_service_status_keeps P st HA HP) as Hkept.
  unfold update_service_status, mbind, method_bind, invoke, lift, assign,
    set_serviceCheckBox, set_serviceBtn. simpl.
  destruct (get_service_status E st) as [[status|e] st1]; [|done]. simpl in *.
  destruct (status_item status "UnitFileState") as [unit_file_state|]; [|done].
  destruct (String.eqb unit_file_state "enabled"); simpl;
    (destruct (status_item status "ActiveState") as [active_state|]; [|done]);
    by destruct (String.eqb active_state "active").
Qed.

Lemma startup_Ok st st1 :
  startup E which st = (Ok tt, st1) ->
  is_Some (which "zerotier-cli") /\ exists tok, authtoken st1 = Some tok.
Proof.
  unfold startup. intros Hrun.
  apply bind_inv in Hrun as (? & s1 & Hwhich & Hrun).
  apply bind_inv in Hrun as (status & s2 & _ & Hrun).
  apply bind_inv in Hrun as (active_state & s3 & _ & Hrun).
  apply bind_inv in Hrun as (? & s4 & _ & Hrun).
  apply bind_inv in Hrun as (? & s5 & _ & Hrun).
  split.
  - destruct (which "zerotier-cli"); [done|]. by apply bind_inv in Hwhich as (? & ? & _ & ?).
  - unfold try_CalledProcessError in Hrun.
    destruct ((argv ← zerotier_cli E ["listnetworks"]; _ ← check_output E argv; mret tt) s5)
      as [[[]|e] s6] eqn:Hbody.
    + injection Hrun as <-.
      apply bind_inv in Hbody as (argv & s7 & Hcli & Hbody).
      apply bind_inv in Hbody as (out & s8 & Hexec & [= <-]).
      unfold zerotier_cli in Hcli. apply bind_inv in Hcli as (tok & s9 & Htok & [= _ <-]).
      exists tok. apply get_token_caches in Htok.
      unfold check_output in Hexec. simpl in Hexec.
      destruct (run E (trace s9) argv) as [[rc o]|]; [|done].
      destruct (rc =? 0); [|done]. by injection Hexec as _ <-.
    + destruct e; try done.
      apply bind_inv in Hrun as (? & ? & _ & Hrun).
      apply bind_inv in Hrun as (? & ? & _ & Hrun).
      by apply bind_inv in Hrun as (? & ? & _ & Hrun).
Qed.

(** X24.  The main block ends the process before it looks at the
    service or the token when [zerotier-cli] is not found: a critical
    message box is its only effect and the exit status is 127.  When the
    service is not active and the user declines to start it, the process
    ends with status 1 before the token is looked at. *)
Theorem main_stops_early st :
  (which "zerotier-cli" = None ->
     exists message,
       main json_loads E which st =
         (Raise (OsExit 127),
          (new_MainWindow, after st [MessageBox Critical "No zerotier-cli" message]))) /\
  (forall found status st1 active_state,
     which "zerotier-cli" = Some found ->
     get_service_status E st = (Ok status, st1) ->
     status !! "ActiveState" = Some active_state ->
     active_state <> "active" ->
     let title := "Start Service" in
     let question := "The 'zerotier-one' service isn't running." ++ nl ++ nl ++
                     "Do you wish to start it now?" in
     answer E (trace st1) title question = No ->
     main json_loads E which st =
       (Raise (OsExit 1), (new_MainWindow, after st1 [MessageBox Question title question]))).
Proof.
  split.
  - intros Hnone. eexists. unfold main.
    apply invoke_bind_Raise. unfold startup. rewrite Hnone.
    apply bind_Raise. reflexivity.
  - intros found status st1 active_state Hfound Hstatus Hactive Hother title question Hno.
    unfold main. apply invoke_bind_Raise. unfold startup. rewrite Hfound.
    rewrite ret_bind, (bind_Ok _ _ _ _ _ Hstatus).
    rewrite lift_bind, (status_item_Some _ _ _ Hactive).
    apply String.eqb_neq in Hother. rewrite Hother. simpl.
    apply bind_Raise. fold title question. rewrite question_bind, Hno. reflexivity.
Qed.

(** X25.  The main window is created with a resolved token only: when
    the main block reaches the event loop, [zerotier-cli] was found and
    the token is cached, so that no slot of the window has to read a
    file for it. *)
Theorem main_window_has_token st w st1 :
  main json_loads E which st = (Ok tt, (w, st1)) ->
  is_Some (which "zerotier-cli") /\ exists tok, authtoken st1 = Some tok.
Proof.
  unfold main. intros Hmain.
  apply method_bind_inv in Hmain as ([] & [w0 s0] & Hstart & Hinit).
  unfold invoke in Hstart. simpl in Hstart.
  destruct (startup E which st) as [r s1] eqn:Hstartup.
  injection Hstart as -> <- <-.
  destruct (startup_Ok _ _ Hstartup) as [Hfound [tok Htok]].
  split; [done|]. exists tok.
  unfold MainWindow_init in Hinit.
  apply method_bind_inv in Hinit as ([] & [w1 s2] & Hupdate & Hrefresh).
  assert (Hs2 : authtoken s2 = Some tok).
  { pose proof (update_service_status_keeps (fun s => authtoken s = Some tok)
                  new_MainWindow s1 (fun _ _ H => H) Htok) as Hkept.
    by rewrite Hupdate in Hkept. }
  unfold invoke in Hrefresh. simpl in Hrefresh.
  pose proof (stable_refresh_networks json_loads E (fun s => authtoken s = Some tok)
                (fun _ _ H => H) (fun _ _ H => H) (fun _ _ H => H)) as Hstable.
  assert (Hfresh : forall s t, authtoken s = Some tok -> authtoken s = None ->
            authtoken {| authtoken := Some t; trace := trace s; statusLabel := statusLabel s;
                         networksTable := networksTable s |} = Some tok) by congruence.
  specialize (Hstable Hfresh s2 Hs2).
  destruct (refresh_networks json_loads E s2) as [r s3]. simpl in *.
  by injection Hrefresh as _ _ <-.
Qed.

(** X26.  When the first command to the daemon fails, the main block
    ends the process with status 1 and the main window is never
    created.  It shows the output of the command in a message box about
    an unknown error, and with exit status 1 it shows it before that in
    a message box saying that the service cannot be reached. *)
Theorem main_when_daemon_refuses st found status st1 st2 tok st3 rc out reason :
  which "zerotier-cli" = Some found ->
  get_service_status E st = (Ok status, st1) ->
  status !! "ActiveState" = Some "active" ->
  setup_auth_token E st1 = (Ok tt, st2) ->
  get_token E st2 = (Ok tok, st3) ->
  let probe := ["zerotier-cli"; "-T" ++ tok; "listnetworks"] in
  run E (trace st3) probe = Some (rc, out) ->
  rc <> 0 ->
  decode out = Ok reason ->
  let unreachable :=
    MessageBox Critical "Error"
      ("The service is active, but zerotier-cli can't connect to it." ++ nl ++ nl ++
       "Command Output:" ++ nl ++ " " ++ Py.strip reason) in
  let unknown :=
    MessageBox Critical "Error"
      ("zerotier-cli exited with an unknown error." ++ nl ++ nl ++
       "Command Output:" ++ nl ++ " " ++ Py.strip reason) in
  main json_loads E which st =
    (Raise (OsExit 1),
     (new_MainWindow,
      after st3 (Exec probe :: if rc =? 1 then [unreachable; unknown] else [unknown]))).
Proof.
  intros Hfound Hstatus Hactive Hsetup Htok probe Hrun Hrc Hdec unreachable unknown.
  unfold main. apply invoke_bind_Raise. unfold startup. rewrite Hfound.
  rewrite ret_bind, (bind_Ok _ _ _ _ _ Hstatus).
  rewrite lift_bind, (status_item_Some _ _ _ Hactive). simpl. rewrite ret_bind.
  rewrite (bind_Ok _ _ _ _ _ Hsetup).
  unfold try_CalledProcessError.
  rewrite (bind_Ok _ _ _ _ _ (zerotier_cli_Ok E _ _ _ _ Htok)). fold probe.
  rewrite (bind_Raise _ _ _ _ _ (check_output_fails E _ _ _ _ Hrun Hrc)).
  destruct (rc =? 1).
  - unfold mbind at 1. unfold M_bind at 1. rewrite lift_bind, Hdec.
    unfold message, emit. simpl. rewrite lift_bind.
    unfold mbind, M_bind, os_exit, raise. simpl. by rewrite !after_after.
  - rewrite ret_bind, lift_bind, Hdec. unfold message, emit.
    unfold mbind, M_bind, os_exit, raise. simpl. by rewrite !after_after.
Qed.

End Start.

(** ** The further properties at work on the sample worlds *)



(** The token of the configuration directory, read without its line end. *)
Lemma get_token_is_stripped_witness :
  let result := get_token Sample.world_user_elsewhere initial in
  fst result = Ok "conftoken0000000000000000" /\
  Py.strip "conftoken0000000000000000" = "conftoken0000000000000000".
Proof.
  intros result. split; [reflexivity|].
  apply (get_token_is_stripped Sample.world_user_elsewhere initial
           "conftoken0000000000000000" (snd result) eq_refl eq_refl).
Defined.


(** The second network of the sample daemon is found behind the first. *)
Lemma is_on_network_stops_at_first_match_witness :
  is_on_network Sample.loads (Sample.world 0 Sample.address_payload Yes)
    "a09acf0233e4b070" Sample.started
  = (Ok true, after Sample.started [Exec (Sample.cli ["-j"; "listnetworks"])]).
Proof.
  destruct (is_on_network_stops_at_first_match Sample.loads
              (Sample.world 0 Sample.address_payload Yes) "a09acf0233e4b070" Sample.started
              (after Sample.started [Exec (Sample.cli ["-j"; "listnetworks"])])
              [VDict [("id", VStr "8056c2e21c000001"); ("nwid", VStr "8056c2e21c000001");
                      ("name", VStr "office"); ("status", VStr "OK"); ("mtu", VInt 2800);
                      ("portDeviceName", VStr "ztabc00001")]]
              (VDict [("id", VStr "a09acf0233e4b070"); ("nwid", VStr "a09acf0233e4b070");
                      ("name", VStr ""); ("status", VStr "REQUESTING_CONFIGURATION");
                      ("mtu", VInt 2800); ("portDeviceName", VStr "ztabc00002")])
              []) as [Hfound _].
  - vm_compute. reflexivity.
  - constructor; [|constructor]. exists (VStr "8056c2e21c000001"). split; [reflexivity|discriminate].
  - apply Hfound. reflexivity.
Defined.

(** A daemon that does not answer: the listing fails with status 1. *)
Lemma join_network_when_listing_fails_witness :
  join_network Desk.loads (Desk.world true true 1 Yes) "17d709436c2c5367" Sample.started
  = (Ok false,
     after Sample.started
       [Exec (Sample.cli ["-j"; "listnetworks"]);
        MessageBox Warning APP_NAME "Invalid network ID"]).
Proof.
  apply (join_network_when_listing_fails Desk.loads (Desk.world true true 1 Yes)
           "17d709436c2c5367" Sample.started Sample.token Sample.started 1
           ("zerotier-cli: missing port and zerotier-one.port not found" ++ nl));
    [reflexivity | reflexivity | discriminate].
Defined.


(** The first device of the daemon stands behind the loopback device;
    a device the table does not have. *)
Lemma get_interface_state_reads_first_entry_witness :
  let E := Sample.world 0 Sample.address_payload Yes in
  let st1 := after Sample.started [Exec ["ip"; "--json"; "address"]] in
  get_interface_state Sample.loads E (VStr "ztabc00001") Sample.started
    = (Ok (VStr "UP"), st1) /\
  get_interface_state Sample.loads E (VStr "eth0") Sample.started
    = (Raise (UnboundLocalError "state"), st1).
Proof.
  intros E st1. split.
  - destruct (get_interface_state_reads_first_entry Sample.loads E (VStr "ztabc00001")
                Sample.started Sample.address_payload Sample.address_payload
                Sample.address_value eq_refl eq_refl eq_refl) as [Hfirst _].
    apply (Hfirst [VDict [("ifname", VStr "lo"); ("operstate", VStr "UNKNOWN")]]
             (VDict [("ifname", VStr "ztabc00001"); ("operstate", VStr "UP")])
             [VDict [("ifname", VStr "ztabc00002"); ("operstate", VStr "DOWN")]]
             (VStr "ztabc00001")); [reflexivity| |reflexivity|reflexivity].
    constructor; [|constructor]. exists (VStr "lo"). split; reflexivity.
  - destruct (get_interface_state_reads_first_entry Sample.loads E (VStr "eth0")
                Sample.started Sample.address_payload Sample.address_payload
                Sample.address_value eq_refl eq_refl eq_refl) as [_ Hnone].
    apply Hnone. repeat constructor.
    + exists (VStr "lo"). split; reflexivity.
    + exists (VStr "ztabc00001"). split; reflexivity.
    + exists (VStr "ztabc00002"). split; reflexivity.
Defined.

(** The device of the second network while it is unbound. *)
Lemma toggle_interface_needs_a_state_witness :
  let E := Sample.world 0 Sample.address_payload_unbound Yes in
  toggle_interface Sample.loads E "ztabc00002" Sample.started
  = (Raise (UnboundLocalError "state"),
     after Sample.started [Exec ["ip"; "--json"; "address"]]).
Proof.
  intros E.
  destruct (toggle_interface_needs_a_state Sample.loads E "ztabc00002" Sample.started
              (Raise (UnboundLocalError "state"))
              (after Sample.started [Exec ["ip"; "--json"; "address"]]) eq_refl)
    as [Hraise _].
  apply Hraise. reflexivity.
Defined.

(** The two networks of the sample daemon in the table of the window. *)
Lemma refresh_networks_shows_every_network_witness :
  let E := Sample.world 0 Sample.address_payload Yes in
  refresh_networks Sample.loads E Sample.started =
    (Ok tt,
     {| authtoken := Some Sample.token;
        trace := [Exec (Sample.cli ["status"]); Exec (Sample.cli ["-j"; "listnetworks"]);
                  Exec ["ip"; "--json"; "address"]; Exec ["ip"; "--json"; "address"]];
        statusLabel := "Your ID: abcdef1234 Status: ONLINE";
        networksTable :=
          [{| cells := ["8056c2e21c000001"; "office"; "OK"; "ztabc00001"]; gray := false |};
           {| cells := ["a09acf0233e4b070"; "Unknown Name"; "REQUESTING_CONFIGURATION";
                        "ztabc00002"];
              gray := true |}] |}).
Proof.
  intros E.
  apply (refresh_networks_shows_every_network Sample.loads E
           Sample.address_payload Sample.address_payload Sample.address_value
           Sample.token Sample.status_text Sample.status_text
           Sample.listnetworks_payload
           [VDict [("id", VStr "8056c2e21c000001"); ("nwid", VStr "8056c2e21c000001");
                   ("name", VStr "office"); ("status", VStr "OK"); ("mtu", VInt 2800);
                   ("portDeviceName", VStr "ztabc00001")];
            VDict [("id", VStr "a09acf0233e4b070"); ("nwid", VStr "a09acf0233e4b070");
                   ("name", VStr ""); ("status", VStr "REQUESTING_CONFIGURATION");
                   ("mtu", VInt 2800); ("portDeviceName", VStr "ztabc00002")]]
           (fun _ => eq_refl) eq_refl eq_refl
           (fun _ => eq_refl) eq_refl (fun _ => eq_refl) eq_refl
           Sample.started "abcdef1234" "ONLINE"
           [{| listed_id := "8056c2e21c000001"; listed_name := "office";
               listed_status := "OK"; listed_device := "ztabc00001";
               listed_operstate := "UP" |};
            {| listed_id := "a09acf0233e4b070"; listed_name := "";
               listed_status := "REQUESTING_CONFIGURATION"; listed_device := "ztabc00002";
               listed_operstate := "DOWN" |}]);
    try reflexivity.
  repeat constructor.
Defined.

(** A refresh while the daemon does not answer. *)
Lemma refresh_networks_when_daemon_fails_witness :
  let E := Desk.world true true 1 Yes in
  let refused := "zerotier-cli: missing port and zerotier-one.port not found" ++ nl in
  refresh_networks Desk.loads E Sample.started =
    (Raise (CalledProcessError 1 (Sample.cli ["status"]) refused),
     after Sample.started [Exec (Sample.cli ["status"])]).
Proof.
  intros E refused.
  destruct (refresh_networks_when_daemon_fails Desk.loads E Sample.started Sample.token 1
              refused Sample.status_text Sample.status_text eq_refl ltac:(discriminate) eq_refl)
    as [Hstatus _].
  apply Hstatus. reflexivity.
Defined.

(** Joining a network leaves label and table alone. *)
Lemma only_refresh_writes_the_view_witness :
  let E := Sample.world 0 Sample.address_payload Yes in
  let shown := snd (refresh_networks Sample.loads E Sample.started) in
  let joined := perform Sample.loads E (Call_join_network "17d709436c2c5367") shown in
  statusLabel joined = "Your ID: abcdef1234 Status: ONLINE" /\
  length (networksTable joined) = 2%nat.
Proof.
  intros E shown joined.
  destruct (only_refresh_writes_the_view Sample.loads E (Call_join_network "17d709436c2c5367")
              shown ltac:(discriminate)) as [Hlabel Htable].
  split.
  - etrans; [exact Hlabel | reflexivity].
  - unfold joined. rewrite Htable. reflexivity.
Defined.

(** The service manager stops the service and refuses to enable it. *)
Lemma manage_service_reports_failures_witness :
  let E := Desk.world true true 0 Yes in
  manage_service E "stop" initial
    = (Ok tt, after initial [Exec ["systemctl"; "stop"; "zerotier-one"]]) /\
  exists message,
    manage_service E "enable" initial
      = (Ok tt, after initial [Exec ["systemctl"; "enable"; "zerotier-one"];
                               MessageBox Warning "Error" message]) /\
    String.prefix "Something went wrong: " message = true.
Proof.
  intros E. split.
  - destruct (manage_service_reports_failures E "stop" initial 0 "" eq_refl)
      as (shown & Hrun & Hnone & _).
    rewrite Hrun, (Hnone eq_refl). reflexivity.
  - destruct (manage_service_reports_failures E "enable" initial 1
                ("Failed to enable unit: Access denied" ++ nl) eq_refl)
      as (shown & Hrun & _ & Hwarned).
    destruct (Hwarned ltac:(discriminate)) as (message & -> & Hprefix).
    exists message. split; [exact Hrun | exact Hprefix].
Defined.

(** A user who declines the copy of the token. *)
Lemma setup_auth_token_needs_consent_witness :
  let E := Sample.world_no_copy 0 No in
  commands_run (trace (snd (setup_auth_token E initial))) = [] /\
  fst (setup_auth_token E initial) = Raise (OsExit 1).
Proof.
  intros E.
  destruct (setup_auth_token_needs_consent E initial (files E [])
              (fun _ _ _ => eq_refl) (fun _ => eq_refl)) as [Hrun Hresult].
  split; [exact Hrun|]. rewrite Hresult. vm_compute. reflexivity.
Defined.

(** The status of a running service that is not enabled. *)
Lemma get_service_status_reads_properties_witness :
  let E := Desk.world true false 0 Yes in
  get_service_status E initial =
    (Ok (list_to_map [("UnitFileState", "disabled"); ("ActiveState", "active")]),
     after initial [Exec Desk.show_argv]).
Proof.
  intros E.
  apply (get_service_status_reads_properties E initial
           (show_output (Desk.properties true false)) (Desk.properties true false)
           eq_refl eq_refl).
  repeat constructor.
Defined.

(** The empty entry behind the last line of the output. *)
Lemma format_data_skips_other_lines_witness :
  format_data ["ActiveState=active"; "UnitFileState=enabled"; ""]
  = format_data ["ActiveState=active"; "UnitFileState=enabled"].
Proof.
  apply (format_data_skips_other_lines ["ActiveState=active"; "UnitFileState=enabled"] "" []).
  reflexivity.
Defined.

(** Stopping a running service, and disabling its unit. *)
Lemma service_slots_act_then_show_witness :
  let E := Desk.world true true 0 Yes in
  let shown := Exec Desk.show_argv in
  start_stop_service E (new_MainWindow, initial) =
    (Ok tt,
     (service_widgets new_MainWindow "enabled" "inactive",
      after initial [shown; Exec ["systemctl"; "stop"; "zerotier-one"]; shown])) /\
  enable_disable_service E (new_MainWindow, initial) =
    (Ok tt,
     (service_widgets
        {| printed := ["Disabling service"];
           serviceCheckBox_checked := false; serviceCheckBox_toolTip := "";
           serviceBtn_icon := ""; serviceBtn_toolTip := ""; joinTextBox := "";
           singleShot := [] |}
        "disabled" "active",
      after initial [shown; Exec ["systemctl"; "disable"; "zerotier-one"]; shown])).
Proof.
  intros E shown. split.
  - destruct (service_slots_act_then_show E new_MainWindow initial
                (list_to_map [("UnitFileState", "enabled"); ("ActiveState", "active")])
                (after initial [shown])
                (after initial [shown; Exec ["systemctl"; "stop"; "zerotier-one"]])
                (list_to_map [("UnitFileState", "enabled"); ("ActiveState", "inactive")])
                (after initial [shown; Exec ["systemctl"; "stop"; "zerotier-one"]; shown])
                "enabled" "active" "enabled" "inactive"
                eq_refl eq_refl eq_refl eq_refl eq_refl eq_refl) as [Hstart _].
    apply Hstart. reflexivity.
  - destruct (service_slots_act_then_show E new_MainWindow initial
                (list_to_map [("UnitFileState", "enabled"); ("ActiveState", "active")])
                (after initial [shown])
                (after initial [shown; Exec ["systemctl"; "disable"; "zerotier-one"]])
                (list_to_map [("UnitFileState", "disabled"); ("ActiveState", "active")])
                (after initial [shown; Exec ["systemctl"; "disable"; "zerotier-one"]; shown])
                "enabled" "active" "disabled" "active"
                eq_refl eq_refl eq_refl eq_refl eq_refl eq_refl) as [_ Henable].
    apply Henable. reflexivity.
Defined.

(** A service manager that prints nothing, and one that prints the
    state of the unit file alone. *)
Lemma service_slots_need_both_properties_witness :
  let silent := Desk.world_showing "" in
  let partial := Desk.world_showing ("UnitFileState=enabled" ++ nl) in
  let st1 := after initial [Exec Desk.show_argv] in
  start_stop_service silent (new_MainWindow, initial)
    = (Raise (KeyError "ActiveState"), (new_MainWindow, st1)) /\
  update_service_status silent (new_MainWindow, initial)
    = (Raise (KeyError "UnitFileState"), (new_MainWindow, st1)) /\
  exists w',
    update_service_status partial (new_MainWindow, initial)
      = (Raise (KeyError "ActiveState"), (w', st1)) /\
    serviceCheckBox_checked w' = true.
Proof.
  intros silent partial st1.
  destruct (service_slots_need_both_properties silent new_MainWindow initial ∅ st1 eq_refl)
    as (Hactive & Hunit & _).
  destruct (service_slots_need_both_properties partial new_MainWindow initial
              (list_to_map [("UnitFileState", "enabled")]) st1 eq_refl)
    as (_ & _ & Hpartial).
  split; [by apply Hactive|]. split; [by apply Hunit|].
  destruct (Hpartial "enabled" eq_refl eq_refl) as (w' & Hrun & Hchecked & _).
  exists w'. split; [exact Hrun | exact Hchecked].
Defined.

(** The name of a network of the daemon, and of one it does not list. *)
Lemma get_network_name_by_id_finds_first_witness :
  let E := Sample.world 0 Sample.address_payload Yes in
  let st1 := after Sample.started [Exec (Sample.cli ["-j"; "listnetworks"])] in
  get_network_name_by_id Sample.loads E "8056c2e21c000001" Sample.started
    = (Ok (VStr "office"), st1) /\
  get_network_name_by_id Sample.loads E "17d709436c2c5367" Sample.started
    = (Ok VNone, st1).
Proof.
  intros E st1.
  pose (office := VDict [("id", VStr "8056c2e21c000001"); ("nwid", VStr "8056c2e21c000001");
                         ("name", VStr "office"); ("status", VStr "OK"); ("mtu", VInt 2800);
                         ("portDeviceName", VStr "ztabc00001")]).
  pose (unnamed := VDict [("id", VStr "a09acf0233e4b070"); ("nwid", VStr "a09acf0233e4b070");
                          ("name", VStr ""); ("status", VStr "REQUESTING_CONFIGURATION");
                          ("mtu", VInt 2800); ("portDeviceName", VStr "ztabc00002")]).
  split.
  - destruct (get_network_name_by_id_finds_first Sample.loads E "8056c2e21c000001"
                Sample.started [office; unnamed] st1 eq_refl) as [Hfirst _].
    destruct (Hfirst [] office [unnamed] eq_refl ltac:(constructor) eq_refl) as [Hname _].
    exact Hname.
  - destruct (get_network_name_by_id_finds_first Sample.loads E "17d709436c2c5367"
                Sample.started [office; unnamed] st1 eq_refl) as [_ Hnone].
    destruct Hnone as [Hname _]; [|exact Hname].
    repeat constructor.
    + exists (VStr "8056c2e21c000001"). split; [reflexivity|discriminate].
    + exists (VStr "a09acf0233e4b070"). split; [reflexivity|discriminate].
Defined.

(** The two peers of the sample daemon in a dialog that showed a row
    before. *)
Lemma PeersList_refresh_shows_every_peer_witness :
  let E := Desk.world true true 0 Yes in
  PeersList_refresh Desk.loads E [["0000000000"; "-"; "LEAF"; "-1"]] Sample.started =
    (Ok [["778cde7190"; "1.10.1"; "PLANET"; "42"]; ["3a46f1bf30"; "-"; "LEAF"; "-1"]],
     after Sample.started [Exec (Sample.cli ["-j"; "peers"])]).
Proof.
  intros E.
  destruct (PeersList_refresh_shows_every_peer Desk.loads E
              [["0000000000"; "-"; "LEAF"; "-1"]] Sample.started
              [Desk.planet_value; Desk.leaf_value]
              (after Sample.started [Exec (Sample.cli ["-j"; "peers"])])
              [(VStr "778cde7190", VStr "1.10.1", VStr "PLANET", VInt 42);
               (VStr "3a46f1bf30", VStr "-1.-1.-1", VStr "LEAF", VInt (-1))]
              eq_refl ltac:(repeat constructor)) as [Hrows _].
  exact Hrows.
Defined.

(** The paths of the first peer. *)
Lemma PeerPaths_refresh_shows_every_path_witness :
  let E := Desk.world true true 0 Yes in
  let dialog := {| peerIndex := 0; paths_label := ""; paths_windowTitle := "";
                   paths_table := [] |} in
  PeerPaths_refresh Desk.loads E (dialog, Sample.started) =
    (Ok tt,
     ({| peerIndex := 0;
         paths_label := "Paths for peer 778cde7190";
         paths_windowTitle := "Paths for peer 778cde7190";
         paths_table := [["103.195.103.66/9993"; "True"; "False"; "1730628000123";
                          "1730628000456"; "True"; "0"]] |},
      after Sample.started [Exec (Sample.cli ["-j"; "peers"]);
                            Exec (Sample.cli ["-j"; "peers"])])).
Proof.
  intros E dialog.
  destruct (PeerPaths_refresh_shows_every_path Desk.loads E dialog Sample.started
              Sample.token Desk.peers_payload (VList [Desk.planet_value; Desk.leaf_value])
              Desk.planet_value (VStr "778cde7190") [Desk.path_value]
              [[VStr "103.195.103.66/9993"; VBool true; VBool false; VInt 1730628000123;
                VInt 1730628000456; VBool true; VInt 0]]
              eq_refl (fun _ => eq_refl) eq_refl eq_refl eq_refl eq_refl
              ltac:(repeat constructor)) as [Hrun _].
  exact Hrun.
Defined.

(** The text box holds a network of the list, and a new one. *)
Lemma call_join_network_refreshes_after_join_witness :
  let E := Sample.world 0 Sample.address_payload Yes in
  let typed network_id :=
    {| printed := []; serviceCheckBox_checked := true; serviceCheckBox_toolTip := "";
       serviceBtn_icon := ""; serviceBtn_toolTip := ""; joinTextBox := network_id;
       singleShot := [] |} in
  let member := call_join_network Sample.loads E (typed "a09acf0233e4b070", Sample.started) in
  let new := call_join_network Sample.loads E (typed "17d709436c2c5367", Sample.started) in
  fst (snd member) = typed "a09acf0233e4b070" /\
  networksTable (snd (snd member)) = [] /\
  joinTextBox (fst (snd new)) = "" /\
  singleShot (fst (snd new)) = [(1000, Slot_refresh_networks); (5000, Slot_refresh_networks)] /\
  length (networksTable (snd (snd new))) = 2%nat.
Proof.
  intros E typed member new.
  destruct (call_join_network_refreshes_after_join Sample.loads E (typed "a09acf0233e4b070")
              Sample.started
              (snd (join_network Sample.loads E "a09acf0233e4b070" Sample.started)))
    as [Hmember _].
  destruct (call_join_network_refreshes_after_join Sample.loads E (typed "17d709436c2c5367")
              Sample.started
              (snd (join_network Sample.loads E "17d709436c2c5367" Sample.started)))
    as [_ Hnew].
  pose proof (Hmember eq_refl) as Hkept.
  pose proof (Hnew eq_refl (Ok tt) _ eq_refl) as Hjoined.
  unfold member, new. rewrite Hkept, Hjoined. repeat split.
Defined.

(** No current item, and an item whose device the user may not
    change. *)
Lemma table_slots_refresh_on_success_witness :
  let E := Sample.world 126 Sample.address_payload Yes in
  let item := {| cells := ["8056c2e21c000001"; "office"; "OK"; "ztabc00001"];
                 gray := false |} in
  call_toggle_interface Sample.loads E None Sample.started
    = (Raise AttributeError, Sample.started) /\
  call_toggle_interface Sample.loads E (Some item) Sample.started
    = (Ok tt, after Sample.started
                [Exec ["ip"; "--json"; "address"];
                 Exec ["pkexec"; "ip"; "link"; "set"; "ztabc00001"; "down"]]).
Proof.
  intros E item.
  destruct (table_slots_refresh_on_success Sample.loads E Sample.started item
              (after Sample.started
                 [Exec ["ip"; "--json"; "address"];
                  Exec ["pkexec"; "ip"; "link"; "set"; "ztabc00001"; "down"]]))
    as (Hnone & _ & Hrefused & _).
  split; [exact Hnone|].
  destruct (Hrefused eq_refl) as [Hrun _]. exact Hrun.
Defined.

(** A system without the client, and a stopped service that the user
    leaves stopped. *)
Lemma main_stops_early_witness :
  let E := Desk.world false true 0 No in
  fst (main Desk.loads E Desk.which_nothing initial) = Raise (OsExit 127) /\
  main Desk.loads E Desk.which_installed initial =
    (Raise (OsExit 1),
     (new_MainWindow,
      after initial
        [Exec Desk.show_argv;
         MessageBox Question "Start Service"
           ("The 'zerotier-one' service isn't running." ++ nl ++ nl ++
            "Do you wish to start it now?")])).
Proof.
  intros E. split.
  - destruct (main_stops_early Desk.loads E Desk.which_nothing initial) as [Hmissing _].
    destruct (Hmissing eq_refl) as [message Hrun]. rewrite Hrun. reflexivity.
  - destruct (main_stops_early Desk.loads E Desk.which_installed initial) as [_ Hdeclined].
    apply (Hdeclined "/usr/bin/zerotier-cli"
             (list_to_map [("UnitFileState", "enabled"); ("ActiveState", "inactive")])
             (after initial [Exec Desk.show_argv]) "inactive");
      [reflexivity | reflexivity | reflexivity | discriminate | reflexivity].
Defined.

(** A start with a running service and a daemon that answers. *)
Lemma main_window_has_token_witness :
  let E := Desk.world true true 0 Yes in
  let result := main Desk.loads E Desk.which_installed initial in
  fst result = Ok tt /\
  is_Some (Desk.which_installed "zerotier-cli") /\
  exists tok, authtoken (snd (snd result)) = Some tok.
Proof.
  intros E result. split; [reflexivity|].
  apply (main_window_has_token Desk.loads E Desk.which_installed initial
           (fst (snd result)) (snd (snd result))).
  reflexivity.
Defined.

(** A start with a running service and a daemon that refuses the
    connection. *)
Lemma main_when_daemon_refuses_witness :
  let E := Desk.world true true 1 Yes in
  let st1 := snd (get_service_status E initial) in
  let st2 := snd (setup_auth_token E st1) in
  let st3 := snd (get_token E st2) in
  let refused := "zerotier-cli: missing port and zerotier-one.port not found" in
  main Desk.loads E Desk.which_installed initial =
    (Raise (OsExit 1),
     (new_MainWindow,
      after st3
        [Exec (Sample.cli ["listnetworks"]);
         MessageBox Critical "Error"
           ("The service is active, but zerotier-cli can't connect to it." ++ nl ++ nl ++
            "Command Output:" ++ nl ++ " " ++ refused);
         MessageBox Critical "Error"
           ("zerotier-cli exited with an unknown error." ++ nl ++ nl ++
            "Command Output:" ++ nl ++ " " ++ refused)])).
Proof.
  intros E st1 st2 st3 refused.
  apply (main_when_daemon_refuses Desk.loads E Desk.which_installed initial
           "/usr/bin/zerotier-cli"
           (list_to_map [("UnitFileState", "enabled"); ("ActiveState", "active")])
           st1 st2 Sample.token st3 1 (refused ++ nl) (refused ++ nl));
    [reflexivity | reflexivity | reflexivity | reflexivity | reflexivity | reflexivity
    | discriminate | reflexivity].
Defined.
